(** * OpenProject MCP gateway: a shallow embedding of [mcp_agent.py],
      [query_db.py] and [pm_launch.py]

    The gateway is a set of thin forwarding functions around one request
    executor, [make_request], plus a substring lookup over a local endpoint
    catalog.  This development embeds

    - the JSON values the functions build and the text [json.dumps] and
      [json.loads] exchange for them,
    - the way a Python call binds keyword arguments and the way a function
      body finds its local variables,
    - the [httpx] client as an oracle answering one request at a time, with
      the list of requests that were actually issued,
    - [make_request] and the operations the properties below talk about,
    - the catalog lookup [search_endpoint] / [query_api] and the [LIKE]
      operator of SQLite it relies on,
    - the tool functions and the end-of-conversation test of the
      orchestrator, with the MCP server they post to as a second oracle,

    and then states and proves the properties.

    Strings.  A Python [str] is embedded as a Rocq [string]; a character is
    read as the code point of the same number, so the model covers the texts
    whose code points lie in U+0000..U+00FF.

    Numbers.  Python [int] is [Z].  Floating point values are not modelled:
    a JSON literal with a fraction or an exponent is outside the model.
    CPython writes and reads an integer as text only up to 4300 digits;
    [writable] marks the integers within this limit, and the statements
    about code that writes or reads an integer are made for them. *)

From Stdlib Require Import ZArith List String Ascii Bool Lia Arith.
From Stdlib Require Import Decimal DecimalFacts DecimalPos DecimalZ.
Import ListNotations.

Local Open Scope string_scope.
Local Open Scope list_scope.
Local Open Scope Z_scope.

Set Implicit Arguments.

(* ================================================================== *)
(** * Part I.  JSON values *)
(* ================================================================== *)

(** A Python [dict] keeps its keys in insertion order and [json.dumps]
    writes them in that order, so a dictionary is an association list. *)

Unset Elimination Schemes.
Inductive json : Type :=
| JNull
| JBool (b : bool)
| JInt (n : Z)
| JStr (s : string)
| JList (l : list json)
| JDict (d : list (string * json)).
Set Elimination Schemes.

Definition dict := list (string * json).

Fixpoint dict_get (d : dict) (k : string) : option json :=
  match d with
  | [] => None
  | (k', v) :: d' => if String.eqb k k' then Some v else dict_get d' k
  end.

(** [d[k] = v]: an existing key keeps its place, a new key goes last. *)
Fixpoint dict_set (d : dict) (k : string) (v : json) : dict :=
  match d with
  | [] => [(k, v)]
  | (k', v') :: d' =>
      if String.eqb k k' then (k', v) :: d' else (k', v') :: dict_set d' k v
  end.

(** [dict(pairs)]: the pairs are inserted from left to right. *)
Definition dict_of_pairs (l : list (string * json)) : dict :=
  fold_left (fun d kv => dict_set d (fst kv) (snd kv)) l [].

Definition dict_keys (d : dict) : list string := map fst d.

(** Truth value of a dictionary: [if d:] holds when [d] is not empty. *)
Definition dict_truthy (d : dict) : bool :=
  match d with [] => false | _ => true end.

(** A value that a Python program can hold: no dictionary has a key twice. *)
Fixpoint json_wf (v : json) : Prop :=
  match v with
  | JList l => (fix all (l : list json) : Prop :=
                  match l with [] => True | x :: l' => json_wf x /\ all l' end) l
  | JDict d => NoDup (map fst d) /\
               (fix all (d : dict) : Prop :=
                  match d with [] => True | (_, x) :: d' => json_wf x /\ all d' end) d
  | _ => True
  end.

(** Number of nodes, counting one more for each element of a container. *)
Fixpoint json_size (v : json) : nat :=
  match v with
  | JList l => S ((fix sum (l : list json) : nat :=
                     match l with [] => O | x :: l' => S (json_size x + sum l') end) l)
  | JDict d => S ((fix sum (d : dict) : nat :=
                     match d with [] => O | (_, x) :: d' => S (json_size x + sum d') end) d)
  | _ => 1%nat
  end.

(* ------------------------------------------------------------------ *)
(** ** Characters *)

Local Open Scope char_scope.

Definition quote : ascii := "034".
Definition backslash : ascii := "092".

Definition chars (s : string) : list ascii := list_ascii_of_string s.
Definition text (l : list ascii) : string := string_of_list_ascii l.

Definition code (c : ascii) : N := N_of_ascii c.

(** A text written with apostrophes in the place of double quotes. *)
Definition dq (s : string) : string :=
  text (map (fun c => if (code c =? 39)%N then quote else c) (chars s)).

Definition hex_digit (n : N) : ascii :=
  match n with
  | 0%N => "0" | 1%N => "1" | 2%N => "2" | 3%N => "3" | 4%N => "4"
  | 5%N => "5" | 6%N => "6" | 7%N => "7" | 8%N => "8" | 9%N => "9"
  | 10%N => "a" | 11%N => "b" | 12%N => "c" | 13%N => "d" | 14%N => "e"
  | _ => "f"
  end.

Definition hex_value (c : ascii) : option N :=
  let n := code c in
  if ((48 <=? n) && (n <=? 57))%N then Some (n - 48)%N
  else if ((97 <=? n) && (n <=? 102))%N then Some (n - 87)%N
  else if ((65 <=? n) && (n <=? 70))%N then Some (n - 55)%N
  else None.

(** The characters [json.dumps] writes for one character of a string
    (the default [ensure_ascii=True]): a short escape for the quote, the
    backslash and five control characters, the character itself when it is
    printable ASCII, and a [\uXXXX] escape otherwise. *)
Definition escape_char (c : ascii) : list ascii :=
  let n := code c in
  if (n =? 34)%N then [backslash; quote]
  else if (n =? 92)%N then [backslash; backslash]
  else if (n =? 10)%N then [backslash; "n"]
  else if (n =? 13)%N then [backslash; "r"]
  else if (n =? 9)%N then [backslash; "t"]
  else if (n =? 8)%N then [backslash; "b"]
  else if (n =? 12)%N then [backslash; "f"]
  else if ((32 <=? n) && (n <=? 126))%N then [c]
  else [backslash; "u"; "0"; "0"; hex_digit (n / 16)%N; hex_digit (n mod 16)%N].

Definition escape_chars (l : list ascii) : list ascii :=
  flat_map escape_char l.

Definition dumps_str (s : string) : list ascii :=
  quote :: escape_chars (chars s) ++ [quote].

(* ------------------------------------------------------------------ *)
(** ** Integers in decimal, as [str(n)] and [json.dumps] write them *)

Fixpoint chars_of_uint (d : uint) : list ascii :=
  match d with
  | Nil => []
  | D0 d => "0" :: chars_of_uint d
  | D1 d => "1" :: chars_of_uint d
  | D2 d => "2" :: chars_of_uint d
  | D3 d => "3" :: chars_of_uint d
  | D4 d => "4" :: chars_of_uint d
  | D5 d => "5" :: chars_of_uint d
  | D6 d => "6" :: chars_of_uint d
  | D7 d => "7" :: chars_of_uint d
  | D8 d => "8" :: chars_of_uint d
  | D9 d => "9" :: chars_of_uint d
  end.

Definition chars_of_int (n : Z) : list ascii :=
  match Z.to_int n with
  | Pos d => chars_of_uint d
  | Neg d => "-" :: chars_of_uint d
  end.

(** [str(n)] for an integer [n], as an f-string inserts it. *)
Definition str_of_int (n : Z) : string := text (chars_of_int n).

(* ------------------------------------------------------------------ *)
(** ** [json.dumps] with its default separators [", "] and [": "] *)

Fixpoint dumps_chars (v : json) : list ascii :=
  match v with
  | JNull => chars "null"
  | JBool true => chars "true"
  | JBool false => chars "false"
  | JInt n => chars_of_int n
  | JStr s => dumps_str s
  | JList l =>
      "[" :: match l with
             | [] => ["]"]
             | x :: l' =>
                 dumps_chars x ++
                 (fix more (l : list json) : list ascii :=
                    match l with
                    | [] => ["]"]
                    | y :: l'' => "," :: " " :: dumps_chars y ++ more l''
                    end) l'
             end
  | JDict d =>
      "{" :: match d with
             | [] => ["}"]
             | (k, x) :: d' =>
                 dumps_str k ++ ":" :: " " :: dumps_chars x ++
                 (fix more (d : dict) : list ascii :=
                    match d with
                    | [] => ["}"]
                    | (k', y) :: d'' =>
                        "," :: " " :: dumps_str k' ++ ":" :: " " :: dumps_chars y ++ more d''
                    end) d'
             end
  end.

Definition json_dumps (v : json) : string := text (dumps_chars v).

(* ------------------------------------------------------------------ *)
(** ** [repr(v)] and [str(v)]

    [repr] of a string is written between apostrophes, or between double
    quotes when the string holds an apostrophe and no double quote.  The
    backslash and the quote in use are escaped with a backslash; tab, line
    feed and carriage return are written with their letters; every other
    character that is not printable is written [\xhh]: in U+0000..U+00FF
    these are the controls below U+0020, U+007F to U+00A0 and U+00AD.
    [repr] of a list or of a dictionary writes the [repr] of its elements.
    [str] of a string is the string itself, [str] of another value is its
    [repr].  As with [json_dumps], these are the texts written when the
    integers are within the limit of the next section. *)

Definition apostrophe : ascii := "039".

Definition repr_quote (l : list ascii) : ascii :=
  if existsb (fun c => (code c =? 39)%N) l && negb (existsb (fun c => (code c =? 34)%N) l)
  then quote else apostrophe.

Definition repr_char (q c : ascii) : list ascii :=
  let n := code c in
  if ((n =? code q) || (n =? 92))%N then [backslash; c]
  else if (n =? 9)%N then [backslash; "t"]
  else if (n =? 10)%N then [backslash; "n"]
  else if (n =? 13)%N then [backslash; "r"]
  else if ((n <? 32) || ((127 <=? n) && (n <=? 160)) || (n =? 173))%N
       then [backslash; "x"; hex_digit (n / 16)%N; hex_digit (n mod 16)%N]
  else [c].

Definition repr_str (s : string) : list ascii :=
  let q := repr_quote (chars s) in
  q :: flat_map (repr_char q) (chars s) ++ [q].

Fixpoint repr_chars (v : json) : list ascii :=
  match v with
  | JNull => chars "None"
  | JBool true => chars "True"
  | JBool false => chars "False"
  | JInt n => chars_of_int n
  | JStr s => repr_str s
  | JList l =>
      "[" :: match l with
             | [] => ["]"]
             | x :: l' =>
                 repr_chars x ++
                 (fix more (l : list json) : list ascii :=
                    match l with
                    | [] => ["]"]
                    | y :: l'' => "," :: " " :: repr_chars y ++ more l''
                    end) l'
             end
  | JDict d =>
      "{" :: match d with
             | [] => ["}"]
             | (k, x) :: d' =>
                 repr_str k ++ ":" :: " " :: repr_chars x ++
                 (fix more (d : dict) : list ascii :=
                    match d with
                    | [] => ["}"]
                    | (k', y) :: d'' =>
                        "," :: " " :: repr_str k' ++ ":" :: " " :: repr_chars y ++ more d''
                    end) d'
             end
  end.

Definition repr (v : json) : string := text (repr_chars v).

(** [str(v)] *)
Definition str_of_value (v : json) : string :=
  match v with
  | JStr s => s
  | _ => repr v
  end.

(* ------------------------------------------------------------------ *)
(** ** The limit on the digits of an integer

    CPython 3.11 and later write an integer as text only when it has at
    most 4300 digits: beyond that [str(n)], an f-string and [json.dumps]
    raise [ValueError], and so does [json.loads] on such a numeral.
    [str_of_int] and [json_dumps] are the texts written within the limit;
    the statements about code that writes an integer are made for the
    integers that are [writable]. *)

Definition int_max_str_digits : Z := 4300.

Definition writable (n : Z) : bool := (Z.abs n <? 10 ^ int_max_str_digits)%Z.

Definition opt_writable (o : option Z) : bool :=
  match o with Some n => writable n | None => true end.

Fixpoint json_writable (v : json) : bool :=
  match v with
  | JInt n => writable n
  | JList l => (fix all (l : list json) : bool :=
                  match l with [] => true | x :: l' => json_writable x && all l' end) l
  | JDict d => (fix all (d : dict) : bool :=
                  match d with [] => true | (_, x) :: d' => json_writable x && all d' end) d
  | _ => true
  end.

(** The message of the [ValueError]. *)
Definition int_limit_text : string :=
  "Exceeds the limit (4300 digits) for integer string conversion; use sys.set_int_max_str_digits() to increase the limit".

(* ------------------------------------------------------------------ *)
(** ** [json.loads]

    The decoder follows the scanner of the [json] module: white space is
    blank, tab, line feed and carriage return; a string ends at the first
    unescaped quote and may not hold a raw control character; an integer is
    an optional minus sign followed by a single zero or by digits that do
    not start with zero.  [None] stands for [JSONDecodeError].  Three kinds
    of text are outside the model and also give [None]: a number with a
    fraction or an exponent, the constants [NaN] and [Infinity], and a
    [\uXXXX] escape above U+00FF.  A numeral of more than 4300 digits, on
    which [json.loads] raises [ValueError], is decoded here: the statements
    about a decoded value are made for the values that are
    [json_writable]. *)

Definition is_ws (c : ascii) : bool :=
  let n := code c in
  ((n =? 32) || (n =? 9) || (n =? 10) || (n =? 13))%N.

Fixpoint skip_ws (s : list ascii) : list ascii :=
  match s with
  | c :: r => if is_ws c then skip_ws r else s
  | [] => []
  end.

Definition unescape (c : ascii) : option ascii :=
  let n := code c in
  if (n =? 34)%N then Some quote
  else if (n =? 92)%N then Some backslash
  else if (n =? 47)%N then Some "/"
  else if (n =? 98)%N then Some "008"
  else if (n =? 102)%N then Some "012"
  else if (n =? 110)%N then Some "010"
  else if (n =? 114)%N then Some "013"
  else if (n =? 116)%N then Some "009"
  else None.

Definition hex4 (a b c d : ascii) : option N :=
  match hex_value a, hex_value b, hex_value c, hex_value d with
  | Some x, Some y, Some z, Some w => Some (((x * 16 + y) * 16 + z) * 16 + w)%N
  | _, _, _, _ => None
  end.

(** The body of a string, read after its opening quote. *)
Fixpoint scanstring (s : list ascii) : option (list ascii * list ascii) :=
  match s with
  | [] => None
  | c :: r =>
      if (code c =? 34)%N then Some ([], r)
      else if (code c =? 92)%N then
        match r with
        | [] => None
        | e :: r1 =>
            if (code e =? 117)%N then
              match r1 with
              | h1 :: h2 :: h3 :: h4 :: r2 =>
                  match hex4 h1 h2 h3 h4 with
                  | Some n =>
                      if (n <? 256)%N then
                        match scanstring r2 with
                        | Some (l, rest) => Some (ascii_of_N n :: l, rest)
                        | None => None
                        end
                      else None
                  | None => None
                  end
              | _ => None
              end
            else
              match unescape e with
              | Some c' =>
                  match scanstring r1 with
                  | Some (l, rest) => Some (c' :: l, rest)
                  | None => None
                  end
              | None => None
              end
        end
      else if (code c <? 32)%N then None
      else
        match scanstring r with
        | Some (l, rest) => Some (c :: l, rest)
        | None => None
        end
  end.

Definition digit_of (c : ascii) : option (uint -> uint) :=
  match code c with
  | 48%N => Some D0 | 49%N => Some D1 | 50%N => Some D2 | 51%N => Some D3
  | 52%N => Some D4 | 53%N => Some D5 | 54%N => Some D6 | 55%N => Some D7
  | 56%N => Some D8 | 57%N => Some D9
  | _ => None
  end.

Definition is_digit (c : ascii) : bool :=
  match digit_of c with Some _ => true | None => false end.

(** The longest run of digits at the head of [s]. *)
Fixpoint read_digits (s : list ascii) : uint * list ascii :=
  match s with
  | c :: r =>
      match digit_of c with
      | Some dg => let (d, rest) := read_digits r in (dg d, rest)
      | None => (Nil, s)
      end
  | [] => (Nil, [])
  end.

(** What follows the integer part makes the literal a float. *)
Definition float_follows (s : list ascii) : bool :=
  match s with
  | "." :: c :: _ => is_digit c
  | "e" :: c :: r | "E" :: c :: r =>
      is_digit c ||
      (((code c =? 43) || (code c =? 45))%N &&
       match r with c' :: _ => is_digit c' | [] => false end)
  | _ => false
  end.

Definition scan_int_part (s : list ascii) : option (uint * list ascii) :=
  match s with
  | c :: r =>
      if (code c =? 48)%N then Some (D0 Nil, r)
      else if is_digit c then Some (read_digits s)
      else None
  | [] => None
  end.

Definition scan_number (s : list ascii) : option (json * list ascii) :=
  let (neg, s1) := match s with
                   | c :: r => if (code c =? 45)%N then (true, r) else (false, s)
                   | [] => (false, s)
                   end in
  match scan_int_part s1 with
  | Some (d, rest) =>
      if float_follows rest then None
      else Some (JInt (Z.of_int (if neg then Neg d else Pos d)), rest)
  | None => None
  end.

Fixpoint strip_prefix (p s : list ascii) : option (list ascii) :=
  match p, s with
  | [], _ => Some s
  | a :: p', b :: s' => if Ascii.eqb a b then strip_prefix p' s' else None
  | _ :: _, [] => None
  end.

(** [scan_once] reads one value; [scan_items] reads the elements of an
    array after its first bracket or a comma; [scan_members] reads the
    members of an object, starting at the quote of a key.  The fuel bounds
    the number of nested calls. *)
Fixpoint scan_once (fuel : nat) (s : list ascii) {struct fuel}
  : option (json * list ascii) :=
  match fuel with
  | O => None
  | S fuel' =>
      match s with
      | [] => None
      | c :: r =>
          if (code c =? 34)%N then
            match scanstring r with
            | Some (l, rest) => Some (JStr (text l), rest)
            | None => None
            end
          else if (code c =? 123)%N then
            match skip_ws r with
            | c' :: r' =>
                if (code c' =? 125)%N then Some (JDict [], r')
                else match scan_members fuel' (c' :: r') with
                     | Some (ps, rest) => Some (JDict (dict_of_pairs ps), rest)
                     | None => None
                     end
            | [] => None
            end
          else if (code c =? 91)%N then
            match skip_ws r with
            | c' :: r' =>
                if (code c' =? 93)%N then Some (JList [], r')
                else match scan_items fuel' (c' :: r') with
                     | Some (vs, rest) => Some (JList vs, rest)
                     | None => None
                     end
            | [] => None
            end
          else
            match strip_prefix (chars "null") s with
            | Some rest => Some (JNull, rest)
            | None =>
            match strip_prefix (chars "true") s with
            | Some rest => Some (JBool true, rest)
            | None =>
            match strip_prefix (chars "false") s with
            | Some rest => Some (JBool false, rest)
            | None => scan_number s
            end end end
      end
  end

with scan_items (fuel : nat) (s : list ascii) {struct fuel}
  : option (list json * list ascii) :=
  match fuel with
  | O => None
  | S fuel' =>
      match scan_once fuel' s with
      | Some (v, r) =>
          match skip_ws r with
          | c :: r' =>
              if (code c =? 93)%N then Some ([v], r')
              else if (code c =? 44)%N then
                match scan_items fuel' (skip_ws r') with
                | Some (vs, rest) => Some (v :: vs, rest)
                | None => None
                end
              else None
          | [] => None
          end
      | None => None
      end
  end

with scan_members (fuel : nat) (s : list ascii) {struct fuel}
  : option (list (string * json) * list ascii) :=
  match fuel with
  | O => None
  | S fuel' =>
      match s with
      | c :: r =>
          if (code c =? 34)%N then
            match scanstring r with
            | Some (k, r1) =>
                match skip_ws r1 with
                | c1 :: r2 =>
                    if (code c1 =? 58)%N then
                      match scan_once fuel' (skip_ws r2) with
                      | Some (v, r3) =>
                          match skip_ws r3 with
                          | c2 :: r4 =>
                              if (code c2 =? 125)%N then Some ([(text k, v)], r4)
                              else if (code c2 =? 44)%N then
                                match scan_members fuel' (skip_ws r4) with
                                | Some (ps, rest) => Some ((text k, v) :: ps, rest)
                                | None => None
                                end
                              else None
                          | [] => None
                          end
                      | None => None
                      end
                    else None
                | [] => None
                end
            | None => None
            end
          else None
      | [] => None
      end
  end.

(** [json.loads]: one value, with white space allowed around it and
    nothing else after it. *)
Definition loads_chars (s : list ascii) : option json :=
  let s0 := skip_ws s in
  match scan_once (2 * List.length s0 + 2)%nat s0 with
  | Some (v, rest) =>
      match skip_ws rest with
      | [] => Some v
      | _ :: _ => None
      end
  | None => None
  end.

Definition json_loads (s : string) : option json := loads_chars (chars s).

Local Open Scope list_scope.
Local Open Scope string_scope.
Local Open Scope Z_scope.

(* ================================================================== *)
(** * Part II.  Python calls, exceptions and the network *)
(* ================================================================== *)

(** The exceptions the modelled code can meet, each with its message. *)
Inductive exn : Type :=
| TypeError (msg : string)
| UnboundLocalError (msg : string)
| JSONDecodeError (msg : string)
| OperationalError (msg : string)
| ValueError (msg : string).

Inductive outcome (A : Type) : Type :=
| Returned (a : A)
| Raised (e : exn).
Arguments Returned {A} a.
Arguments Raised {A} e.

(** Text of the [TypeError] of a call that passes a keyword the function
    does not declare, and of a call that leaves out a required parameter. *)
Definition unexpected_keyword (f k : string) : string :=
  f ++ "() got an unexpected keyword argument '" ++ k ++ "'".

Definition missing_argument (f k : string) : string :=
  f ++ "() missing 1 required positional argument: '" ++ k ++ "'".

(** ** Requests and the upstream server *)

(** The keyword arguments [make_request] hands to the [httpx] client.
    [None] in [ra_params] or [ra_json] means that the key is not in
    [request_args]; [Some None] that it is there with the value [None]. *)
Record request_args : Type := {
  ra_headers : list (string * string);
  ra_timeout : Z;
  ra_params : option (option dict);
  ra_json : option (option dict)
}.

(** One HTTP exchange as the client sees it: one call of a request method
    of the client with the arguments it is handed. *)
Record request : Type := {
  rq_verb : string;
  rq_url : string;
  rq_args : request_args
}.

(** What one request comes back with: a response with its status code and
    body text, or an exception the client raises while it prepares or
    performs the exchange (name resolution, refused connection, timeout,
    ...) with its message. *)
Inductive upstream_outcome : Type :=
| Response (status_code : Z) (body : string)
| TransportFailure (message : string).

(** One row of the table [api_endpoints]. *)
Record endpoint_row : Type := {
  row_path : string;
  row_method : string;
  row_description : string;
  row_request_body : string;
  row_responses : string
}.

(** Everything outside the code: the two names imported from [config], the
    process environment, the server, the catalog table, and three texts
    produced by libraries: the message of the exception [response.json()]
    raises on a body, the message of the exception raised when the client
    is asked for an attribute that is not a request method, and [str(v)] of
    a Python value. *)
Record world : Type := {
  host : string;
  api_key : string;
  getenv : string -> option string;
  upstream : request -> upstream_outcome;
  api_endpoints : list endpoint_row;
  json_error_text : string -> string;
  client_error_text : string -> string;
  py_str : json -> string
}.

(** ** Computations that may raise and that record the requests issued *)

Definition M (A : Type) : Type := outcome A * list request.

Definition ret {A} (a : A) : M A := (Returned a, []).
Definition raise {A} (e : exn) : M A := (Raised e, []).

Definition bind {A B} (m : M A) (k : A -> M B) : M B :=
  match m with
  | (Returned a, t) => let (r, t') := k a in (r, (t ++ t')%list)
  | (Raised e, t) => (Raised e, t)
  end.

(** [try: m  except Exception as e: handler e] *)
Definition try_except {A} (m : M A) (handler : exn -> M A) : M A :=
  match m with
  | (Raised e, t) => let (r, t') := handler e in (r, (t ++ t')%list)
  | (Returned a, t) => (Returned a, t)
  end.

Notation "x <- m ;; k" := (bind m (fun x => k))
  (at level 61, m at next level, right associativity).

(** [str(e)] *)
Definition str (e : exn) : string :=
  match e with
  | TypeError msg => msg
  | UnboundLocalError msg => msg
  | JSONDecodeError msg => msg
  | OperationalError msg => msg
  | ValueError msg => msg
  end.

(** Message of [UnboundLocalError] (the wording of CPython 3.11 and later). *)
Definition unbound_local (name : string) : string :=
  "cannot access local variable '" ++ name ++
  "' where it is not associated with a value".

(** Reading a local variable of a function.  A name that is assigned
    somewhere in a function body is local to the whole body; reading it
    before its first assignment raises [UnboundLocalError]. *)
Definition load_local {A} (name : string) (v : option A) : M A :=
  match v with
  | Some a => ret a
  | None => raise (UnboundLocalError (unbound_local name))
  end.

(** [os.getenv(name, default)] *)
Definition os_getenv (w : world) (name default : string) : string :=
  match getenv w name with Some v => v | None => default end.

(** The value of a parameter with a default when the caller may omit it. *)
Definition or_default {A} (o : option A) (d : A) : A :=
  match o with Some a => a | None => d end.

(** Truth value of an optional dictionary: [if d:]. *)
Definition opt_dict_truthy (o : option dict) : bool :=
  match o with Some d => dict_truthy d | None => false end.

(** ** [str.lower] *)

Definition lower_char (c : ascii) : ascii :=
  let n := code c in
  if ((65 <=? n) && (n <=? 90))%N then ascii_of_N (n + 32)
  else if ((192 <=? n) && (n <=? 222) && negb (n =? 215))%N then ascii_of_N (n + 32)
  else c.

Definition lower (s : string) : string := text (map lower_char (chars s)).

Fixpoint in_list (x : string) (l : list string) : bool :=
  match l with
  | [] => false
  | y :: l' => String.eqb x y || in_list x l'
  end.

(* ================================================================== *)
(** * Part III.  The request executor *)
(* ================================================================== *)

Definition USER_AGENT : string :=
  "Mozilla/5.0 (Windows NT 10.0; Win64; x64) AppleWebKit/537.36 (KHTML, like Gecko) Chrome/91.0.4472.124 Safari/537.36".

Fixpoint headers_set (h : list (string * string)) (k v : string)
  : list (string * string) :=
  match h with
  | [] => [(k, v)]
  | (k', v') :: h' =>
      if String.eqb k k' then (k', v) :: h' else (k', v') :: headers_set h' k v
  end.

(** The methods for which [data] travels as query parameters. *)
Definition query_methods : list string := ["get"; "delete"; "head"; "options"].

(** The request methods of [httpx.AsyncClient]. *)
Definition client_methods : list string :=
  ["get"; "options"; "head"; "post"; "put"; "patch"; "delete"].

(** [data or params] *)
Definition data_or_params (data params : option dict) : option dict :=
  if opt_dict_truthy data then data else params.

(** Lines 42-51 of [make_request]: the dictionary [request_args]. *)
Definition build_request_args (headers : list (string * string))
  (method_lower : string) (data params : option dict) : request_args :=
  if in_list method_lower query_methods then
    {| ra_headers := headers; ra_timeout := 30;
       ra_params := Some (data_or_params data params);
       ra_json := None |}
  else
    {| ra_headers := headers; ra_timeout := 30;
       ra_params := if opt_dict_truthy params then Some params else None;
       ra_json := Some data |}.

Definition http_error (status_code : Z) (body : string) : json :=
  JDict [("error", JStr "HTTP error");
         ("status", JInt status_code);
         ("details", JStr body)].

Definition request_failed (details : string) : json :=
  JDict [("error", JStr "Request failed"); ("details", JStr details)].

(** [response.raise_for_status()] lets the 2xx codes through. *)
Definition is_success (status_code : Z) : bool :=
  (200 <=? status_code) && (status_code <=? 299).

(** [make_request(url, method, headers, data, params)], its parameters
    bound.  [getattr(client, method_lower)(url, **request_args)] issues a
    request when the name is a request method of the client and raises
    without any traffic otherwise; every exception is turned into an error
    record by one of the two handlers. *)
Definition make_request (w : world) (url method : string)
  (headers : option (list (string * string))) (data params : option dict)
  : json * list request :=
  let headers := headers_set (or_default headers []) "User-Agent" USER_AGENT in
  let method_lower := lower method in
  let request_args := build_request_args headers method_lower data params in
  if in_list method_lower client_methods then
    let rq := {| rq_verb := method_lower; rq_url := url; rq_args := request_args |} in
    match upstream w rq with
    | Response status_code body =>
        if is_success status_code then
          match json_loads body with
          | Some v => (v, [rq])
          | None => (request_failed (json_error_text w body), [rq])
          end
        else (http_error status_code body, [rq])
    | TransportFailure message => (request_failed message, [rq])
    end
  else (request_failed (client_error_text w method_lower), []).

(** A call site of [make_request], by keyword.  [None] is a keyword the
    call does not use.  The signature declares [url], [method], [headers],
    [data] and [params]; it declares neither [json] nor [files]. *)
Record make_request_call : Type := {
  kw_url : option string;
  kw_method : option string;
  kw_headers : option (list (string * string));
  kw_data : option dict;
  kw_params : option dict;
  kw_json : option json;
  kw_files : option json
}.

(** Binding the keywords of a call to the parameters of [make_request]:
    an undeclared keyword or a missing required parameter is a [TypeError]
    raised at the call, before the body runs. *)
Definition call_make_request (w : world) (c : make_request_call) : M json :=
  match kw_json c, kw_files c with
  | Some _, _ => raise (TypeError (unexpected_keyword "make_request" "json"))
  | None, Some _ => raise (TypeError (unexpected_keyword "make_request" "files"))
  | None, None =>
      match kw_url c, kw_method c with
      | Some url, Some method =>
          let (response, t) := make_request w url method (kw_headers c)
                                 (kw_data c) (kw_params c) in
          (Returned response, t)
      | None, _ => raise (TypeError (missing_argument "make_request" "url"))
      | Some _, None => raise (TypeError (missing_argument "make_request" "method"))
      end
  end.

(* ================================================================== *)
(** * Part IV.  The operations *)
(* ================================================================== *)

(** A parameter [p: Optional[T] = None] is an [option T]; a parameter with
    another default, such as [public: bool = True], is an [option] too,
    [None] being a call that leaves it out, and the body starts from
    [or_default p d].

    An id is written into the URL with an f-string that stands before the
    try block.  The definitions below are the bodies for ids and filters
    within the limit on the digits of an integer; [run], further down, adds
    the [ValueError] of a call beyond it. *)

Definition json_headers (api_key : string) : list (string * string) :=
  [("Authorization", "Basic " ++ api_key); ("Content-Type", "application/json")].

(** The call [make_request(url=.., method=.., headers=.., params=.., json=..)];
    [None] for [params] or [json] is a call without that keyword. *)
Definition request_call (url method : string) (headers : list (string * string))
  (params : option dict) (json_kw : option json) : make_request_call :=
  {| kw_url := Some url; kw_method := Some method; kw_headers := Some headers;
     kw_data := None; kw_params := params; kw_json := json_kw; kw_files := None |}.

(** The value of an optional string or integer when [if x:] holds. *)
Definition if_str (o : option string) : option string :=
  match o with
  | Some EmptyString => None
  | other => other
  end.

Definition if_int (o : option Z) : option Z :=
  match o with
  | Some 0 => None
  | other => other
  end.

Definition opt_str (o : option string) : json :=
  match o with Some s => JStr s | None => JNull end.

Definition markdown (s : string) : json :=
  JDict [("format", JStr "markdown"); ("raw", JStr s)].

Definition raw (s : string) : json := JDict [("raw", JStr s)].

Definition href (s : string) : json := JDict [("href", JStr s)].

Definition true_false (b : bool) : json := JStr (if b then "true" else "false").

(** The try block shared by most operations: call, serialise, and on any
    exception return the operation's error sentence. *)
Definition send (w : world) (c : make_request_call) (error_prefix : string) : M json :=
  try_except
    (response <- call_make_request w c ;;
     ret (JStr (json_dumps response)))
    (fun e => ret (JStr (error_prefix ++ str e))).

(** ** run_api *)

Definition run_api (w : world) (query method : string) : M json :=
  let host := "pm.v.spaceagecu.org/api/v3" in
  let api_url := "https://" ++ host ++ query in
  (* [api_key = f"Basic {api_key}"]: the name is assigned here, so it is a
     local of [run_api], and it is read before it has a value *)
  api_key0 <- load_local "api_key" (@None string) ;;
  let api_key := "Basic " ++ api_key0 in
  let headers := [("Authorization", api_key); ("Content-Type", "application/json");
                  ("Connection", "keep-alive")] in
  response <- call_make_request w (request_call api_url method headers None None) ;;
  ret (JStr (json_dumps response)).

(** ** Projects *)

Definition create_project_payload (name : string) (description identifier : option string)
  (public : bool) (status_explanation : option string) : dict :=
  let payload := [("name", JStr name);
                  ("identifier", opt_str identifier);
                  ("public", JBool public);
                  ("active", JBool true);
                  ("_type", JStr "Project")] in
  let payload := match if_str description with
                 | Some s => dict_set payload "description" (markdown s)
                 | None => payload
                 end in
  let payload := match if_str status_explanation with
                 | Some s => dict_set payload "statusExplanation" (markdown s)
                 | None => payload
                 end in
  payload.

Definition create_project (w : world) (name : string)
  (description identifier : option string) (public : option bool)
  (status_explanation : option string) : M json :=
  let public := or_default public true in
  let api_url := "https://" ++ host w ++ "/api/v3/projects" in
  let headers := json_headers (api_key w) in
  let payload := create_project_payload name description identifier public
                   status_explanation in
  send w (request_call api_url "POST" headers None (Some (JDict payload)))
       "Error creating project: ".

Definition view_project (w : world) (project_id : Z) : M json :=
  let api_url := "https://" ++ host w ++ "/api/v3/projects/" ++ str_of_int project_id in
  let headers := json_headers (api_key w) in
  send w (request_call api_url "GET" headers None None)
       ("Error retrieving project " ++ str_of_int project_id ++ ": ").

Definition list_projects (w : world) : M json :=
  let api_url := "https://" ++ host w ++ "/api/v3/projects" in
  let headers := json_headers (api_key w) in
  call_make_request w (request_call api_url "GET" headers None None).

Definition list_statuses (w : world) : M json :=
  let api_url := "https://" ++ host w ++ "/api/v3/statuses" in
  let headers := json_headers (api_key w) in
  send w (request_call api_url "GET" headers None None)
       "Error retrieving work package statuses: ".

Definition update_project_payload (name description identifier : option string)
  (public active : option bool) (status_explanation : option string) : dict :=
  let payload := [] in
  let payload := match name with
                 | Some s => dict_set payload "name" (JStr s)
                 | None => payload
                 end in
  let payload := match identifier with
                 | Some s => dict_set payload "identifier" (JStr s)
                 | None => payload
                 end in
  let payload := match public with
                 | Some b => dict_set payload "public" (JBool b)
                 | None => payload
                 end in
  let payload := match active with
                 | Some b => dict_set payload "active" (JBool b)
                 | None => payload
                 end in
  let payload := match description with
                 | Some s => dict_set payload "description" (raw s)
                 | None => payload
                 end in
  let payload := match status_explanation with
                 | Some s => dict_set payload "statusExplanation" (raw s)
                 | None => payload
                 end in
  payload.

Definition no_update_fields : string :=
  "No update fields provided. Please specify at least one field to change.".

Definition update_project (w : world) (project_id : Z)
  (name description identifier : option string) (public active : option bool)
  (status_explanation : option string) : M json :=
  let api_url := "https://" ++ host w ++ "/api/v3/projects/" ++ str_of_int project_id in
  let headers := json_headers (api_key w) in
  let payload := update_project_payload name description identifier public active
                   status_explanation in
  if negb (dict_truthy payload) then ret (JStr no_update_fields)
  else
    send w (request_call api_url "PATCH" headers None (Some (JDict payload)))
         ("Error updating project " ++ str_of_int project_id ++ ": ").

(** [status_id: Union[int, str]] *)
Inductive int_or_str : Type :=
| AnInt (n : Z)
| AStr (s : string).

Definition format_id (i : int_or_str) : string :=
  match i with AnInt n => str_of_int n | AStr s => s end.

Definition view_project_status (w : world) (status_id : int_or_str) : M json :=
  let api_url := "https://" ++ host w ++ "/api/v3/project_statuses/" ++ format_id status_id in
  let headers := json_headers (api_key w) in
  send w (request_call api_url "GET" headers None None)
       ("Error retrieving project status " ++ format_id status_id ++ ": ").

(** [filters: Optional[Union[List, Dict]]] *)
Inductive filter_input : Type :=
| FilterList (l : list json)
| FilterDict (d : dict).

Definition filter_value (f : filter_input) : json :=
  match f with FilterList l => JList l | FilterDict d => JDict d end.

Definition get_project_work_packages_params (offset page_size : option Z)
  (filters : option filter_input) (sort_by : option (list dict))
  (group_by : option string) (show_sums : option bool)
  (select : option (list string)) : dict :=
  let params := [] in
  let params := match offset with
                | Some n => dict_set params "offset" (JInt n)
                | None => params
                end in
  let params := match page_size with
                | Some n => dict_set params "pageSize" (JInt n)
                | None => params
                end in
  let params := match filters with
                | Some f => dict_set params "filters" (JStr (json_dumps (filter_value f)))
                | None => params
                end in
  let params := match sort_by with
                | Some l => dict_set params "sortBy" (JStr (json_dumps (JList (map JDict l))))
                | None => params
                end in
  let params := match group_by with
                | Some s => dict_set params "groupBy" (JStr s)
                | None => params
                end in
  let params := match show_sums with
                | Some b => dict_set params "showSums" (true_false b)
                | None => params
                end in
  let params := match select with
                | Some l => dict_set params "select" (JStr (String.concat "," l))
                | None => params
                end in
  params.

Definition get_project_work_packages (w : world) (project_id : Z)
  (offset page_size : option Z) (filters : option filter_input)
  (sort_by : option (list dict)) (group_by : option string)
  (show_sums : option bool) (select : option (list string)) : M json :=
  let api_url := "https://" ++ host w ++ "/api/v3/projects/" ++ str_of_int project_id
                 ++ "/work_packages" in
  let headers := json_headers (api_key w) in
  let params := get_project_work_packages_params offset page_size filters sort_by
                  group_by show_sums select in
  send w (request_call api_url "GET" headers (Some params) None)
       ("Error retrieving work packages for project " ++ str_of_int project_id ++ ": ").

Definition get_project_available_assignees (w : world) (project_id : Z) : M json :=
  let api_url := "https://" ++ host w ++ "/api/v3/projects/" ++ str_of_int project_id
                 ++ "/available_assignees" in
  let headers := json_headers (api_key w) in
  send w (request_call api_url "GET" headers None None)
       ("Error retrieving available assignees for project " ++ str_of_int project_id ++ ": ").

(** ** Work packages *)

Definition view_work_package (w : world) (work_package_id : Z)
  (timestamps : option (list string)) : M json :=
  let api_url := "https://" ++ host w ++ "/api/v3/work_packages/"
                 ++ str_of_int work_package_id in
  let headers := json_headers (api_key w) in
  let params := [] in
  let params := match timestamps with
                | Some l => dict_set params "timestamps" (JStr (String.concat "," l))
                | None => params
                end in
  send w (request_call api_url "GET" headers (Some params) None)
       ("Error retrieving work package " ++ str_of_int work_package_id ++ ": ").

Definition notify_params (notify : bool) : dict := [("notify", true_false notify)].

Definition create_work_package_links (type_id priority_id status_id assignee_id : option Z)
  : dict :=
  let links := [] in
  let links := match if_int type_id with
               | Some n => dict_set links "type" (href ("/api/v3/types/" ++ str_of_int n))
               | None => links
               end in
  let links := match if_int priority_id with
               | Some n => dict_set links "priority"
                             (href ("/api/v3/priorities/" ++ str_of_int n))
               | None => links
               end in
  let links := match if_int status_id with
               | Some n => dict_set links "status" (href ("/api/v3/statuses/" ++ str_of_int n))
               | None => links
               end in
  let links := match if_int assignee_id with
               | Some n => dict_set links "assignee" (href ("/api/v3/users/" ++ str_of_int n))
               | None => links
               end in
  links.

Definition create_work_package_payload (subject : string) (description : option string)
  (type_id priority_id status_id assignee_id : option Z)
  (start_date due_date estimated_time : option string) : dict :=
  let payload := [("subject", JStr subject)] in
  let payload := match if_str description with
                 | Some s => dict_set payload "description" (raw s)
                 | None => payload
                 end in
  let payload := match if_str start_date with
                 | Some s => dict_set payload "startDate" (JStr s)
                 | None => payload
                 end in
  let payload := match if_str due_date with
                 | Some s => dict_set payload "dueDate" (JStr s)
                 | None => payload
                 end in
  let payload := match if_str estimated_time with
                 | Some s => dict_set payload "estimatedTime" (JStr s)
                 | None => payload
                 end in
  let links := create_work_package_links type_id priority_id status_id assignee_id in
  let payload := if dict_truthy links then dict_set payload "_links" (JDict links)
                 else payload in
  payload.

Definition create_work_package (w : world) (project_id : Z) (subject : string)
  (description : option string) (type_id priority_id status_id assignee_id : option Z)
  (start_date due_date estimated_time : option string) (notify : option bool) : M json :=
  let notify := or_default notify true in
  let api_url := "https://" ++ host w ++ "/api/v3/projects/" ++ str_of_int project_id
                 ++ "/work_packages" in
  let headers := json_headers (api_key w) in
  let params := notify_params notify in
  let payload := create_work_package_payload subject description type_id priority_id
                   status_id assignee_id start_date due_date estimated_time in
  send w (request_call api_url "POST" headers (Some params) (Some (JDict payload)))
       ("Error creating work package in project " ++ str_of_int project_id ++ ": ").

Definition default_status_filter : json :=
  JDict [("status_id", JDict [("operator", JStr "o"); ("values", JNull)])].

(** [[default_status_filter, *filters]]: unpacking a list gives its
    elements, unpacking a dictionary gives its keys. *)
Definition unpack (f : filter_input) : list json :=
  match f with
  | FilterList l => l
  | FilterDict d => map JStr (dict_keys d)
  end.

(** [filters == []] *)
Definition is_empty_list (f : filter_input) : bool :=
  match f with
  | FilterList [] => true
  | _ => false
  end.

Definition effective_filters (filters : option filter_input) : list json :=
  match filters with
  | None => [default_status_filter]
  | Some f => if is_empty_list f then [] else default_status_filter :: unpack f
  end.

Definition list_work_packages_params (filters : option filter_input) : dict :=
  let effective_sort_by := JList [JList [JStr "id"; JStr "asc"]] in
  let effective_timestamps := "PT0S" in
  [("offset", JInt 1);
   ("pageSize", JInt 20);
   ("filters", JStr (json_dumps (JList (effective_filters filters))));
   ("sortBy", JStr (json_dumps effective_sort_by));
   ("showSums", JStr "false");
   ("timestamps", JStr effective_timestamps)].

Definition list_work_packages (w : world) (filters : option filter_input) : M json :=
  let api_url := "https://" ++ host w ++ "/api/v3/work_packages" in
  let headers := json_headers (api_key w) in
  let params := list_work_packages_params filters in
  send w (request_call api_url "GET" headers (Some params) None)
       "Error listing work packages: ".

Definition list_work_package_activities (w : world) (work_package_id : Z) : M json :=
  let api_url := "https://" ++ host w ++ "/api/v3/work_packages/"
                 ++ str_of_int work_package_id ++ "/activities" in
  let headers := json_headers (api_key w) in
  send w (request_call api_url "GET" headers None None)
       ("Error retrieving activities for work package "
        ++ str_of_int work_package_id ++ ": ").

Definition update_work_package_links (type_id priority_id status_id assignee_id : option Z)
  : dict :=
  let links := [] in
  let links := match type_id with
               | Some n => dict_set links "type" (href ("/api/v3/types/" ++ str_of_int n))
               | None => links
               end in
  let links := match priority_id with
               | Some n => dict_set links "priority"
                             (href ("/api/v3/priorities/" ++ str_of_int n))
               | None => links
               end in
  let links := match status_id with
               | Some n => dict_set links "status" (href ("/api/v3/statuses/" ++ str_of_int n))
               | None => links
               end in
  let links := match assignee_id with
               | Some n => dict_set links "assignee" (href ("/api/v3/users/" ++ str_of_int n))
               | None => links
               end in
  links.

Definition update_work_package_payload (lock_version : Z) (subject description : option string)
  (percentage_done type_id priority_id status_id assignee_id : option Z)
  (start_date due_date estimated_time : option string) : dict :=
  let payload := [("lockVersion", JInt lock_version)] in
  let payload := match subject with
                 | Some s => dict_set payload "subject" (JStr s)
                 | None => payload
                 end in
  let payload := match percentage_done with
                 | Some n => dict_set payload "percentageDone" (JInt n)
                 | None => payload
                 end in
  let payload := match start_date with
                 | Some s => dict_set payload "startDate" (JStr s)
                 | None => payload
                 end in
  let payload := match due_date with
                 | Some s => dict_set payload "dueDate" (JStr s)
                 | None => payload
                 end in
  let payload := match estimated_time with
                 | Some s => dict_set payload "estimatedTime" (JStr s)
                 | None => payload
                 end in
  let payload := match description with
                 | Some s => dict_set payload "description" (raw s)
                 | None => payload
                 end in
  let links := update_work_package_links type_id priority_id status_id assignee_id in
  let payload := if dict_truthy links then dict_set payload "_links" (JDict links)
                 else payload in
  payload.

Definition update_work_package (w : world) (work_package_id lock_version : Z)
  (subject description : option string)
  (percentage_done type_id priority_id status_id assignee_id : option Z)
  (start_date due_date estimated_time : option string) (notify : option bool) : M json :=
  let notify := or_default notify true in
  let api_url := "https://" ++ host w ++ "/api/v3/work_packages/"
                 ++ str_of_int work_package_id in
  let headers := json_headers (api_key w) in
  let params := notify_params notify in
  let payload := update_work_package_payload lock_version subject description
                   percentage_done type_id priority_id status_id assignee_id
                   start_date due_date estimated_time in
  send w (request_call api_url "PATCH" headers (Some params) (Some (JDict payload)))
       ("Error updating work package " ++ str_of_int work_package_id ++ ": ").

Definition comment_work_package_payload (comment_text : string) : dict :=
  [("_type", JStr "Comment"); ("comment", raw comment_text)].

Definition comment_work_package (w : world) (work_package_id : Z) (comment_text : string)
  (notify : option bool) : M json :=
  let notify := or_default notify true in
  let api_url := "https://" ++ host w ++ "/api/v3/work_packages/"
                 ++ str_of_int work_package_id ++ "/activities" in
  let headers := json_headers (api_key w) in
  let params := notify_params notify in
  let payload := comment_work_package_payload comment_text in
  send w (request_call api_url "POST" headers (Some params) (Some (JDict payload)))
       ("Error commenting on work package " ++ str_of_int work_package_id ++ ": ").

Definition get_work_package_available_assignees (w : world) (work_package_id : Z) : M json :=
  let api_url := "https://" ++ host w ++ "/api/v3/work_packages/"
                 ++ str_of_int work_package_id ++ "/available_assignees" in
  let headers := json_headers (api_key w) in
  send w (request_call api_url "GET" headers None None)
       ("Error retrieving available assignees for work package "
        ++ str_of_int work_package_id ++ ": ").

Definition get_work_package_available_watchers (w : world) (work_package_id : Z) : M json :=
  let api_url := "https://" ++ host w ++ "/api/v3/work_packages/"
                 ++ str_of_int work_package_id ++ "/available_watchers" in
  let headers := json_headers (api_key w) in
  send w (request_call api_url "GET" headers None None)
       ("Error retrieving available watchers for work package "
        ++ str_of_int work_package_id ++ ": ").

Definition list_work_package_watchers (w : world) (work_package_id : Z) : M json :=
  let api_url := "https://" ++ host w ++ "/api/v3/work_packages/"
                 ++ str_of_int work_package_id ++ "/watchers" in
  let headers := json_headers (api_key w) in
  send w (request_call api_url "GET" headers None None)
       ("Error retrieving watchers for work package "
        ++ str_of_int work_package_id ++ ": ").

Definition add_work_package_watcher_payload (user_id : Z) : dict :=
  [("_links", JDict [("user", href ("/api/v3/users/" ++ str_of_int user_id))])].

Definition add_work_package_watcher (w : world) (work_package_id user_id : Z) : M json :=
  let api_url := "https://" ++ host w ++ "/api/v3/work_packages/"
                 ++ str_of_int work_package_id ++ "/watchers" in
  let headers := json_headers (api_key w) in
  let payload := add_work_package_watcher_payload user_id in
  send w (request_call api_url "POST" headers None (Some (JDict payload)))
       ("Error adding watcher to work package " ++ str_of_int work_package_id ++ ": ").

Definition remove_work_package_watcher (w : world) (work_package_id user_id : Z) : M json :=
  let api_url := "https://" ++ host w ++ "/api/v3/work_packages/"
                 ++ str_of_int work_package_id ++ "/watchers/" ++ str_of_int user_id in
  let headers := json_headers (api_key w) in
  try_except
    (response <- call_make_request w (request_call api_url "DELETE" headers None None) ;;
     ret (JStr ("Successfully removed user " ++ str_of_int user_id
                ++ " as watcher from work package " ++ str_of_int work_package_id
                ++ ". Response: " ++ py_str w response)))
    (fun e => ret (JStr ("Error removing watcher from work package "
                         ++ str_of_int work_package_id ++ ": " ++ str e))).

(** ** Activities and custom actions

    From [view_activity] on, every operation starts with
    [api_key = os.getenv("OPENPROJECT_API_KEY", api_key)].  The assignment
    makes [api_key] a local of the function, so the second argument reads a
    local that has no value yet. *)

Definition view_activity (w : world) (activity_id : Z) : M json :=
  let host := os_getenv w "OPENPROJECT_HOST" "pm.v.spaceagecu.org" in
  api_key0 <- load_local "api_key" (@None string) ;;
  let api_key := os_getenv w "OPENPROJECT_API_KEY" api_key0 in
  let api_url := "https://" ++ host ++ "/api/v3/activities/" ++ str_of_int activity_id in
  let headers := json_headers api_key in
  send w (request_call api_url "GET" headers None None)
       ("Error retrieving activity " ++ str_of_int activity_id ++ ": ").

Definition update_activity_payload (new_comment_text : string) : dict :=
  [("comment", raw new_comment_text)].

Definition update_activity (w : world) (activity_id : Z) (new_comment_text : string)
  : M json :=
  let host := os_getenv w "OPENPROJECT_HOST" "pm.v.spaceagecu.org" in
  api_key0 <- load_local "api_key" (@None string) ;;
  let api_key := os_getenv w "OPENPROJECT_API_KEY" api_key0 in
  let api_url := "https://" ++ host ++ "/api/v3/activities/" ++ str_of_int activity_id in
  let headers := json_headers api_key in
  let payload := update_activity_payload new_comment_text in
  send w (request_call api_url "PATCH" headers None (Some (JDict payload)))
       ("Error updating activity " ++ str_of_int activity_id ++ ": ").

Definition execute_custom_action_payload (work_package_id lock_version : Z) : dict :=
  [("_links", JDict [("workPackage",
                      href ("/api/v3/work_packages/" ++ str_of_int work_package_id))]);
   ("lockVersion", JInt lock_version)].

Definition execute_custom_action (w : world) (custom_action_id work_package_id lock_version : Z)
  : M json :=
  let host := os_getenv w "OPENPROJECT_HOST" "pm.v.spaceagecu.org" in
  api_key0 <- load_local "api_key" (@None string) ;;
  let api_key := os_getenv w "OPENPROJECT_API_KEY" api_key0 in
  let api_url := "https://" ++ host ++ "/api/v3/custom_actions/"
                 ++ str_of_int custom_action_id ++ "/execute" in
  let headers := json_headers api_key in
  let payload := execute_custom_action_payload work_package_id lock_version in
  send w (request_call api_url "POST" headers None (Some (JDict payload)))
       ("Error executing custom action " ++ str_of_int custom_action_id
        ++ " on work package " ++ str_of_int work_package_id ++ ": ").

(* ================================================================== *)
(** * Part V.  The endpoint catalog *)
(* ================================================================== *)

(** ** The [LIKE] operator of SQLite

    [%] matches any run of characters, [_] any single character, and any
    other character matches itself or the same ASCII letter in the other
    case.  The operator works on C strings, which end at the first NUL, and
    refuses a pattern longer than 50000 bytes. *)

Definition sqlite_lower (c : ascii) : ascii :=
  let n := code c in
  if ((65 <=? n) && (n <=? 90))%N then ascii_of_N (n + 32) else c.

Definition like_char (c d : ascii) : bool :=
  (code c =? 95)%N || Ascii.eqb (sqlite_lower c) (sqlite_lower d).

Fixpoint like_chars (p s : list ascii) : bool :=
  match p with
  | [] => match s with [] => true | _ :: _ => false end
  | c :: p' =>
      if (code c =? 37)%N then
        (fix any (s : list ascii) : bool :=
           like_chars p' s ||
           match s with [] => false | _ :: s' => any s' end) s
      else
        match s with
        | [] => false
        | d :: s' => like_char c d && like_chars p' s'
        end
  end.

Fixpoint c_string (s : list ascii) : list ascii :=
  match s with
  | [] => []
  | c :: r => if (code c =? 0)%N then [] else c :: c_string r
  end.

(** Number of bytes of the UTF-8 form of a text of U+0000..U+00FF. *)
Fixpoint utf8_length (s : list ascii) : Z :=
  match s with
  | [] => 0
  | c :: r => (if (code c <? 128)%N then 1 else 2) + utf8_length r
  end.

Definition SQLITE_MAX_LIKE_PATTERN_LENGTH : Z := 50000.

(** [value LIKE pattern] *)
Definition like (pattern value : string) : bool :=
  like_chars (c_string (chars pattern)) (c_string (chars value)).

(** [SELECT ... FROM api_endpoints WHERE path LIKE ?] with the parameter
    [f"%{query}%"]: the rows in table order; the length of the pattern is
    checked when the operator is applied to a row. *)
Definition select_endpoints (rows : list endpoint_row) (query : string)
  : M (list endpoint_row) :=
  let pattern := "%" ++ query ++ "%" in
  match rows with
  | [] => ret []
  | _ :: _ =>
      if SQLITE_MAX_LIKE_PATTERN_LENGTH <? utf8_length (chars pattern)
      then raise (OperationalError "LIKE or GLOB pattern too complex")
      else ret (filter (fun r => like pattern (row_path r)) rows)
  end.

(** [json.loads(s)] as a statement that may raise. *)
Definition loads_or_raise (w : world) (s : string) : M json :=
  match json_loads s with
  | Some v => ret v
  | None => raise (JSONDecodeError (json_error_text w s))
  end.

(** One element of the list comprehension of [search_endpoint]. *)
Definition endpoint_record (w : world) (r : endpoint_row) : M dict :=
  request_body <- (if String.eqb (row_request_body r) "None" then ret JNull
                   else loads_or_raise w (row_request_body r)) ;;
  responses <- loads_or_raise w (row_responses r) ;;
  ret [("path", JStr (row_path r));
       ("method", JStr (row_method r));
       ("description", JStr (row_description r));
       ("request_body", request_body);
       ("responses", responses)].

Fixpoint for_each {A B} (f : A -> M B) (l : list A) : M (list B) :=
  match l with
  | [] => ret []
  | a :: l' => b <- f a ;; bs <- for_each f l' ;; ret (b :: bs)
  end.

Definition search_endpoint (w : world) (query : string) : M (list dict) :=
  results <- select_endpoints (api_endpoints w) query ;;
  for_each (endpoint_record w) results.

(** [d[k]] for a key the dictionary is known to hold. *)
Definition item (d : dict) (k : string) : json := or_default (dict_get d k) JNull.

Definition available_path (endpoint_info : dict) : json :=
  JDict [("path", item endpoint_info "path");
         ("description", item endpoint_info "description");
         ("method", item endpoint_info "method");
         ("request_body", item endpoint_info "request_body");
         ("response", item endpoint_info "responses")].

Definition no_matching_endpoints : json :=
  JDict [("error", JStr "No matching endpoints found")].

Definition query_api (w : world) (query : string) : M json :=
  results <- search_endpoint w query ;;
  match results with
  | [] => ret (JStr (json_dumps no_matching_endpoints))
  | _ :: _ =>
      let available_paths := map available_path results in
      ret (JStr (json_dumps (JDict [("available_paths", JList available_paths)])))
  end.

(* ================================================================== *)
(** * Part VI.  Notions used in the statements *)
(* ================================================================== *)

Local Open Scope list_scope.

(** ** Induction on JSON values

    The induction principle gives the property for the elements of an
    array and for the values of an object. *)

Section JsonInduction.
Variable P : json -> Prop.
Hypothesis Hnull : P JNull.
Hypothesis Hbool : forall b, P (JBool b).
Hypothesis Hint : forall n, P (JInt n).
Hypothesis Hstr : forall s, P (JStr s).
Hypothesis Hlist : forall l, Forall P l -> P (JList l).
Hypothesis Hdict : forall d, Forall (fun kv => P (snd kv)) d -> P (JDict d).

Fixpoint json_ind (v : json) : P v :=
  match v with
  | JNull => Hnull
  | JBool b => Hbool b
  | JInt n => Hint n
  | JStr s => Hstr s
  | JList l =>
      Hlist ((fix go (l : list json) : Forall P l :=
                match l with
                | [] => Forall_nil P
                | x :: l' => Forall_cons x (json_ind x) (go l')
                end) l)
  | JDict d =>
      Hdict ((fix go (d : dict) : Forall (fun kv => P (snd kv)) d :=
                match d with
                | [] => Forall_nil _
                | kv :: d' =>
                    @Forall_cons _ (fun kv => P (snd kv)) kv d' (json_ind (snd kv)) (go d')
                end) d)
  end.
End JsonInduction.

(** ** The decoder

    The pieces of [dumps_chars] and [json_size] that run over the elements
    of a container, as functions of their own. *)

Fixpoint dumps_more (l : list json) : list ascii :=
  match l with
  | [] => ["]"%char]
  | y :: l' => ","%char :: " "%char :: dumps_chars y ++ dumps_more l'
  end.

Fixpoint dumps_more_members (d : dict) : list ascii :=
  match d with
  | [] => ["}"%char]
  | (k, y) :: d' =>
      ","%char :: " "%char :: dumps_str k ++ ":"%char :: " "%char :: dumps_chars y
      ++ dumps_more_members d'
  end.

Fixpoint size_items (l : list json) : nat :=
  match l with
  | [] => O
  | x :: l' => S (json_size x + size_items l')
  end.

Fixpoint size_members (d : dict) : nat :=
  match d with
  | [] => O
  | (_, x) :: d' => S (json_size x + size_members d')
  end.

(** What may follow a value inside a document: nothing, a comma, or a
    closing bracket or brace. *)
Definition at_delimiter (rest : list ascii) : bool :=
  match rest with
  | [] => true
  | c :: _ => ((code c =? 44) || (code c =? 93) || (code c =? 125))%N
  end.

(** The first character of a printed value is not white space and closes
    neither an array nor an object. *)
Definition starts_value (c : ascii) : bool :=
  negb (is_ws c) && negb (code c =? 93)%N && negb (code c =? 125)%N.

(** The statement proved by induction on the value. *)
Definition reads_back (v : json) : Prop :=
  json_wf v ->
  forall fuel rest,
    (json_size v <= fuel)%nat ->
    at_delimiter rest = true ->
    scan_once fuel (dumps_chars v ++ rest) = Some (v, rest).

Local Open Scope string_scope.
Local Open Scope Z_scope.

(** ** The request executor *)

(** The query parameters a set of request arguments carries. *)
Definition query_entries (args : request_args) : dict :=
  match ra_params args with
  | Some (Some d) => d
  | _ => []
  end.

(** The value under a key of a JSON object. *)
Definition field (v : json) (k : string) : option json :=
  match v with
  | JDict d => dict_get d k
  | _ => None
  end.

(** The entries of an optional dictionary, none for [None]. *)
Definition entries (o : option dict) : dict := or_default o [].

(** The arguments [make_request] prepares for a call. *)
Definition prepared_args (method : string) (headers : option (list (string * string)))
  (data params : option dict) : request_args :=
  build_request_args (headers_set (or_default headers []) "User-Agent" USER_AGENT)
    (lower method) data params.

(** The request [make_request] issues when the client knows the method. *)
Definition prepared_request (url method : string)
  (headers : option (list (string * string))) (data params : option dict) : request :=
  {| rq_verb := lower method; rq_url := url;
     rq_args := prepared_args method headers data params |}.

(** ** Three worlds to run the code in *)

(** A server that answers every request with [404]. *)
Definition not_found_world : world :=
  {| host := "openproject.example";
     api_key := "dXNlcjpwYXNz";
     getenv := fun _ => None;
     upstream := fun _ => Response 404 "Not Found";
     api_endpoints := [];
     json_error_text := fun _ => "Expecting value: line 1 column 1 (char 0)";
     client_error_text :=
       fun name => "'AsyncClient' object has no attribute '" ++ name ++ "'";
     py_str := str_of_value |}.

(** A server that answers every request with [204 No Content] and an
    empty body. *)
Definition no_content_world : world :=
  {| host := "openproject.example";
     api_key := "dXNlcjpwYXNz";
     getenv := fun _ => None;
     upstream := fun _ => Response 204 EmptyString;
     api_endpoints := [];
     json_error_text := fun _ => "Expecting value: line 1 column 1 (char 0)";
     client_error_text :=
       fun name => "'AsyncClient' object has no attribute '" ++ name ++ "'";
     py_str := str_of_value |}.

(** A catalog of two rows behind a server that cannot be reached. *)
Definition catalog_world : world :=
  {| host := "openproject.example";
     api_key := "dXNlcjpwYXNz";
     getenv := fun _ => None;
     upstream := fun _ => TransportFailure "All connection attempts failed";
     api_endpoints :=
       [{| row_path := "/api/v3/Projects";
           row_method := "GET";
           row_description := "List projects";
           row_request_body := "None";
           row_responses := dq "{'200': {'description': 'OK'}}" |};
        {| row_path := "/api/v3/work_packages/{id}";
           row_method := "PATCH";
           row_description := "Update a work package";
           row_request_body := dq "{'type': 'object', 'required': ['lockVersion']}";
           row_responses := dq "{'200': {'description': 'OK'}, '409': {'description': 'Conflict'}}" |}];
     json_error_text := fun _ => "Expecting value: line 1 column 1 (char 0)";
     client_error_text :=
       fun name => "'AsyncClient' object has no attribute '" ++ name ++ "'";
     py_str := str_of_value |}.

(** ** The operations *)

(** What an operation returns when its call of [make_request] is refused
    for the keyword [json]. *)
Definition json_keyword_error (prefix : string) : M json :=
  (Returned (JStr (prefix ++ "make_request() got an unexpected keyword argument 'json'")), []).

(** The operations whose body does not start by reading the local
    [api_key], [list_projects] apart. *)
Inductive gateway_call : Type :=
| CreateProject (name : string) (description identifier : option string)
    (public : option bool) (status_explanation : option string)
| ViewProject (project_id : Z)
| ListStatuses
| UpdateProject (project_id : Z) (name description identifier : option string)
    (public active : option bool) (status_explanation : option string)
| ViewProjectStatus (status_id : int_or_str)
| GetProjectWorkPackages (project_id : Z) (offset page_size : option Z)
    (filters : option filter_input) (sort_by : option (list dict))
    (group_by : option string) (show_sums : option bool) (select : option (list string))
| GetProjectAvailableAssignees (project_id : Z)
| ViewWorkPackage (work_package_id : Z) (timestamps : option (list string))
| CreateWorkPackage (project_id : Z) (subject : string) (description : option string)
    (type_id priority_id status_id assignee_id : option Z)
    (start_date due_date estimated_time : option string) (notify : option bool)
| ListWorkPackages (filters : option filter_input)
| ListWorkPackageActivities (work_package_id : Z)
| UpdateWorkPackage (work_package_id lock_version : Z) (subject description : option string)
    (percentage_done type_id priority_id status_id assignee_id : option Z)
    (start_date due_date estimated_time : option string) (notify : option bool)
| CommentWorkPackage (work_package_id : Z) (comment_text : string) (notify : option bool)
| GetWorkPackageAvailableAssignees (work_package_id : Z)
| GetWorkPackageAvailableWatchers (work_package_id : Z)
| ListWorkPackageWatchers (work_package_id : Z)
| AddWorkPackageWatcher (work_package_id user_id : Z)
| RemoveWorkPackageWatcher (work_package_id user_id : Z).

Definition invoke (w : world) (c : gateway_call) : M json :=
  match c with
  | CreateProject name description identifier public status_explanation =>
      create_project w name description identifier public status_explanation
  | ViewProject project_id => view_project w project_id
  | ListStatuses => list_statuses w
  | UpdateProject project_id name description identifier public active status_explanation =>
      update_project w project_id name description identifier public active
        status_explanation
  | ViewProjectStatus status_id => view_project_status w status_id
  | GetProjectWorkPackages project_id offset page_size filters sort_by group_by show_sums
      select =>
      get_project_work_packages w project_id offset page_size filters sort_by group_by
        show_sums select
  | GetProjectAvailableAssignees project_id => get_project_available_assignees w project_id
  | ViewWorkPackage work_package_id timestamps => view_work_package w work_package_id timestamps
  | CreateWorkPackage project_id subject description type_id priority_id status_id
      assignee_id start_date due_date estimated_time notify =>
      create_work_package w project_id subject description type_id priority_id status_id
        assignee_id start_date due_date estimated_time notify
  | ListWorkPackages filters => list_work_packages w filters
  | ListWorkPackageActivities work_package_id => list_work_package_activities w work_package_id
  | UpdateWorkPackage work_package_id lock_version subject description percentage_done
      type_id priority_id status_id assignee_id start_date due_date estimated_time notify =>
      update_work_package w work_package_id lock_version subject description
        percentage_done type_id priority_id status_id assignee_id start_date due_date
        estimated_time notify
  | CommentWorkPackage work_package_id comment_text notify =>
      comment_work_package w work_package_id comment_text notify
  | GetWorkPackageAvailableAssignees work_package_id =>
      get_work_package_available_assignees w work_package_id
  | GetWorkPackageAvailableWatchers work_package_id =>
      get_work_package_available_watchers w work_package_id
  | ListWorkPackageWatchers work_package_id => list_work_package_watchers w work_package_id
  | AddWorkPackageWatcher work_package_id user_id =>
      add_work_package_watcher w work_package_id user_id
  | RemoveWorkPackageWatcher work_package_id user_id =>
      remove_work_package_watcher w work_package_id user_id
  end.


(** ** Integers beyond the limit

    An operation writes its ids into the URL, and into the links of its
    body, with f-strings that stand before its try block, and two
    operations hand the caller's filters to [json.dumps] there.  [written]
    lists the integers a call writes in this way and [dumped] the values it
    serialises; [lock_version], [percentage_done], [offset] and [page_size]
    are passed on as numbers and are not among them. *)

Definition given (o : option Z) : list Z :=
  match o with Some n => [n] | None => [] end.

Definition written (c : gateway_call) : list Z :=
  match c with
  | CreateProject _ _ _ _ _ => []
  | ViewProject project_id => [project_id]
  | ListStatuses => []
  | UpdateProject project_id _ _ _ _ _ _ => [project_id]
  | ViewProjectStatus status_id =>
      match status_id with AnInt n => [n] | AStr _ => [] end
  | GetProjectWorkPackages project_id _ _ _ _ _ _ _ => [project_id]
  | GetProjectAvailableAssignees project_id => [project_id]
  | ViewWorkPackage work_package_id _ => [work_package_id]
  | CreateWorkPackage project_id _ _ type_id priority_id status_id assignee_id _ _ _ _ =>
      project_id :: given (if_int type_id) ++ given (if_int priority_id)
      ++ given (if_int status_id) ++ given (if_int assignee_id)
  | ListWorkPackages _ => []
  | ListWorkPackageActivities work_package_id => [work_package_id]
  | UpdateWorkPackage work_package_id _ _ _ _ type_id priority_id status_id assignee_id
      _ _ _ _ =>
      work_package_id :: given type_id ++ given priority_id ++ given status_id
      ++ given assignee_id
  | CommentWorkPackage work_package_id _ _ => [work_package_id]
  | GetWorkPackageAvailableAssignees work_package_id => [work_package_id]
  | GetWorkPackageAvailableWatchers work_package_id => [work_package_id]
  | ListWorkPackageWatchers work_package_id => [work_package_id]
  | AddWorkPackageWatcher work_package_id user_id => [work_package_id; user_id]
  | RemoveWorkPackageWatcher work_package_id user_id => [work_package_id; user_id]
  end.

Definition dumped (c : gateway_call) : list json :=
  match c with
  | GetProjectWorkPackages _ _ _ filters sort_by _ _ _ =>
      match filters with Some f => [filter_value f] | None => [] end
      ++ match sort_by with Some l => [JList (map JDict l)] | None => [] end
  | ListWorkPackages filters => [JList (effective_filters filters)]
  | _ => []
  end.

Definition call_writable (c : gateway_call) : bool :=
  forallb writable (written c) && forallb json_writable (dumped c).

(** A call of an operation as CPython 3.11 runs it: the body as embedded
    above when everything it writes is within the limit, and otherwise the
    [ValueError] of the f-string or of [json.dumps], raised before the try
    block and so before any request. *)
Definition run (w : world) (c : gateway_call) : M json :=
  if call_writable c then invoke w c else raise (ValueError int_limit_text).

(** The filter of the round-trip example. *)
Definition project_filter : filter_input :=
  FilterList [JDict [("project", JDict [("operator", JStr "=");
                                        ("values", JList [JStr "5"])])]].


(** ** The catalog *)


(** [query] occurs in [value], letter for letter. *)
Fixpoint prefixb (p s : list ascii) : bool :=
  match p, s with
  | [], _ => true
  | a :: p', b :: s' => Ascii.eqb a b && prefixb p' s'
  | _ :: _, [] => false
  end.

Fixpoint occursb (p s : list ascii) : bool :=
  prefixb p s || match s with [] => false | _ :: s' => occursb p s' end.

Definition contains (query value : string) : bool := occursb (chars query) (chars value).




(** [f] holds of some suffix of [s]. *)
Fixpoint any_suffix (f : list ascii -> bool) (s : list ascii) : bool :=
  f s || match s with [] => false | _ :: s' => any_suffix f s' end.

(** A row as the catalog is meant to hold it: [request_body] is JSON text
    or the text [None], [responses] is JSON text. *)
Definition decodable (r : endpoint_row) : Prop :=
  (row_request_body r = "None" \/ json_loads (row_request_body r) <> None) /\
  json_loads (row_responses r) <> None.

(** The record [search_endpoint] builds for such a row. *)
Definition decoded (r : endpoint_row) : dict :=
  [("path", JStr (row_path r));
   ("method", JStr (row_method r));
   ("description", JStr (row_description r));
   ("request_body",
    if String.eqb (row_request_body r) "None" then JNull
    else or_default (json_loads (row_request_body r)) JNull);
   ("responses", or_default (json_loads (row_responses r)) JNull)].


(* ================================================================== *)
(** * Part VI-A.  Attachments, file links, groups, users, notifications *)
(* ================================================================== *)

(** The remaining operations of [mcp_agent.py].  Like [view_activity],
    each starts with the two lines headed [# 1. Configuration]; the second
    one reads the local [api_key] before it has a value. *)

Definition configuration (w : world) : M (string * string) :=
  let host := os_getenv w "OPENPROJECT_HOST" "pm.v.spaceagecu.org" in
  api_key0 <- load_local "api_key" (@None string) ;;
  let api_key := os_getenv w "OPENPROJECT_API_KEY" api_key0 in
  ret (host, api_key).

(** ** Attachments *)

(** The files of the machine the gateway runs on: [os.path.exists],
    [os.path.basename], the type found by [mimetypes.guess_type], and
    [open(path, "rb").read()], which gives the content ([inl]) or fails
    with an exception, of which [inr] holds the text. *)
Record filesystem : Type := {
  path_exists : string -> bool;
  path_basename : string -> string;
  guess_type : string -> option string;
  read_bytes : string -> string + string
}.

Definition list_work_package_attachments (w : world) (work_package_id : Z) : M json :=
  c <- configuration w ;;
  let (host, api_key) := c in
  let api_url := "https://" ++ host ++ "/api/v3/work_packages/"
                 ++ str_of_int work_package_id ++ "/attachments" in
  let headers := json_headers api_key in
  send w (request_call api_url "GET" headers None None)
       ("Error retrieving attachments for work package "
        ++ str_of_int work_package_id ++ ": ").

Definition attachment_metadata (file_name : string) (description : option string) : dict :=
  let metadata := [("fileName", JStr file_name)] in
  let metadata := match if_str description with
                  | Some s => dict_set metadata "description" (raw s)
                  | None => metadata
                  end in
  metadata.

(** The dictionary [files]; each of its two tuples is written as a list. *)
Definition multipart (metadata : dict) (file_name file_content mime_type : string) : json :=
  JDict [("metadata", JList [JNull; JStr (json_dumps (JDict metadata));
                             JStr "application/json"]);
         ("file", JList [JStr file_name; JStr file_content; JStr mime_type])].

(** Steps 3 to 6 of [create_work_package_attachment] and of
    [create_attachment], which are the same but for the error sentence:
    the test for the file, the default name, the metadata, the type, and
    the try block that reads the file and calls [make_request] with the
    keyword [files]. *)
Definition upload (w : world) (fs : filesystem) (api_url api_key file_path : string)
  (file_name description : option string) (error_prefix : string) : M json :=
  if negb (path_exists fs file_path)
  then ret (JStr ("Error: File not found at path: " ++ file_path))
  else
    let file_name := match file_name with
                     | Some n => n
                     | None => path_basename fs file_path
                     end in
    let metadata := attachment_metadata file_name description in
    let mime_type := or_default (guess_type fs file_path) "application/octet-stream" in
    match read_bytes fs file_path with
    | inr message => ret (JStr (error_prefix ++ message))
    | inl file_content =>
        let files := multipart metadata file_name file_content mime_type in
        let headers := [("Authorization", "Basic " ++ api_key)] in
        send w {| kw_url := Some api_url; kw_method := Some "POST";
                  kw_headers := Some headers; kw_data := None; kw_params := None;
                  kw_json := None; kw_files := Some files |}
             error_prefix
    end.

Definition create_work_package_attachment (w : world) (fs : filesystem)
  (work_package_id : Z) (file_path : string) (file_name description : option string)
  : M json :=
  c <- configuration w ;;
  let (host, api_key) := c in
  let api_url := "https://" ++ host ++ "/api/v3/work_packages/"
                 ++ str_of_int work_package_id ++ "/attachments" in
  upload w fs api_url api_key file_path file_name description
    ("Error creating attachment for work package " ++ str_of_int work_package_id ++ ": ").

Definition create_attachment (w : world) (fs : filesystem) (file_path : string)
  (file_name description : option string) : M json :=
  c <- configuration w ;;
  let (host, api_key) := c in
  let api_url := "https://" ++ host ++ "/api/v3/attachments" in
  upload w fs api_url api_key file_path file_name description
    "Error uploading attachment: ".

Definition view_attachment (w : world) (attachment_id : Z) : M json :=
  c <- configuration w ;;
  let (host, api_key) := c in
  let api_url := "https://" ++ host ++ "/api/v3/attachments/" ++ str_of_int attachment_id in
  let headers := json_headers api_key in
  send w (request_call api_url "GET" headers None None)
       ("Error retrieving attachment " ++ str_of_int attachment_id ++ ": ").

Definition delete_attachment (w : world) (attachment_id : Z) : M json :=
  c <- configuration w ;;
  let (host, api_key) := c in
  let api_url := "https://" ++ host ++ "/api/v3/attachments/" ++ str_of_int attachment_id in
  let headers := json_headers api_key in
  try_except
    (response <- call_make_request w (request_call api_url "DELETE" headers None None) ;;
     ret (JStr ("Successfully deleted attachment " ++ str_of_int attachment_id
                ++ ". Response: " ++ py_str w response)))
    (fun e => ret (JStr ("Error deleting attachment " ++ str_of_int attachment_id
                         ++ ": " ++ str e))).

(** ** Custom actions and file links *)

Definition get_custom_action (w : world) (custom_action_id : Z) : M json :=
  c <- configuration w ;;
  let (host, api_key) := c in
  let api_url := "https://" ++ host ++ "/api/v3/custom_actions/"
                 ++ str_of_int custom_action_id in
  let headers := json_headers api_key in
  send w (request_call api_url "GET" headers None None)
       ("Error retrieving custom action " ++ str_of_int custom_action_id ++ ": ").

Definition get_work_package_file_links_params (storage_filter : option string) : dict :=
  let params := [] in
  let params := match if_str storage_filter with
                | Some s =>
                    let filter_json :=
                      json_dumps (JList [JDict [("storage",
                                                 JDict [("operator", JStr "=");
                                                        ("values", JList [JStr s])])]]) in
                    dict_set params "filters" (JStr filter_json)
                | None => params
                end in
  params.

Definition get_work_package_file_links (w : world) (work_package_id : Z)
  (storage_filter : option string) : M json :=
  c <- configuration w ;;
  let (host, api_key) := c in
  let api_url := "https://" ++ host ++ "/api/v3/work_packages/"
                 ++ str_of_int work_package_id ++ "/file_links" in
  let headers := json_headers api_key in
  let params := get_work_package_file_links_params storage_filter in
  send w (request_call api_url "GET" headers (Some params) None)
       ("Error retrieving file links for work package "
        ++ str_of_int work_package_id ++ ": ").

Definition get_file_link (w : world) (file_link_id : Z) : M json :=
  c <- configuration w ;;
  let (host, api_key) := c in
  let api_url := "https://" ++ host ++ "/api/v3/file_links/" ++ str_of_int file_link_id in
  let headers := json_headers api_key in
  send w (request_call api_url "GET" headers None None)
       ("Error retrieving file link " ++ str_of_int file_link_id ++ ": ").

(** ** Groups, users and notifications *)

Definition list_groups_params (sort_by select_fields filters : option string) : dict :=
  let params := [] in
  let params := match if_str sort_by with
                | Some s => dict_set params "sortBy" (JStr s)
                | None => params
                end in
  let params := match if_str select_fields with
                | Some s => dict_set params "select" (JStr s)
                | None => params
                end in
  let params := match if_str filters with
                | Some s => dict_set params "filters" (JStr s)
                | None => params
                end in
  params.

Definition list_groups (w : world) (sort_by select_fields filters : option string) : M json :=
  c <- configuration w ;;
  let (host, api_key) := c in
  let api_url := "https://" ++ host ++ "/api/v3/groups" in
  let headers := json_headers api_key in
  let params := list_groups_params sort_by select_fields filters in
  send w (request_call api_url "GET" headers (Some params) None)
       "Error retrieving groups: ".

(** The value of a parameter [p: Optional[int] = d]: the caller may leave
    it out ([None]), pass [None] ([Some None]) or pass a number. *)
Definition int_or_none (p : option (option Z)) (d : Z) : json :=
  match or_default p (Some d) with
  | Some n => JInt n
  | None => JNull
  end.

Definition list_users_params (offset page_size : option (option Z))
  (filters sort_by select_fields : option string) : dict :=
  let params := [("offset", int_or_none offset 1);
                 ("pageSize", int_or_none page_size 20)] in
  let params := match if_str filters with
                | Some s => dict_set params "filters" (JStr s)
                | None => params
                end in
  let params := match if_str sort_by with
                | Some s => dict_set params "sortBy" (JStr s)
                | None => params
                end in
  let params := match if_str select_fields with
                | Some s => dict_set params "select" (JStr s)
                | None => params
                end in
  params.

Definition list_users (w : world) (offset page_size : option (option Z))
  (filters sort_by select_fields : option string) : M json :=
  c <- configuration w ;;
  let (host, api_key) := c in
  let api_url := "https://" ++ host ++ "/api/v3/users" in
  let headers := json_headers api_key in
  let params := list_users_params offset page_size filters sort_by select_fields in
  send w (request_call api_url "GET" headers (Some params) None)
       "Error retrieving user list: ".

Definition get_notification_collection_params (offset page_size : option (option Z))
  (sort_by group_by filters : option string) : dict :=
  let params := [("offset", int_or_none offset 1);
                 ("pageSize", int_or_none page_size 20)] in
  let params := match if_str sort_by with
                | Some s => dict_set params "sortBy" (JStr s)
                | None => params
                end in
  let params := match if_str group_by with
                | Some s => dict_set params "groupBy" (JStr s)
                | None => params
                end in
  let params := match if_str filters with
                | Some s => dict_set params "filters" (JStr s)
                | None => params
                end in
  params.

Definition get_notification_collection (w : world) (offset page_size : option (option Z))
  (sort_by group_by filters : option string) : M json :=
  c <- configuration w ;;
  let (host, api_key) := c in
  let api_url := "https://" ++ host ++ "/api/v3/notifications" in
  let headers := json_headers api_key in
  let params := get_notification_collection_params offset page_size sort_by group_by
                  filters in
  send w (request_call api_url "GET" headers (Some params) None)
       "Error retrieving notifications: ".

Definition get_notification_detail (w : world) (notification_id detail_id : Z) : M json :=
  c <- configuration w ;;
  let (host, api_key) := c in
  let api_url := "https://" ++ host ++ "/api/v3/notifications/"
                 ++ str_of_int notification_id ++ "/details/" ++ str_of_int detail_id in
  let headers := json_headers api_key in
  send w (request_call api_url "GET" headers None None)
       ("Error retrieving detail " ++ str_of_int detail_id ++ " for notification "
        ++ str_of_int notification_id ++ ": ").

(** The operations whose body starts by reading the local [api_key]:
    [run_api] and every operation from [view_activity] to the end of the
    file. *)
Inductive keyed_call : Type :=
| RunApi (query method : string)
| ViewActivity (activity_id : Z)
| UpdateActivity (activity_id : Z) (new_comment_text : string)
| ListWorkPackageAttachments (work_package_id : Z)
| CreateWorkPackageAttachment (work_package_id : Z) (file_path : string)
    (file_name description : option string)
| CreateAttachment (file_path : string) (file_name description : option string)
| ViewAttachment (attachment_id : Z)
| DeleteAttachment (attachment_id : Z)
| GetCustomAction (custom_action_id : Z)
| ExecuteCustomAction (custom_action_id work_package_id lock_version : Z)
| GetWorkPackageFileLinks (work_package_id : Z) (storage_filter : option string)
| GetFileLink (file_link_id : Z)
| ListGroups (sort_by select_fields filters : option string)
| ListUsers (offset page_size : option (option Z)) (filters sort_by select_fields : option string)
| GetNotificationCollection (offset page_size : option (option Z))
    (sort_by group_by filters : option string)
| GetNotificationDetail (notification_id detail_id : Z).

Definition invoke_keyed (w : world) (fs : filesystem) (c : keyed_call) : M json :=
  match c with
  | RunApi query method => run_api w query method
  | ViewActivity activity_id => view_activity w activity_id
  | UpdateActivity activity_id new_comment_text =>
      update_activity w activity_id new_comment_text
  | ListWorkPackageAttachments work_package_id =>
      list_work_package_attachments w work_package_id
  | CreateWorkPackageAttachment work_package_id file_path file_name description =>
      create_work_package_attachment w fs work_package_id file_path file_name description
  | CreateAttachment file_path file_name description =>
      create_attachment w fs file_path file_name description
  | ViewAttachment attachment_id => view_attachment w attachment_id
  | DeleteAttachment attachment_id => delete_attachment w attachment_id
  | GetCustomAction custom_action_id => get_custom_action w custom_action_id
  | ExecuteCustomAction custom_action_id work_package_id lock_version =>
      execute_custom_action w custom_action_id work_package_id lock_version
  | GetWorkPackageFileLinks work_package_id storage_filter =>
      get_work_package_file_links w work_package_id storage_filter
  | GetFileLink file_link_id => get_file_link w file_link_id
  | ListGroups sort_by select_fields filters => list_groups w sort_by select_fields filters
  | ListUsers offset page_size filters sort_by select_fields =>
      list_users w offset page_size filters sort_by select_fields
  | GetNotificationCollection offset page_size sort_by group_by filters =>
      get_notification_collection w offset page_size sort_by group_by filters
  | GetNotificationDetail notification_id detail_id =>
      get_notification_detail w notification_id detail_id
  end.

(* ================================================================== *)
(** * Part VI-B.  The catalog script ([query_db.py]) *)
(* ================================================================== *)

Module query_db.

(** [search_endpoint(query)] of the script: the rows as the table holds
    them, each a tuple of five texts. *)
Definition search_endpoint (w : world) (query : string) : M (list endpoint_row) :=
  select_endpoints (api_endpoints w) query.

End query_db.

(* ================================================================== *)
(** * Part VI-C.  The orchestrator ([pm_launch.py]) *)
(* ================================================================== *)

Module pm_launch.

Definition PM_BASE_URL : string := "http://172.18.33.132:8034".

Definition pm_headers : list (string * string) := [("Content-Type", "application/json")].

(** One call [requests.post(url, headers=.., json=..)]. *)
Record post : Type := {
  post_url : string;
  post_headers : list (string * string);
  post_json : json
}.

(** What the tool functions cannot see into: the server behind
    [PM_BASE_URL], a [TransportFailure] being a [RequestException] raised
    by [requests.post]; the text of the [HTTPError] of
    [raise_for_status]; the text of the exception [response.json()] raises
    on a body, and whether that exception is a [RequestException], which
    it is from requests 2.27 on; and [datetime.now().isoformat()]. *)
Record tool_world : Type := {
  mcp_server : post -> upstream_outcome;
  status_error_text : post -> Z -> string;
  body_error_text : string -> string;
  body_error_is_request_exception : bool;
  now_isoformat : string
}.

(** A tool function returns a value or raises, after the posts it made. *)
Definition T : Type := outcome json * list post.

(** [response.raise_for_status()] of requests raises for the codes from
    400 to 599. *)
Definition is_error_status (status_code : Z) : bool :=
  (400 <=? status_code) && (status_code <? 600).

Definition error_record (message : string) : json := JDict [("error", JStr message)].

(** The try block with [raise_for_status] and
    [except requests.exceptions.RequestException]. *)
Definition post_checked (tw : tool_world) (url : string) (payload : json)
  (failure : string) : T :=
  let rq := {| post_url := url; post_headers := pm_headers; post_json := payload |} in
  match mcp_server tw rq with
  | Response status_code body =>
      if is_error_status status_code
      then (Returned (error_record (failure ++ status_error_text tw rq status_code)), [rq])
      else
        match json_loads body with
        | Some v => (Returned v, [rq])
        | None =>
            if body_error_is_request_exception tw
            then (Returned (error_record (failure ++ body_error_text tw body)), [rq])
            else (Raised (JSONDecodeError (body_error_text tw body)), [rq])
        end
  | TransportFailure message => (Returned (error_record (failure ++ message)), [rq])
  end.

(** The try block without [raise_for_status] and with [except Exception]. *)
Definition post_unchecked (tw : tool_world) (url : string) (payload : json) : T :=
  let rq := {| post_url := url; post_headers := pm_headers; post_json := payload |} in
  match mcp_server tw rq with
  | Response status_code body =>
      match json_loads body with
      | Some v => (Returned v, [rq])
      | None => (Returned (error_record (body_error_text tw body)), [rq])
      end
  | TransportFailure message => (Returned (error_record message), [rq])
  end.

(** Truth value of a list: [if l:]. *)
Definition list_truthy {A} (l : list A) : bool :=
  match l with [] => false | _ :: _ => true end.

Definition filter_truthy (f : filter_input) : bool :=
  match f with
  | FilterList l => list_truthy l
  | FilterDict d => dict_truthy d
  end.

Definition list_projects_payload (filters : option dict) : json :=
  match filters with
  | Some d => if dict_truthy d then JDict d else JDict []
  | None => JDict []
  end.

Definition list_projects (tw : tool_world) (filters : option dict) : T :=
  let url := PM_BASE_URL ++ "/list_projects" in
  let payload := list_projects_payload filters in
  post_checked tw url payload "Failed to retrieve projects list: ".

Definition get_project_work_packages_payload (project_id : Z)
  (offset page_size : option (option Z)) (filters : option filter_input)
  (sort_by : option (list dict)) : dict :=
  let payload := [("project_id", JInt project_id);
                  ("offset", int_or_none offset 1);
                  ("page_size", int_or_none page_size 20)] in
  let payload := match filters with
                 | Some f => if filter_truthy f
                             then dict_set payload "filters" (filter_value f)
                             else payload
                 | None => payload
                 end in
  let payload := match sort_by with
                 | Some l => if list_truthy l
                             then dict_set payload "sort_by" (JList (map JDict l))
                             else payload
                 | None => payload
                 end in
  payload.

Definition get_project_work_packages (tw : tool_world) (project_id : Z)
  (offset page_size : option (option Z)) (filters : option filter_input)
  (sort_by : option (list dict)) : T :=
  let url := PM_BASE_URL ++ "/get_project_work_packages" in
  let payload := get_project_work_packages_payload project_id offset page_size filters
                   sort_by in
  post_unchecked tw url (JDict payload).

Definition create_project_payload (name : string) (public : bool)
  (description identifier status_explanation : option string) : dict :=
  let payload := [("name", JStr name); ("public", JBool public)] in
  let payload := match if_str description with
                 | Some s => dict_set payload "description" (JStr s)
                 | None => payload
                 end in
  let payload := match if_str identifier with
                 | Some s => dict_set payload "identifier" (JStr s)
                 | None => payload
                 end in
  let payload := match if_str status_explanation with
                 | Some s => dict_set payload "status_explanation" (JStr s)
                 | None => payload
                 end in
  payload.

Definition create_project (tw : tool_world) (name : string) (public : option bool)
  (description identifier status_explanation : option string) : T :=
  let public := or_default public true in
  let url := PM_BASE_URL ++ "/create_project" in
  let payload := create_project_payload name public description identifier
                   status_explanation in
  post_unchecked tw url (JDict payload).

Definition create_work_package_payload (project_id : Z) (subject : string) (notify : bool)
  (description : option string) (status_id type_id priority_id : option Z) : dict :=
  let payload := [("project_id", JInt project_id); ("subject", JStr subject);
                  ("notify", JBool notify)] in
  let payload := match if_str description with
                 | Some s => dict_set payload "description" (JStr s)
                 | None => payload
                 end in
  let payload := match if_int status_id with
                 | Some n => dict_set payload "status_id" (JInt n)
                 | None => payload
                 end in
  let payload := match if_int type_id with
                 | Some n => dict_set payload "type_id" (JInt n)
                 | None => payload
                 end in
  let payload := match if_int priority_id with
                 | Some n => dict_set payload "priority_id" (JInt n)
                 | None => payload
                 end in
  payload.

Definition create_work_package (tw : tool_world) (project_id : Z) (subject : string)
  (notify : option bool) (description : option string)
  (status_id type_id priority_id : option Z) : T :=
  let notify := or_default notify true in
  let url := PM_BASE_URL ++ "/create_work_package" in
  let payload := create_work_package_payload project_id subject notify description
                   status_id type_id priority_id in
  post_unchecked tw url (JDict payload).

Definition update_work_package_payload (work_package_id lock_version : Z) (notify : bool)
  (status_id : option Z) (description : option string) (percentage_done : option Z)
  : dict :=
  let payload := [("work_package_id", JInt work_package_id);
                  ("lock_version", JInt lock_version);
                  ("notify", JBool notify)] in
  let payload := match if_int status_id with
                 | Some n => dict_set payload "status_id" (JInt n)
                 | None => payload
                 end in
  let payload := match if_str description with
                 | Some s => dict_set payload "description" (JStr s)
                 | None => payload
                 end in
  let payload := match percentage_done with
                 | Some n => dict_set payload "percentage_done" (JInt n)
                 | None => payload
                 end in
  payload.

Definition update_work_package (tw : tool_world) (work_package_id lock_version : Z)
  (notify : option bool) (status_id : option Z) (description : option string)
  (percentage_done : option Z) : T :=
  let notify := or_default notify true in
  let url := PM_BASE_URL ++ "/update_work_package" in
  let payload := update_work_package_payload work_package_id lock_version notify
                   status_id description percentage_done in
  post_unchecked tw url (JDict payload).

Definition opt_int (o : option Z) : json :=
  match o with Some n => JInt n | None => JNull end.

Definition view_work_package_payload (work_package_id : option Z) (current_time : string)
  : dict :=
  [("work_package_id", opt_int work_package_id);
   ("timestamps", JList [JStr current_time])].

Definition view_work_package (tw : tool_world) (work_package_id : option Z) : T :=
  let url := PM_BASE_URL ++ "/view_work_package" in
  let current_time := now_isoformat tw in
  let payload := view_work_package_payload work_package_id current_time in
  post_checked tw url (JDict payload) "Failed to retrieve work package: ".

Definition comment_work_package_payload (work_package_id : Z) (comment_text : string)
  (notify : bool) : dict :=
  [("work_package_id", JInt work_package_id);
   ("comment_text", JStr comment_text);
   ("notify", JBool notify)].

Definition comment_work_package (tw : tool_world) (work_package_id : Z)
  (comment_text : string) (notify : option bool) : T :=
  let notify := or_default notify true in
  let url := PM_BASE_URL ++ "/comment_work_package" in
  let payload := comment_work_package_payload work_package_id comment_text notify in
  post_checked tw url (JDict payload)
    ("Failed to add comment to WP " ++ str_of_int work_package_id ++ ": ").

Definition list_statuses (tw : tool_world) : T :=
  let url := PM_BASE_URL ++ "/list_statuses" in
  let payload := JDict [] in
  post_checked tw url payload "Failed to retrieve statuses: ".

(** ** [is_done] *)

(** Truth value of a value: [x or ..]. *)
Definition truthy (v : json) : bool :=
  match v with
  | JNull => false
  | JBool b => b
  | JInt n => negb (n =? 0)
  | JStr s => negb (String.eqb s EmptyString)
  | JList l => list_truthy l
  | JDict d => dict_truthy d
  end.

Definition type_name (v : json) : string :=
  match v with
  | JNull => "NoneType"
  | JBool _ => "bool"
  | JInt _ => "int"
  | JStr _ => "str"
  | JList _ => "list"
  | JDict _ => "dict"
  end.

(** [is_done(msg)] for a message that is a dictionary.  The result is the
    truth value, or the text of the [AttributeError] raised when the
    content is a true value that is not a string. *)
Definition is_done (msg : dict) : bool + string :=
  let content := match dict_get msg "content" with
                 | Some v => if truthy v then v else JStr EmptyString
                 | None => JStr EmptyString
                 end in
  match content with
  | JStr s => inl (contains "task complete" (lower s))
  | other => inr ("'" ++ type_name other ++ "' object has no attribute 'lower'")
  end.

(** ** The tool calls *)

Inductive tool_call : Type :=
| ListProjects (filters : option dict)
| GetProjectWorkPackages (project_id : Z) (offset page_size : option (option Z))
    (filters : option filter_input) (sort_by : option (list dict))
| CreateProject (name : string) (public : option bool)
    (description identifier status_explanation : option string)
| CreateWorkPackage (project_id : Z) (subject : string) (notify : option bool)
    (description : option string) (status_id type_id priority_id : option Z)
| UpdateWorkPackage (work_package_id lock_version : Z) (notify : option bool)
    (status_id : option Z) (description : option string) (percentage_done : option Z)
| ViewWorkPackage (work_package_id : option Z)
| CommentWorkPackage (work_package_id : Z) (comment_text : string) (notify : option bool)
| ListStatuses.

Definition run_tool (tw : tool_world) (c : tool_call) : T :=
  match c with
  | ListProjects filters => list_projects tw filters
  | GetProjectWorkPackages project_id offset page_size filters sort_by =>
      get_project_work_packages tw project_id offset page_size filters sort_by
  | CreateProject name public description identifier status_explanation =>
      create_project tw name public description identifier status_explanation
  | CreateWorkPackage project_id subject notify description status_id type_id priority_id =>
      create_work_package tw project_id subject notify description status_id type_id
        priority_id
  | UpdateWorkPackage work_package_id lock_version notify status_id description
      percentage_done =>
      update_work_package tw work_package_id lock_version notify status_id description
        percentage_done
  | ViewWorkPackage work_package_id => view_work_package tw work_package_id
  | CommentWorkPackage work_package_id comment_text notify =>
      comment_work_package tw work_package_id comment_text notify
  | ListStatuses => list_statuses tw
  end.

(** The name of the function, which is also the last segment of its URL. *)
Definition tool_name (c : tool_call) : string :=
  match c with
  | ListProjects _ => "list_projects"
  | GetProjectWorkPackages _ _ _ _ _ => "get_project_work_packages"
  | CreateProject _ _ _ _ _ => "create_project"
  | CreateWorkPackage _ _ _ _ _ _ _ => "create_work_package"
  | UpdateWorkPackage _ _ _ _ _ _ => "update_work_package"
  | ViewWorkPackage _ => "view_work_package"
  | CommentWorkPackage _ _ _ => "comment_work_package"
  | ListStatuses => "list_statuses"
  end.


End pm_launch.

(* ================================================================== *)
(** * Part VI-D.  Notions used in the further statements *)
(* ================================================================== *)

(** [headers.get(k)] *)
Fixpoint headers_get (h : list (string * string)) (k : string) : option string :=
  match h with
  | [] => None
  | (k', v) :: h' => if String.eqb k k' then Some v else headers_get h' k
  end.


(** The two shapes of a result of [make_request] that is an error. *)
Definition is_error_record (v : json) : Prop :=
  (exists status_code body, v = http_error status_code body) \/
  (exists details, v = request_failed details).

(** The characters of a decimal numeral: digits and the minus sign. *)
Definition numeral_char (c : ascii) : bool := is_digit c || (code c =? 45)%N.

(** [s * n] for a text [s] *)
Fixpoint times (s : string) (n : nat) : string :=
  match n with
  | O => EmptyString
  | S n' => s ++ times s n'
  end.

(** The record of [available_paths] for a row of the catalog. *)
Definition available (r : endpoint_row) : json := available_path (decoded r).

(** ** The orchestrator *)

(** An MCP server that refuses every call with [422] and a JSON body. *)
Definition refusing_server : pm_launch.tool_world :=
  {| pm_launch.mcp_server :=
       fun _ => Response 422 (dq "{'detail': 'Unprocessable Entity'}");
     pm_launch.status_error_text :=
       fun rq status_code =>
         str_of_int status_code ++ " Client Error: Unprocessable Entity for url: "
         ++ pm_launch.post_url rq;
     pm_launch.body_error_text := fun _ => "Expecting value: line 1 column 1 (char 0)";
     pm_launch.body_error_is_request_exception := true;
     pm_launch.now_isoformat := "2025-01-01T00:00:00.000000" |}.

(** The parameters [mcp_agent.py] declares for the operations the
    orchestrator calls, in the order of the signature; [true] marks a
    parameter without a default. *)
Definition gateway_parameters (name : string) : list (string * bool) :=
  if String.eqb name "list_projects" then []
  else if String.eqb name "get_project_work_packages" then
    [("project_id", true); ("offset", false); ("page_size", false); ("filters", false);
     ("sort_by", false); ("group_by", false); ("show_sums", false); ("select", false)]
  else if String.eqb name "create_project" then
    [("name", true); ("description", false); ("identifier", false); ("public", false);
     ("status_explanation", false)]
  else if String.eqb name "create_work_package" then
    [("project_id", true); ("subject", true); ("description", false); ("type_id", false);
     ("priority_id", false); ("status_id", false); ("assignee_id", false);
     ("start_date", false); ("due_date", false); ("estimated_time", false);
     ("notify", false)]
  else if String.eqb name "update_work_package" then
    [("work_package_id", true); ("lock_version", true); ("subject", false);
     ("description", false); ("percentage_done", false); ("type_id", false);
     ("priority_id", false); ("status_id", false); ("assignee_id", false);
     ("start_date", false); ("due_date", false); ("estimated_time", false);
     ("notify", false)]
  else if String.eqb name "view_work_package" then
    [("work_package_id", true); ("timestamps", false)]
  else if String.eqb name "comment_work_package" then
    [("work_package_id", true); ("comment_text", true); ("notify", false)]
  else if String.eqb name "list_statuses" then []
  else [].

Definition declared (name : string) : list string := map fst (gateway_parameters name).

Definition required (name : string) : list string :=
  map fst (filter snd (gateway_parameters name)).

(** Every element of [l] is in [m]. *)
Definition all_in (l m : list string) : bool := forallb (fun x => in_list x m) l.

(** The body the orchestrator posts for a call. *)
Definition posted (tw : pm_launch.tool_world) (c : pm_launch.tool_call) : list json :=
  map pm_launch.post_json (snd (pm_launch.run_tool tw c)).

(** The tool posts its arguments under their names; [list_projects]
    with filters posts the caller's dictionary in their place. *)
Definition posts_its_arguments (c : pm_launch.tool_call) : bool :=
  match c with
  | pm_launch.ListProjects filters => negb (opt_dict_truthy filters)
  | _ => true
  end.


(* ================================================================== *)
(** * Part VII.  Properties of the JSON text *)
(* ================================================================== *)

Local Open Scope list_scope.

(** ** Containers *)

Lemma dumps_list_cons x l :
  dumps_chars (JList (x :: l)) = "["%char :: dumps_chars x ++ dumps_more l.
Proof. reflexivity. Qed.

Lemma dumps_dict_cons k x d :
  dumps_chars (JDict ((k, x) :: d))
  = "{"%char :: dumps_str k ++ ":"%char :: " "%char :: dumps_chars x ++ dumps_more_members d.
Proof. reflexivity. Qed.

Lemma json_size_list l : json_size (JList l) = S (size_items l).
Proof. reflexivity. Qed.

Lemma json_size_dict d : json_size (JDict d) = S (size_members d).
Proof. reflexivity. Qed.

Lemma json_wf_list l : json_wf (JList l) <-> Forall json_wf l.
Proof.
  cbn [json_wf].
  induction l as [|x l IH]; [split; constructor|].
  split.
  - intros [Hx Hl]. constructor; [exact Hx | now apply IH].
  - intros H. inversion H; subst. split; [assumption | now apply IH].
Qed.

Lemma json_wf_dict d :
  json_wf (JDict d) <-> NoDup (map fst d) /\ Forall (fun kv => json_wf (snd kv)) d.
Proof.
  cbn [json_wf].
  assert (E : forall d : dict,
             (fix all (d : dict) : Prop :=
                match d with [] => True | (_, x) :: d' => json_wf x /\ all d' end) d
             <-> Forall (fun kv => json_wf (snd kv)) d).
  { clear d. induction d as [|[k x] d IH]; [split; constructor|].
    split.
    - intros [Hx Hd]. constructor; [exact Hx | now apply IH].
    - intros H. inversion H; subst. split; [assumption | now apply IH]. }
  now rewrite E.
Qed.

(** ** Strings *)

Lemma chars_text l : chars (text l) = l.
Proof. apply list_ascii_of_string_of_list_ascii. Qed.

Lemma text_chars s : text (chars s) = s.
Proof. apply string_of_list_ascii_of_string. Qed.

Lemma scanstring_escape_char c tail :
  scanstring (escape_char c ++ tail)
  = match scanstring tail with
    | Some (l, rest) => Some (c :: l, rest)
    | None => None
    end.
Proof.
  destruct c as [[] [] [] [] [] [] [] []]; reflexivity.
Qed.

Lemma scanstring_escape_chars l rest :
  scanstring (escape_chars l ++ quote :: rest) = Some (l, rest).
Proof.
  induction l as [|c l IH]; [reflexivity|].
  unfold escape_chars in *. cbn [flat_map].
  rewrite <- app_assoc, scanstring_escape_char, IH. reflexivity.
Qed.

Lemma scanstring_dumps_str s rest :
  exists body, dumps_str s ++ rest = quote :: body /\
               scanstring body = Some (chars s, rest).
Proof.
  exists (escape_chars (chars s) ++ quote :: rest). split.
  - unfold dumps_str. rewrite <- app_comm_cons, <- app_assoc. reflexivity.
  - apply scanstring_escape_chars.
Qed.

(** ** Integers *)

Lemma at_delimiter_cases rest :
  at_delimiter rest = true ->
  rest = [] \/ exists c r, rest = c :: r /\ (code c = 44 \/ code c = 93 \/ code c = 125)%N.
Proof.
  destruct rest as [|c r]; [now left|]. cbn [at_delimiter]. intros H. right.
  exists c, r. split; [reflexivity|].
  apply orb_prop in H as [H|H]; [apply orb_prop in H as [H|H]|];
    apply N.eqb_eq in H; auto.
Qed.

Lemma delimiter_not_digit rest :
  at_delimiter rest = true -> read_digits rest = (Nil, rest).
Proof.
  intros H. destruct (at_delimiter_cases rest H) as [->|(c & r & -> & Hc)]; [reflexivity|].
  cbn [read_digits]. unfold digit_of.
  destruct Hc as [-> | [-> | ->]]; reflexivity.
Qed.

Lemma delimiter_not_float rest :
  at_delimiter rest = true -> float_follows rest = false.
Proof.
  intros H. destruct (at_delimiter_cases rest H) as [->|(c & r & -> & Hc)]; [reflexivity|].
  destruct c as [[] [] [] [] [] [] [] []]; try reflexivity;
    cbn in Hc; destruct Hc as [Hc | [Hc | Hc]]; discriminate Hc.
Qed.

Lemma read_digits_chars d rest :
  at_delimiter rest = true -> read_digits (chars_of_uint d ++ rest) = (d, rest).
Proof.
  intros H. induction d; cbn [chars_of_uint app];
    [now apply delimiter_not_digit | ..];
    cbn [read_digits]; unfold digit_of; cbn; rewrite IHd; reflexivity.
Qed.

Lemma nzhead_head d :
  match nzhead d with D0 _ => False | _ => True end.
Proof. induction d; cbn; auto. Qed.

Lemma to_uint_head p :
  match Pos.to_uint p with Nil | D0 _ => False | _ => True end.
Proof.
  assert (E : Pos.to_uint p = unorm (Pos.to_uint p)).
  { rewrite <- (DecimalPos.Unsigned.to_of (Pos.to_uint p)).
    rewrite DecimalPos.Unsigned.of_to. reflexivity. }
  assert (Hz : Pos.to_uint p <> D0 Nil).
  { intros Hz. pose proof (DecimalPos.Unsigned.of_to p) as Hp.
    rewrite Hz in Hp. discriminate Hp. }
  pose proof (nzhead_head (Pos.to_uint p)) as Hh.
  unfold unorm in E.
  destruct (nzhead (Pos.to_uint p)) eqn:En; rewrite E; try exact I.
  - now apply Hz.
  - exact Hh.
Qed.

Lemma scan_int_part_chars p rest :
  at_delimiter rest = true ->
  scan_int_part (chars_of_uint (Pos.to_uint p) ++ rest) = Some (Pos.to_uint p, rest).
Proof.
  intros H. pose proof (to_uint_head p) as Hh.
  pose proof (read_digits_chars (Pos.to_uint p) rest H) as Hr.
  destruct (Pos.to_uint p); try contradiction;
    cbn [chars_of_uint app] in *; unfold scan_int_part; cbn; cbn in Hr;
    rewrite Hr; reflexivity.
Qed.

Lemma uint_chars_head p rest :
  exists c r, chars_of_uint (Pos.to_uint p) ++ rest = c :: r /\
              is_digit c = true /\ (code c =? 48)%N = false.
Proof.
  pose proof (to_uint_head p) as Hh.
  destruct (Pos.to_uint p); try contradiction; cbn [chars_of_uint app];
    eexists; eexists; (split; [reflexivity | split; reflexivity]).
Qed.

Lemma digit_not_minus c : is_digit c = true -> (code c =? 45)%N = false.
Proof. destruct c as [[] [] [] [] [] [] [] []]; cbn; congruence. Qed.

Lemma scan_number_pos c r d rest :
  (code c =? 45)%N = false ->
  scan_int_part (c :: r) = Some (d, rest) ->
  float_follows rest = false ->
  scan_number (c :: r) = Some (JInt (Z.of_int (Pos d)), rest).
Proof.
  intros Hc Hs Hf. unfold scan_number. rewrite Hc, Hs, Hf. reflexivity.
Qed.

Lemma scan_number_neg s d rest :
  scan_int_part s = Some (d, rest) ->
  float_follows rest = false ->
  scan_number ("-"%char :: s) = Some (JInt (Z.of_int (Neg d)), rest).
Proof.
  intros Hs Hf. unfold scan_number.
  change (code "-" =? 45)%N with true. cbv iota. rewrite Hs, Hf. reflexivity.
Qed.

Lemma scan_number_chars n rest :
  at_delimiter rest = true ->
  scan_number (chars_of_int n ++ rest) = Some (JInt n, rest).
Proof.
  intros H. pose proof (DecimalZ.of_to n) as Hn.
  pose proof (delimiter_not_float rest H) as Hf.
  unfold chars_of_int. destruct n as [|p|p]; cbn [Z.to_int] in *.
  - unfold scan_number. cbn. rewrite Hf. reflexivity.
  - pose proof (scan_int_part_chars p rest H) as Hs.
    destruct (uint_chars_head p rest) as (c & r & E & Hd & _).
    rewrite E in *. rewrite <- Hn.
    apply scan_number_pos; auto using digit_not_minus.
  - pose proof (scan_int_part_chars p rest H) as Hs.
    rewrite <- app_comm_cons. rewrite <- Hn.
    now apply scan_number_neg.
Qed.

(** ** Values *)

Lemma digit_starts_value c : is_digit c = true -> starts_value c = true.
Proof. destruct c as [[] [] [] [] [] [] [] []]; cbn; congruence. Qed.

Lemma chars_of_int_head n rest :
  exists c r, chars_of_int n ++ rest = c :: r /\
              (is_digit c = true \/ code c = 45%N).
Proof.
  unfold chars_of_int. destruct n as [|p|p]; cbn [Z.to_int].
  - exists "0"%char, rest. split; [reflexivity | now left].
  - destruct (uint_chars_head p rest) as (c & r & E & Hd & _).
    exists c, r. split; [exact E | now left].
  - eexists; eexists. split; [reflexivity | now right].
Qed.

Lemma dumps_head v rest :
  exists c r, dumps_chars v ++ rest = c :: r /\ starts_value c = true.
Proof.
  destruct v as [|[]|n|s|l|d]; try (eexists; eexists; split; reflexivity).
  cbn [dumps_chars].
  destruct (chars_of_int_head n rest) as (c & r & E & [Hd | Hm]).
  - exists c, r. split; [exact E | now apply digit_starts_value].
  - exists c, r. split; [exact E|].
    destruct c as [[] [] [] [] [] [] [] []]; try discriminate Hm; reflexivity.
Qed.

Lemma skip_ws_start c r : starts_value c = true -> skip_ws (c :: r) = c :: r.
Proof.
  unfold starts_value. intros H. cbn [skip_ws].
  destruct (is_ws c); [discriminate H | reflexivity].
Qed.

Lemma skip_ws_dumps v rest : skip_ws (dumps_chars v ++ rest) = dumps_chars v ++ rest.
Proof.
  destruct (dumps_head v rest) as (c & r & -> & H). now apply skip_ws_start.
Qed.

Lemma scan_once_number fuel c r :
  is_digit c = true \/ code c = 45%N ->
  scan_once (S fuel) (c :: r) = scan_number (c :: r).
Proof.
  intros H.
  destruct c as [[] [] [] [] [] [] [] []];
    try reflexivity; exfalso; destruct H as [H | H]; discriminate H.
Qed.

Lemma scan_items_dumps l :
  Forall reads_back l -> Forall json_wf l ->
  forall x, reads_back x -> json_wf x ->
  forall fuel rest,
    (S (json_size x + size_items l) <= fuel)%nat ->
    at_delimiter rest = true ->
    scan_items fuel (dumps_chars x ++ dumps_more l ++ rest) = Some (x :: l, rest).
Proof.
  induction l as [|y l IH]; intros HP Hwf x Hx Hwx fuel rest Hfuel Hrest;
    (destruct fuel as [|fuel]; [lia|]); cbn [scan_items dumps_more size_items] in *.
  - change (["]"%char] ++ rest) with ("]"%char :: rest).
    rewrite (Hx Hwx fuel ("]"%char :: rest)); [reflexivity | lia | reflexivity].
  - inversion HP as [|? ? Hy HP']; subst. inversion Hwf as [|? ? Hwy Hwf']; subst.
    rewrite <- !app_comm_cons.
    rewrite (Hx Hwx fuel (","%char :: " "%char :: (dumps_chars y ++ dumps_more l) ++ rest));
      [| lia | reflexivity].
    change (skip_ws (","%char :: " "%char :: (dumps_chars y ++ dumps_more l) ++ rest))
      with (","%char :: " "%char :: (dumps_chars y ++ dumps_more l) ++ rest).
    cbv iota.
    change (code "," =? 93)%N with false. change (code "," =? 44)%N with true. cbv iota.
    change (skip_ws (" "%char :: (dumps_chars y ++ dumps_more l) ++ rest))
      with (skip_ws ((dumps_chars y ++ dumps_more l) ++ rest)).
    rewrite <- app_assoc, skip_ws_dumps.
    rewrite (IH HP' Hwf' y Hy Hwy fuel rest); [reflexivity | lia | exact Hrest].
Qed.

Lemma more_members_delimiter d rest :
  at_delimiter (dumps_more_members d ++ rest) = true.
Proof. destruct d as [|[k y] d]; reflexivity. Qed.

Lemma skip_ws_dumps_str k rest : skip_ws (dumps_str k ++ rest) = dumps_str k ++ rest.
Proof. reflexivity. Qed.

Lemma scan_members_key fuel k tail :
  scan_members (S fuel) (dumps_str k ++ ":"%char :: " "%char :: tail)
  = match scan_once fuel (skip_ws tail) with
    | Some (v, r3) =>
        match skip_ws r3 with
        | c2 :: r4 =>
            if (code c2 =? 125)%N then Some ([(k, v)], r4)
            else if (code c2 =? 44)%N then
              match scan_members fuel (skip_ws r4) with
              | Some (ps, rest) => Some ((k, v) :: ps, rest)
              | None => None
              end
            else None
        | [] => None
        end
    | None => None
    end.
Proof.
  destruct (scanstring_dumps_str k (":"%char :: " "%char :: tail)) as (body & -> & Hb).
  cbn [scan_members]. change (code quote =? 34)%N with true. cbv iota.
  rewrite Hb, text_chars. reflexivity.
Qed.

Lemma scan_members_dumps d :
  Forall (fun kv => reads_back (snd kv)) d ->
  Forall (fun kv => json_wf (snd kv)) d ->
  forall k x, reads_back x -> json_wf x ->
  forall fuel rest,
    (S (json_size x + size_members d) <= fuel)%nat ->
    at_delimiter rest = true ->
    scan_members fuel
      (dumps_str k ++ ":"%char :: " "%char :: dumps_chars x ++ dumps_more_members d ++ rest)
    = Some ((k, x) :: d, rest).
Proof.
  induction d as [|[k' y] d IH]; intros HP Hwf k x Hx Hwx fuel rest Hfuel Hrest;
    (destruct fuel as [|fuel]; [lia|]); cbn [size_members] in *;
    rewrite scan_members_key, skip_ws_dumps;
    (rewrite (Hx Hwx fuel _); [| lia | apply more_members_delimiter]).
  - reflexivity.
  - inversion HP as [|? ? Hy HP']; subst. inversion Hwf as [|? ? Hwy Hwf']; subst.
    cbn [snd] in *. cbn [dumps_more_members].
    rewrite <- !app_comm_cons.
    match goal with
    | |- context [skip_ws (","%char :: " "%char :: ?t)] =>
        change (skip_ws (","%char :: " "%char :: t)) with (","%char :: " "%char :: t);
        cbv iota;
        change (code "," =? 125)%N with false; change (code "," =? 44)%N with true;
        cbv iota;
        change (skip_ws (" "%char :: t)) with (skip_ws t)
    end.
    rewrite <- !app_assoc, <- !app_comm_cons, skip_ws_dumps_str.
    rewrite <- app_assoc.
    rewrite (IH HP' Hwf' k' y Hy Hwy fuel rest); [reflexivity | lia | exact Hrest].
Qed.

(** ** Dictionaries without repeated keys *)

Lemma dict_set_fresh d k v :
  ~ In k (map fst d) -> dict_set d k v = d ++ [(k, v)].
Proof.
  induction d as [|[k' v'] d IH]; intros H; [reflexivity|].
  cbn [dict_set map fst In] in *.
  destruct (String.eqb_spec k k') as [->|Hne]; [exfalso; apply H; now left|].
  rewrite <- app_comm_cons. f_equal. apply IH. intros Hin. apply H. now right.
Qed.

Lemma dict_of_pairs_acc l acc :
  NoDup (map fst (acc ++ l)) ->
  fold_left (fun d kv => dict_set d (fst kv) (snd kv)) l acc = acc ++ l.
Proof.
  revert acc. induction l as [|[k v] l IH]; intros acc H; cbn [fold_left fst snd].
  - now rewrite List.app_nil_r.
  - rewrite dict_set_fresh.
    + rewrite IH; rewrite <- app_assoc; [reflexivity | exact H].
    + rewrite map_app in H. cbn [map fst] in H.
      apply NoDup_remove_2 in H. intros Hin. apply H. apply in_or_app. now left.
Qed.

Lemma dict_of_pairs_nodup d : NoDup (map fst d) -> dict_of_pairs d = d.
Proof. intros H. unfold dict_of_pairs. now rewrite dict_of_pairs_acc. Qed.

(** ** Reading back what [json.dumps] wrote *)

Lemma scan_once_dumps v : reads_back v.
Proof.
  induction v using json_ind; unfold reads_back; intros Hwf fuel rest Hfuel Hrest.
  - destruct fuel as [|fuel]; [cbn in Hfuel; lia | reflexivity].
  - destruct fuel as [|fuel]; [cbn in Hfuel; lia | destruct b; reflexivity].
  - destruct fuel as [|fuel]; [cbn in Hfuel; lia|].
    cbn [dumps_chars].
    destruct (chars_of_int_head n rest) as (c & r & E & Hc).
    pose proof (scan_number_chars n rest Hrest) as Hn.
    rewrite E in *. now rewrite scan_once_number.
  - destruct fuel as [|fuel]; [cbn in Hfuel; lia|].
    cbn [dumps_chars].
    destruct (scanstring_dumps_str s rest) as (body & -> & Hb).
    cbn [scan_once]. change (code quote =? 34)%N with true. cbv iota.
    now rewrite Hb, text_chars.
  - rewrite json_size_list in Hfuel. apply json_wf_list in Hwf.
    destruct fuel as [|fuel]; [lia|].
    destruct l as [|x l]; [reflexivity|].
    rewrite dumps_list_cons. rewrite <- app_comm_cons, <- app_assoc.
    inversion H as [|? ? Hx Hl]; subst. inversion Hwf as [|? ? Hwx Hwl]; subst.
    destruct (dumps_head x (dumps_more l ++ rest)) as (c & r & E & Hc).
    pose proof (scan_items_dumps Hl Hwl Hx Hwx (fuel := fuel) rest) as Hi.
    rewrite E in *.
    cbn [scan_once]. change (code "[" =? 34)%N with false.
    change (code "[" =? 123)%N with false. change (code "[" =? 91)%N with true.
    cbv iota. rewrite (@skip_ws_start c r Hc).
    unfold starts_value in Hc.
    destruct (code c =? 93)%N; [now rewrite andb_false_r in Hc|].
    rewrite Hi; [reflexivity | cbn [size_items] in Hfuel; lia | exact Hrest].
  - rewrite json_size_dict in Hfuel. apply json_wf_dict in Hwf as [Hnd Hwf].
    destruct fuel as [|fuel]; [lia|].
    destruct d as [|[k x] d]; [reflexivity|].
    rewrite dumps_dict_cons. rewrite <- app_comm_cons.
    inversion H as [|? ? Hx Hl]; subst. inversion Hwf as [|? ? Hwx Hwl]; subst.
    cbn [snd] in *.
    pose proof (scan_members_dumps Hl Hwl k Hx Hwx (fuel := fuel) rest) as Hi.
    assert (E : (dumps_str k ++ ":"%char :: " "%char :: dumps_chars x ++ dumps_more_members d)
                ++ rest
                = dumps_str k ++ ":"%char :: " "%char :: dumps_chars x
                  ++ dumps_more_members d ++ rest).
    { now rewrite <- !app_assoc, <- !app_comm_cons, <- app_assoc. }
    rewrite E.
    destruct (scanstring_dumps_str k
                (":"%char :: " "%char :: dumps_chars x ++ dumps_more_members d ++ rest))
      as (body & Eb & _).
    rewrite Eb in *.
    cbn [scan_once]. change (code "{" =? 34)%N with false.
    change (code "{" =? 123)%N with true. cbv iota.
    change (skip_ws (quote :: body)) with (quote :: body). cbv iota.
    change (code quote =? 125)%N with false. cbv iota.
    rewrite Hi; [| cbn [size_members] in Hfuel; lia | exact Hrest].
    now rewrite dict_of_pairs_nodup.
Qed.

Lemma chars_of_int_nonempty n : chars_of_int n <> [].
Proof.
  destruct (chars_of_int_head n []) as (c & r & E & _).
  rewrite List.app_nil_r in E. rewrite E. discriminate.
Qed.

Lemma json_size_le_length v : (json_size v <= List.length (dumps_chars v))%nat.
Proof.
  induction v using json_ind.
  - cbn. lia.
  - destruct b; cbn; lia.
  - cbn [json_size dumps_chars]. pose proof (chars_of_int_nonempty n).
    destruct (chars_of_int n); [contradiction | cbn; lia].
  - cbn [json_size dumps_chars]. unfold dumps_str. cbn [List.length]. lia.
  - rewrite json_size_list. destruct l as [|x l]; [cbn; lia|].
    rewrite dumps_list_cons. cbn [List.length size_items].
    rewrite length_app. inversion H as [|? ? Hx Hl]; subst. cbn beta in Hx.
    assert (S (size_items l) <= List.length (dumps_more l))%nat; [|lia].
    clear Hx H. induction Hl as [|y l Hy Hl IH]; [cbn; lia|].
    cbn [size_items dumps_more List.length]. rewrite length_app. lia.
  - rewrite json_size_dict. destruct d as [|[k x] d]; [cbn; lia|].
    rewrite dumps_dict_cons. cbn [List.length size_members].
    rewrite !length_app. cbn [List.length]. rewrite length_app.
    inversion H as [|? ? Hx Hl]; subst. cbn [snd] in Hx. cbn beta in Hx.
    assert (S (size_members d) <= List.length (dumps_more_members d))%nat; [|lia].
    clear Hx H. induction Hl as [|[k' y] d Hy Hl IH]; [cbn; lia|].
    cbn [size_members dumps_more_members List.length snd] in *.
    rewrite !length_app. cbn [List.length]. rewrite length_app. lia.
Qed.

(** [json.loads(json.dumps(v)) == v] for every value without floats. *)
Lemma json_loads_dumps v : json_wf v -> json_loads (json_dumps v) = Some v.
Proof.
  intros Hwf. unfold json_loads, json_dumps, loads_chars.
  rewrite chars_text.
  pose proof (skip_ws_dumps v []) as Hs. rewrite List.app_nil_r in Hs. rewrite Hs.
  pose proof (scan_once_dumps v) as Hr. unfold reads_back in Hr.
  specialize (Hr Hwf (2 * List.length (dumps_chars v) + 2)%nat []).
  rewrite List.app_nil_r in Hr. rewrite Hr; [reflexivity | | reflexivity].
  pose proof (json_size_le_length v). lia.
Qed.

(** ** The fuel of the decoder is never the reason of a failure *)

Lemma skip_ws_length s : (List.length (skip_ws s) <= List.length s)%nat.
Proof.
  induction s as [|c s IH]; [cbn; lia|].
  cbn [skip_ws]. destruct (is_ws c); cbn [List.length]; lia.
Qed.

Lemma scanstring_length_bound n :
  forall s l r, (List.length s <= n)%nat -> scanstring s = Some (l, r) ->
                (List.length r < List.length s)%nat.
Proof.
  induction n as [|n IH]; intros s l r Hn H.
  - destruct s; [discriminate H | cbn in Hn; lia].
  - destruct s as [|c s]; [discriminate H|].
    cbn [scanstring] in H. cbn [List.length] in *.
    destruct (code c =? 34)%N.
    { injection H as _ <-. lia. }
    destruct (code c =? 92)%N.
    { destruct s as [|e s1]; [discriminate H|].
      destruct (code e =? 117)%N.
      - destruct s1 as [|h1 [|h2 [|h3 [|h4 s2]]]]; try discriminate H.
        destruct (hex4 h1 h2 h3 h4) as [m|]; [|discriminate H].
        destruct (m <? 256)%N; [|discriminate H].
        destruct (scanstring s2) as [[l' r']|] eqn:E; [|discriminate H].
        injection H as _ <-. apply IH in E; cbn [List.length] in *; lia.
      - destruct (unescape e); [|discriminate H].
        destruct (scanstring s1) as [[l' r']|] eqn:E; [|discriminate H].
        injection H as _ <-. apply IH in E; cbn [List.length] in *; lia. }
    destruct (code c <? 32)%N; [discriminate H|].
    destruct (scanstring s) as [[l' r']|] eqn:E; [|discriminate H].
    injection H as _ <-. apply IH in E; lia.
Qed.

Lemma scanstring_length s l r :
  scanstring s = Some (l, r) -> (List.length r < List.length s)%nat.
Proof. apply (scanstring_length_bound (n := List.length s)). lia. Qed.

Lemma read_digits_length s :
  (List.length (snd (read_digits s)) <= List.length s)%nat.
Proof.
  induction s as [|c s IH]; [cbn; lia|].
  cbn [read_digits]. destruct (digit_of c).
  - destruct (read_digits s). cbn [snd List.length] in *. lia.
  - cbn. lia.
Qed.

Lemma scan_number_length s v r :
  scan_number s = Some (v, r) -> (List.length r < List.length s)%nat.
Proof.
  unfold scan_number.
  assert (Hi : forall s1 d rest, scan_int_part s1 = Some (d, rest) ->
                                 (List.length rest < List.length s1)%nat).
  { intros [|c s1] d rest H; [discriminate H|]. unfold scan_int_part in H.
    destruct (code c =? 48)%N; [injection H as _ <-; cbn; lia|].
    destruct (is_digit c) eqn:Ed; [|discriminate H].
    injection H as H. cbn [read_digits] in H. unfold is_digit in Ed.
    destruct (digit_of c); [|discriminate Ed].
    pose proof (read_digits_length s1) as Hl.
    destruct (read_digits s1) as [d' rest']. injection H as _ <-.
    cbn [snd List.length] in *. lia. }
  destruct s as [|c s'].
  - destruct (scan_int_part []) as [[d rest]|] eqn:E; discriminate.
  - destruct (code c =? 45)%N.
    + destruct (scan_int_part s') as [[d rest]|] eqn:E; [|discriminate].
      destruct (float_follows rest); [discriminate|].
      intros H. injection H as _ <-. apply Hi in E. cbn [List.length]. lia.
    + destruct (scan_int_part (c :: s')) as [[d rest]|] eqn:E; [|discriminate].
      destruct (float_follows rest); [discriminate|].
      intros H. injection H as _ <-. now apply Hi in E.
Qed.

Lemma strip_prefix_length p :
  forall s r, strip_prefix p s = Some r ->
              (List.length r + List.length p = List.length s)%nat.
Proof.
  induction p as [|a p IH]; intros s r H.
  - injection H as <-. cbn. lia.
  - destruct s as [|b s]; [discriminate H|]. cbn [strip_prefix] in H.
    destruct (Ascii.eqb a b); [|discriminate H].
    apply IH in H. cbn [List.length]. lia.
Qed.

(** A successful scan consumes at least one character. *)
Lemma scan_length fuel :
  (forall s v r, scan_once fuel s = Some (v, r) ->
                 (List.length r < List.length s)%nat) /\
  (forall s vs r, scan_items fuel s = Some (vs, r) ->
                  (List.length r < List.length s)%nat) /\
  (forall s ps r, scan_members fuel s = Some (ps, r) ->
                  (List.length r < List.length s)%nat).
Proof.
  induction fuel as [|fuel (IHo & IHi & IHm)]; [repeat split; discriminate|].
  repeat apply conj.
  - intros [|c s] v r H; [discriminate H|]. cbn [scan_once] in H.
    destruct (code c =? 34)%N.
    { destruct (scanstring s) as [[l rest]|] eqn:E; [|discriminate H].
      injection H as _ <-. apply scanstring_length in E. cbn [List.length]. lia. }
    destruct (code c =? 123)%N.
    { pose proof (skip_ws_length s) as Hw.
      destruct (skip_ws s) as [|c' r']; [discriminate H|].
      destruct (code c' =? 125)%N.
      - injection H as _ <-. cbn [List.length] in *. lia.
      - destruct (scan_members fuel (c' :: r')) as [[ps rest]|] eqn:E; [|discriminate H].
        injection H as _ <-. apply IHm in E. cbn [List.length] in *. lia. }
    destruct (code c =? 91)%N.
    { pose proof (skip_ws_length s) as Hw.
      destruct (skip_ws s) as [|c' r']; [discriminate H|].
      destruct (code c' =? 93)%N.
      - injection H as _ <-. cbn [List.length] in *. lia.
      - destruct (scan_items fuel (c' :: r')) as [[vs rest]|] eqn:E; [|discriminate H].
        injection H as _ <-. apply IHi in E. cbn [List.length] in *. lia. }
    destruct (strip_prefix (chars "null") (c :: s)) as [rest|] eqn:E1.
    { injection H as _ <-. apply strip_prefix_length in E1. cbn in E1 |- *. lia. }
    destruct (strip_prefix (chars "true") (c :: s)) as [rest|] eqn:E2.
    { injection H as _ <-. apply strip_prefix_length in E2. cbn in E2 |- *. lia. }
    destruct (strip_prefix (chars "false") (c :: s)) as [rest|] eqn:E3.
    { injection H as _ <-. apply strip_prefix_length in E3. cbn in E3 |- *. lia. }
    now apply scan_number_length in H.
  - intros s vs r H. cbn [scan_items] in H.
    destruct (scan_once fuel s) as [[v r1]|] eqn:E; [|discriminate H].
    apply IHo in E. pose proof (skip_ws_length r1) as Hw.
    destruct (skip_ws r1) as [|c r']; [discriminate H|].
    destruct (code c =? 93)%N.
    { injection H as _ <-. cbn [List.length] in *. lia. }
    destruct (code c =? 44)%N; [|discriminate H].
    pose proof (skip_ws_length r') as Hw'.
    destruct (scan_items fuel (skip_ws r')) as [[vs' rest]|] eqn:E'; [|discriminate H].
    injection H as _ <-. apply IHi in E'. cbn [List.length] in *. lia.
  - intros [|c s] ps r H; [discriminate H|]. cbn [scan_members] in H.
    destruct (code c =? 34)%N; [|discriminate H].
    destruct (scanstring s) as [[k r1]|] eqn:Ek; [|discriminate H].
    apply scanstring_length in Ek. pose proof (skip_ws_length r1) as Hw1.
    destruct (skip_ws r1) as [|c1 r2]; [discriminate H|].
    destruct (code c1 =? 58)%N; [|discriminate H].
    pose proof (skip_ws_length r2) as Hw2.
    destruct (scan_once fuel (skip_ws r2)) as [[v r3]|] eqn:Ev; [|discriminate H].
    apply IHo in Ev. pose proof (skip_ws_length r3) as Hw3.
    destruct (skip_ws r3) as [|c2 r4]; [discriminate H|].
    destruct (code c2 =? 125)%N.
    { injection H as _ <-. cbn [List.length] in *. lia. }
    destruct (code c2 =? 44)%N; [|discriminate H].
    pose proof (skip_ws_length r4) as Hw4.
    destruct (scan_members fuel (skip_ws r4)) as [[ps' rest]|] eqn:Em; [|discriminate H].
    injection H as _ <-. apply IHm in Em. cbn [List.length] in *. lia.
Qed.

Lemma scan_once_S fuel s :
  scan_once (S fuel) s
  = match s with
    | [] => None
    | c :: r =>
        if (code c =? 34)%N then
          match scanstring r with
          | Some (l, rest) => Some (JStr (text l), rest)
          | None => None
          end
        else if (code c =? 123)%N then
          match skip_ws r with
          | c' :: r' =>
              if (code c' =? 125)%N then Some (JDict [], r')
              else match scan_members fuel (c' :: r') with
                   | Some (ps, rest) => Some (JDict (dict_of_pairs ps), rest)
                   | None => None
                   end
          | [] => None
          end
        else if (code c =? 91)%N then
          match skip_ws r with
          | c' :: r' =>
              if (code c' =? 93)%N then Some (JList [], r')
              else match scan_items fuel (c' :: r') with
                   | Some (vs, rest) => Some (JList vs, rest)
                   | None => None
                   end
          | [] => None
          end
        else
          match strip_prefix (chars "null") s with
          | Some rest => Some (JNull, rest)
          | None =>
          match strip_prefix (chars "true") s with
          | Some rest => Some (JBool true, rest)
          | None =>
          match strip_prefix (chars "false") s with
          | Some rest => Some (JBool false, rest)
          | None => scan_number s
          end end end
    end.
Proof. destruct s; reflexivity. Qed.

Lemma scan_items_S fuel s :
  scan_items (S fuel) s
  = match scan_once fuel s with
    | Some (v, r) =>
        match skip_ws r with
        | c :: r' =>
            if (code c =? 93)%N then Some ([v], r')
            else if (code c =? 44)%N then
              match scan_items fuel (skip_ws r') with
              | Some (vs, rest) => Some (v :: vs, rest)
              | None => None
              end
            else None
        | [] => None
        end
    | None => None
    end.
Proof. reflexivity. Qed.

Lemma scan_members_S fuel s :
  scan_members (S fuel) s
  = match s with
    | c :: r =>
        if (code c =? 34)%N then
          match scanstring r with
          | Some (k, r1) =>
              match skip_ws r1 with
              | c1 :: r2 =>
                  if (code c1 =? 58)%N then
                    match scan_once fuel (skip_ws r2) with
                    | Some (v, r3) =>
                        match skip_ws r3 with
                        | c2 :: r4 =>
                            if (code c2 =? 125)%N then Some ([(text k, v)], r4)
                            else if (code c2 =? 44)%N then
                              match scan_members fuel (skip_ws r4) with
                              | Some (ps, rest) => Some ((text k, v) :: ps, rest)
                              | None => None
                              end
                            else None
                        | [] => None
                        end
                    | None => None
                    end
                  else None
              | [] => None
              end
          | None => None
          end
        else None
    | [] => None
    end.
Proof. destruct s; reflexivity. Qed.

Lemma scan_more_fuel fuel :
  (forall s, (2 * List.length s <= fuel)%nat ->
             scan_once (S fuel) s = scan_once fuel s) /\
  (forall s, (2 * List.length s + 1 <= fuel)%nat ->
             scan_items (S fuel) s = scan_items fuel s) /\
  (forall s, (2 * List.length s + 1 <= fuel)%nat ->
             scan_members (S fuel) s = scan_members fuel s).
Proof.
  induction fuel as [|fuel (IHo & IHi & IHm)].
  - repeat split; intros s H; try lia.
    destruct s; [reflexivity | cbn in H; lia].
  - destruct (scan_length fuel) as (Lo & Li & Lm).
    repeat apply conj.
    + intros [|c s] H; [reflexivity|].
      cbn [List.length] in H.
      rewrite (scan_once_S (S fuel) (c :: s)), (scan_once_S fuel (c :: s)).
      destruct (code c =? 34)%N; [reflexivity|].
      destruct (code c =? 123)%N.
      { pose proof (skip_ws_length s) as Hw.
        destruct (skip_ws s) as [|c' r']; [reflexivity|].
        destruct (code c' =? 125)%N; [reflexivity|].
        rewrite IHm; [reflexivity | cbn [List.length] in *; lia]. }
      destruct (code c =? 91)%N.
      { pose proof (skip_ws_length s) as Hw.
        destruct (skip_ws s) as [|c' r']; [reflexivity|].
        destruct (code c' =? 93)%N; [reflexivity|].
        rewrite IHi; [reflexivity | cbn [List.length] in *; lia]. }
      reflexivity.
    + intros s H. rewrite (scan_items_S (S fuel) s), (scan_items_S fuel s).
      rewrite IHo by lia.
      destruct (scan_once fuel s) as [[v r1]|] eqn:E; [|reflexivity].
      apply Lo in E. pose proof (skip_ws_length r1) as Hw.
      destruct (skip_ws r1) as [|c r']; [reflexivity|].
      destruct (code c =? 93)%N; [reflexivity|].
      destruct (code c =? 44)%N; [|reflexivity].
      pose proof (skip_ws_length r') as Hw'.
      rewrite IHi; [reflexivity | cbn [List.length] in *; lia].
    + intros [|c s] H; [reflexivity|].
      rewrite (scan_members_S (S fuel) (c :: s)), (scan_members_S fuel (c :: s)).
      destruct (code c =? 34)%N; [|reflexivity].
      destruct (scanstring s) as [[k r1]|] eqn:Ek; [|reflexivity].
      apply scanstring_length in Ek. pose proof (skip_ws_length r1) as Hw1.
      destruct (skip_ws r1) as [|c1 r2]; [reflexivity|].
      destruct (code c1 =? 58)%N; [|reflexivity].
      pose proof (skip_ws_length r2) as Hw2.
      rewrite IHo by (cbn [List.length] in *; lia).
      destruct (scan_once fuel (skip_ws r2)) as [[v r3]|] eqn:Ev; [|reflexivity].
      apply Lo in Ev. pose proof (skip_ws_length r3) as Hw3.
      destruct (skip_ws r3) as [|c2 r4]; [reflexivity|].
      destruct (code c2 =? 125)%N; [reflexivity|].
      destruct (code c2 =? 44)%N; [|reflexivity].
      pose proof (skip_ws_length r4) as Hw4.
      rewrite IHm; [reflexivity | cbn [List.length] in *; lia].
Qed.

(** Any fuel from twice the length of the text on gives the same answer:
    [None] from [json_loads] is a text the grammar refuses, never a lack
    of fuel. *)
Lemma scan_once_enough_fuel s fuel :
  (2 * List.length s <= fuel)%nat ->
  scan_once fuel s = scan_once (2 * List.length s)%nat s.
Proof.
  intros H. replace fuel with ((fuel - 2 * List.length s) + 2 * List.length s)%nat by lia.
  generalize (fuel - 2 * List.length s)%nat as k. clear H.
  induction k as [|k IH]; [reflexivity|].
  cbn [Nat.add]. destruct (scan_more_fuel (k + 2 * List.length s)) as (Ho & _ & _).
  rewrite Ho by lia. exact IH.
Qed.

Lemma loads_chars_fuel s fuel :
  (2 * List.length (skip_ws s) <= fuel)%nat ->
  loads_chars s
  = match scan_once fuel (skip_ws s) with
    | Some (v, rest) => match skip_ws rest with [] => Some v | _ :: _ => None end
    | None => None
    end.
Proof.
  intros H. unfold loads_chars.
  rewrite (scan_once_enough_fuel (skip_ws s) (fuel := fuel)) by exact H.
  rewrite (scan_once_enough_fuel (skip_ws s) (fuel := 2 * List.length (skip_ws s) + 2)) by lia.
  reflexivity.
Qed.

(* ================================================================== *)
(** * Part VIII.  The request executor: properties *)
(* ================================================================== *)

Local Open Scope string_scope.
Local Open Scope Z_scope.

Lemma data_or_params_entries data params kv :
  In kv (entries data) -> In kv (entries (data_or_params data params)).
Proof.
  unfold data_or_params, opt_dict_truthy, entries, or_default.
  destruct data as [[|x d]|]; cbn; auto; contradiction.
Qed.

Lemma make_request_calls w url method headers data params :
  snd (make_request w url method headers data params)
  = if in_list (lower method) client_methods
    then [prepared_request url method headers data params]
    else [].
Proof.
  unfold make_request, prepared_request, prepared_args.
  destruct (in_list (lower method) client_methods); [|reflexivity].
  destruct (upstream w _) as [status_code body | message]; [|reflexivity].
  destruct (is_success status_code); [|reflexivity].
  destruct (json_loads body); reflexivity.
Qed.

(** At most one request per invocation. *)
Lemma make_request_at_most_one_call w url method headers data params :
  (List.length (snd (make_request w url method headers data params)) <= 1)%nat.
Proof.
  rewrite make_request_calls. destruct (in_list _ _); cbn; lia.
Qed.

Example lower_mixed_case : lower "DeLeTe" = "delete".
Proof. reflexivity. Qed.

(** A name the client has no method for: no request, the data goes
    nowhere, and the record of the second handler comes back. *)
Lemma unknown_method_sends_nothing :
  make_request not_found_world "https://openproject.example/api/v3/projects" "TRACE"
    None (Some [("name", JStr "Demo")]) None
  = (JDict [("error", JStr "Request failed");
            ("details", JStr "'AsyncClient' object has no attribute 'trace'")], []).
Proof. reflexivity. Qed.

(** C5, as the code has it.  Whatever the case of the method name: for
    GET, DELETE, HEAD and OPTIONS exactly one request is issued, with no
    JSON body and with [data] as its query parameters, or [params] when
    [data] is empty or absent; for POST, PUT and PATCH exactly one request
    is issued, with [data] as its JSON body and with [params] as its query
    parameters when [params] is not empty; for every other method name no
    request is issued and the record [Request failed] is returned. *)
Theorem make_request_routes_data w url method headers data params :
  if in_list (lower method) ["get"; "delete"; "head"; "options"] then
    exists rq,
      snd (make_request w url method headers data params) = [rq] /\
      rq_verb rq = lower method /\ rq_url rq = url /\
      ra_json (rq_args rq) = None /\
      ra_params (rq_args rq) = Some (if opt_dict_truthy data then data else params) /\
      incl (entries data) (query_entries (rq_args rq))
  else if in_list (lower method) ["post"; "put"; "patch"] then
    exists rq,
      snd (make_request w url method headers data params) = [rq] /\
      rq_verb rq = lower method /\ rq_url rq = url /\
      ra_json (rq_args rq) = Some data /\
      ra_params (rq_args rq) = (if opt_dict_truthy params then Some params else None) /\
      incl (entries params) (query_entries (rq_args rq))
  else
    make_request w url method headers data params
    = (JDict [("error", JStr "Request failed");
              ("details", JStr (client_error_text w (lower method)))], []).
Proof.
  assert (Hc : in_list (lower method) client_methods
               = in_list (lower method) ["get"; "delete"; "head"; "options"]
                 || in_list (lower method) ["post"; "put"; "patch"]).
  { unfold client_methods. cbn [in_list].
    destruct (lower method =? "get")%string, (lower method =? "options")%string,
      (lower method =? "head")%string, (lower method =? "post")%string,
      (lower method =? "put")%string, (lower method =? "patch")%string,
      (lower method =? "delete")%string; reflexivity. }
  pose proof (make_request_calls w url method headers data params) as Hs.
  rewrite Hc in Hs.
  destruct (in_list (lower method) ["get"; "delete"; "head"; "options"]) eqn:Hq.
  - eexists. split; [exact Hs|].
    unfold prepared_request, prepared_args, build_request_args, query_methods.
    rewrite Hq. cbn [rq_verb rq_url rq_args ra_json ra_params]. repeat split.
    unfold query_entries. cbn [ra_params].
    intros kv. apply data_or_params_entries.
  - destruct (in_list (lower method) ["post"; "put"; "patch"]) eqn:Hb; cbn [orb] in *.
    + eexists. split; [exact Hs|].
      unfold prepared_request, prepared_args, build_request_args, query_methods.
      rewrite Hq. cbn [rq_verb rq_url rq_args ra_json ra_params]. repeat split.
      unfold query_entries, opt_dict_truthy, entries, or_default. cbn [ra_params].
      destruct params as [[|x d]|]; cbn; intros kv H; auto.
    + unfold make_request. rewrite Hc. reflexivity.
Qed.

Example post_sends_data_as_body :
  snd (make_request not_found_world "https://openproject.example/api/v3/projects" "Post"
         None (Some [("name", JStr "Demo")]) (Some [("notify", JStr "false")]))
  = [{| rq_verb := "post";
        rq_url := "https://openproject.example/api/v3/projects";
        rq_args := {| ra_headers := [("User-Agent", USER_AGENT)];
                      ra_timeout := 30;
                      ra_params := Some (Some [("notify", JStr "false")]);
                      ra_json := Some (Some [("name", JStr "Demo")]) |} |}].
Proof. reflexivity. Qed.

Example delete_sends_data_as_query :
  snd (make_request not_found_world "https://openproject.example/api/v3/projects" "delete"
         None (Some [("name", JStr "Demo")]) (Some [("notify", JStr "false")]))
  = [{| rq_verb := "delete";
        rq_url := "https://openproject.example/api/v3/projects";
        rq_args := {| ra_headers := [("User-Agent", USER_AGENT)];
                      ra_timeout := 30;
                      ra_params := Some (Some [("name", JStr "Demo")]);
                      ra_json := None |} |}].
Proof. reflexivity. Qed.

(** A 2xx answer whose body decodes is returned decoded. *)
Lemma make_request_success w url method headers data params status_code body v :
  in_list (lower method) client_methods = true ->
  upstream w (prepared_request url method headers data params) = Response status_code body ->
  is_success status_code = true ->
  json_loads body = Some v ->
  fst (make_request w url method headers data params) = v.
Proof.
  intros Hm Hu Hs Hv. unfold make_request. rewrite Hm.
  unfold prepared_request, prepared_args in Hu. rewrite Hu, Hs, Hv. reflexivity.
Qed.

(** A 2xx answer with an empty body: [response.json()] raises, and the
    second handler makes an error record of it. *)
Lemma make_request_empty_body w url method headers data params status_code :
  in_list (lower method) client_methods = true ->
  upstream w (prepared_request url method headers data params)
  = Response status_code EmptyString ->
  is_success status_code = true ->
  fst (make_request w url method headers data params)
  = request_failed (json_error_text w EmptyString).
Proof.
  intros Hm Hu Hs. unfold make_request. rewrite Hm.
  unfold prepared_request, prepared_args in Hu. rewrite Hu, Hs. reflexivity.
Qed.

(** What [remove_work_package_watcher] then reports. *)
Lemma remove_work_package_watcher_no_content w work_package_id user_id :
  writable work_package_id = true -> writable user_id = true ->
  (forall rq, upstream w rq = Response 204 EmptyString) ->
  fst (remove_work_package_watcher w work_package_id user_id)
  = Returned (JStr ("Successfully removed user " ++ str_of_int user_id
                    ++ " as watcher from work package " ++ str_of_int work_package_id
                    ++ ". Response: "
                    ++ py_str w (request_failed (json_error_text w EmptyString)))).
Proof.
  intros _ _ Hu. unfold remove_work_package_watcher, request_call, call_make_request,
    try_except, bind, ret.
  cbn [kw_json kw_files kw_url kw_method kw_headers kw_data kw_params].
  unfold make_request. change (in_list (lower "DELETE") client_methods) with true.
  cbv iota. rewrite Hu. reflexivity.
Qed.

(** C3.  On a [204] answer with an empty body [make_request] does not
    return a success value: [response.json()] raises on the empty text and
    the result is the error record of the second handler. *)
Theorem make_request_no_content_is_error :
  json_loads EmptyString = None /\
  is_success 204 = true /\
  fst (make_request no_content_world
         "https://openproject.example/api/v3/work_packages/7/watchers/3"
         "DELETE" None None None)
  = JDict [("error", JStr "Request failed");
           ("details", JStr "Expecting value: line 1 column 1 (char 0)")].
Proof. repeat split; reflexivity. Qed.

(** C6.  For a call that reaches the server: an answer outside 2xx becomes
    the record with the status code and the body text as it came; a failure
    of the transport becomes the record with the message and no status.
    The two records differ in their [error] field, and only the first has a
    [status] key. *)
Theorem make_request_error_records w url method headers data params :
  in_list (lower method) client_methods = true ->
  let rq := prepared_request url method headers data params in
  (forall status_code body,
      upstream w rq = Response status_code body ->
      is_success status_code = false ->
      fst (make_request w url method headers data params)
      = JDict [("error", JStr "HTTP error");
               ("status", JInt status_code);
               ("details", JStr body)]) /\
  (forall message,
      upstream w rq = TransportFailure message ->
      fst (make_request w url method headers data params)
      = JDict [("error", JStr "Request failed"); ("details", JStr message)]) /\
  (forall status_code body message,
      field (http_error status_code body) "error" = Some (JStr "HTTP error") /\
      field (request_failed message) "error" = Some (JStr "Request failed") /\
      field (http_error status_code body) "status" = Some (JInt status_code) /\
      field (request_failed message) "status" = None /\
      http_error status_code body <> request_failed message).
Proof.
  intros Hm rq. repeat split; try discriminate.
  - intros status_code body Hu Hs. unfold make_request. rewrite Hm.
    unfold rq, prepared_request, prepared_args in Hu. rewrite Hu, Hs. reflexivity.
  - intros message Hu. unfold make_request. rewrite Hm.
    unfold rq, prepared_request, prepared_args in Hu. rewrite Hu. reflexivity.
Qed.

Lemma make_request_error_records_witness :
  fst (make_request not_found_world "https://openproject.example/api/v3/projects/9"
         "GET" None None None)
  = JDict [("error", JStr "HTTP error"); ("status", JInt 404);
           ("details", JStr "Not Found")].
Proof.
  destruct (make_request_error_records not_found_world
              "https://openproject.example/api/v3/projects/9" "GET" None None None
              eq_refl) as [H _].
  apply (H 404 "Not Found"); reflexivity.
Defined.

(* ================================================================== *)
(** * Part IX.  The operations: properties *)
(* ================================================================== *)

(** ** The two ways an operation meets [make_request] *)

(** A call with the keyword [json] never reaches the body of
    [make_request]: the operation returns its error sentence and nothing is
    sent. *)
Lemma send_json_keyword w url method headers params payload prefix :
  send w (request_call url method headers params (Some payload)) prefix
  = (Returned (JStr (prefix ++ unexpected_keyword "make_request" "json")), []).
Proof. reflexivity. Qed.

(** A call with declared keywords only returns the serialised result of
    [make_request] and issues what [make_request] issues. *)
Lemma send_declared_keywords w url method headers params prefix :
  send w (request_call url method headers params None) prefix
  = (Returned (JStr (json_dumps (fst (make_request w url method (Some headers) None params)))),
     snd (make_request w url method (Some headers) None params)).
Proof.
  unfold send, request_call, call_make_request, try_except, bind, ret.
  cbn [kw_json kw_files kw_url kw_method kw_headers kw_data kw_params].
  destruct (make_request w url method (Some headers) None params) as [r t].
  cbn [fst snd]. now rewrite List.app_nil_r.
Qed.

(** ** C2 *)

(** C2, as the code has it.  [create_project], [create_work_package],
    [update_work_package], [comment_work_package] and
    [add_work_package_watcher] pass the keyword [json], which [make_request]
    does not declare: for every server and every input whose ids can be
    written (an id of more than 4300 digits makes the f-string of the URL
    or of a link raise before the try block), they return their error
    sentence followed by the text of the [TypeError], and no request is
    issued.  [update_project] does the same when at least one field is
    given, and returns its own sentence, again without any request, when
    none is. *)
Theorem body_sending_operations_never_send (w : world) :
  (forall name description identifier public status_explanation,
      create_project w name description identifier public status_explanation
      = json_keyword_error "Error creating project: ") /\
  (forall project_id subject description type_id priority_id status_id assignee_id
          start_date due_date estimated_time notify,
      writable project_id = true ->
      opt_writable type_id = true -> opt_writable priority_id = true ->
      opt_writable status_id = true -> opt_writable assignee_id = true ->
      create_work_package w project_id subject description type_id priority_id status_id
        assignee_id start_date due_date estimated_time notify
      = json_keyword_error
          ("Error creating work package in project " ++ str_of_int project_id ++ ": ")) /\
  (forall work_package_id lock_version subject description percentage_done type_id
          priority_id status_id assignee_id start_date due_date estimated_time notify,
      writable work_package_id = true ->
      opt_writable type_id = true -> opt_writable priority_id = true ->
      opt_writable status_id = true -> opt_writable assignee_id = true ->
      update_work_package w work_package_id lock_version subject description
        percentage_done type_id priority_id status_id assignee_id start_date due_date
        estimated_time notify
      = json_keyword_error
          ("Error updating work package " ++ str_of_int work_package_id ++ ": ")) /\
  (forall work_package_id comment_text notify,
      writable work_package_id = true ->
      comment_work_package w work_package_id comment_text notify
      = json_keyword_error
          ("Error commenting on work package " ++ str_of_int work_package_id ++ ": ")) /\
  (forall work_package_id user_id,
      writable work_package_id = true -> writable user_id = true ->
      add_work_package_watcher w work_package_id user_id
      = json_keyword_error
          ("Error adding watcher to work package " ++ str_of_int work_package_id ++ ": ")) /\
  (forall project_id name description identifier public active status_explanation,
      writable project_id = true ->
      update_project w project_id name description identifier public active
        status_explanation
      = match name, description, identifier, public, active, status_explanation with
        | None, None, None, None, None, None => (Returned (JStr no_update_fields), [])
        | _, _, _, _, _, _ =>
            json_keyword_error ("Error updating project " ++ str_of_int project_id ++ ": ")
        end).
Proof.
  repeat split; intros; try reflexivity.
  destruct name, description, identifier, public, active, status_explanation; reflexivity.
Qed.

Lemma body_sending_operations_never_send_witness :
  writable 7 = true /\ writable 3 = true /\
  add_work_package_watcher no_content_world 7 3
  = (Returned (JStr ("Error adding watcher to work package 7: "
                     ++ "make_request() got an unexpected keyword argument 'json'")), []).
Proof.
  assert (H7 : writable 7 = true) by (vm_compute; reflexivity).
  assert (H3 : writable 3 = true) by (vm_compute; reflexivity).
  split; [exact H7|]. split; [exact H3|].
  destruct (body_sending_operations_never_send no_content_world) as (_ & _ & _ & _ & H & _).
  exact (H 7 3 H7 H3).
Defined.

(** C2 as stated fails for [update_project]: without any field to update
    it returns before it calls [make_request], so what it returns is not
    the sentence built from the [TypeError]. *)
Lemma update_project_without_fields :
  update_project no_content_world 1 None None None None None None
  = (Returned (JStr "No update fields provided. Please specify at least one field to change."),
     []) /\
  update_project no_content_world 1 None None None None None None
  <> json_keyword_error "Error updating project 1: ".
Proof. split; [reflexivity | discriminate]. Qed.

(** [update_activity] stops before it builds anything: the read of the
    local [api_key] raises, outside the try block. *)
Lemma update_activity_raises w activity_id new_comment_text :
  update_activity w activity_id new_comment_text
  = (Raised (UnboundLocalError (unbound_local "api_key")), []).
Proof. reflexivity. Qed.

(** ** C1 *)

(** C1 as stated fails on the two create operations.  With only the name
    given, the body of [create_project] holds the keys [identifier] (with
    [null]) and [public] (with the default); with [type_id=0],
    [create_work_package] builds no link at all. *)
Lemma create_payloads_keys :
  let payload := create_project_payload "Demo" None None (or_default None true) None in
  dict_get payload "identifier" = Some JNull /\
  dict_get payload "public" = Some (JBool true) /\
  dict_get (create_work_package_payload "Task" None (Some 0) None None None None None None)
    "_links" = None.
Proof. repeat split; reflexivity. Qed.

(** C1, as the code has it.
    - [update_project], [update_work_package] and
      [get_project_work_packages] test [is not None]: a key is present
      exactly when its input was given, and it carries the given value,
      [false] and [0] included.
    - [create_project] always sends [public], the given value or the
      default; it has no [description] and no [statusExplanation] key when
      these inputs are left out.
    - [create_work_package] has none of its optional keys and no link when
      the inputs are left out.
    - [notify] is always a query parameter, the given value or the default. *)
Theorem optional_inputs_and_keys :
  (forall name description identifier public active status_explanation,
      let payload := update_project_payload name description identifier public active
                       status_explanation in
      dict_get payload "name" = option_map JStr name /\
      dict_get payload "identifier" = option_map JStr identifier /\
      dict_get payload "public" = option_map JBool public /\
      dict_get payload "active" = option_map JBool active /\
      dict_get payload "description" = option_map raw description /\
      dict_get payload "statusExplanation" = option_map raw status_explanation) /\
  (forall lock_version subject description percentage_done type_id priority_id status_id
          assignee_id start_date due_date estimated_time,
      let payload := update_work_package_payload lock_version subject description
                       percentage_done type_id priority_id status_id assignee_id
                       start_date due_date estimated_time in
      let links := update_work_package_links type_id priority_id status_id assignee_id in
      dict_get payload "subject" = option_map JStr subject /\
      dict_get payload "percentageDone" = option_map JInt percentage_done /\
      dict_get payload "startDate" = option_map JStr start_date /\
      dict_get payload "dueDate" = option_map JStr due_date /\
      dict_get payload "estimatedTime" = option_map JStr estimated_time /\
      dict_get payload "description" = option_map raw description /\
      dict_get payload "_links" = (if dict_truthy links then Some (JDict links) else None) /\
      dict_get links "type"
      = option_map (fun n => href ("/api/v3/types/" ++ str_of_int n)) type_id /\
      dict_get links "priority"
      = option_map (fun n => href ("/api/v3/priorities/" ++ str_of_int n)) priority_id /\
      dict_get links "status"
      = option_map (fun n => href ("/api/v3/statuses/" ++ str_of_int n)) status_id /\
      dict_get links "assignee"
      = option_map (fun n => href ("/api/v3/users/" ++ str_of_int n)) assignee_id) /\
  (forall offset page_size filters sort_by group_by show_sums select,
      let params := get_project_work_packages_params offset page_size filters sort_by
                      group_by show_sums select in
      dict_get params "offset" = option_map JInt offset /\
      dict_get params "pageSize" = option_map JInt page_size /\
      dict_get params "filters"
      = option_map (fun f => JStr (json_dumps (filter_value f))) filters /\
      dict_get params "sortBy"
      = option_map (fun l => JStr (json_dumps (JList (map JDict l)))) sort_by /\
      dict_get params "groupBy" = option_map JStr group_by /\
      dict_get params "showSums" = option_map true_false show_sums /\
      dict_get params "select" = option_map (fun l => JStr (String.concat "," l)) select) /\
  (forall name description identifier public status_explanation,
      dict_get (create_project_payload name description identifier (or_default public true)
                  status_explanation) "public"
      = Some (JBool (or_default public true)) /\
      dict_get (create_project_payload name None identifier (or_default public true)
                  status_explanation) "description" = None /\
      dict_get (create_project_payload name description identifier (or_default public true)
                  None) "statusExplanation" = None) /\
  (forall subject description type_id priority_id status_id assignee_id start_date
          due_date estimated_time,
      dict_get (create_work_package_payload subject None type_id priority_id status_id
                  assignee_id start_date due_date estimated_time) "description" = None /\
      dict_get (create_work_package_payload subject description type_id priority_id
                  status_id assignee_id None due_date estimated_time) "startDate" = None /\
      dict_get (create_work_package_payload subject description type_id priority_id
                  status_id assignee_id start_date None estimated_time) "dueDate" = None /\
      dict_get (create_work_package_payload subject description type_id priority_id
                  status_id assignee_id start_date due_date None) "estimatedTime" = None /\
      dict_get (create_work_package_payload subject description None None None None
                  start_date due_date estimated_time) "_links" = None /\
      dict_get (create_work_package_links None priority_id status_id assignee_id) "type"
      = None /\
      dict_get (create_work_package_links type_id None status_id assignee_id) "priority"
      = None /\
      dict_get (create_work_package_links type_id priority_id None assignee_id) "status"
      = None /\
      dict_get (create_work_package_links type_id priority_id status_id None) "assignee"
      = None) /\
  (forall notify,
      dict_get (notify_params (or_default notify true)) "notify"
      = Some (true_false (or_default notify true))).
Proof.
  repeat apply conj.
  - intros name description identifier public active status_explanation.
    destruct name, description, identifier, public, active, status_explanation;
      repeat split; reflexivity.
  - intros lock_version subject description percentage_done type_id priority_id status_id
           assignee_id start_date due_date estimated_time.
    cbv zeta. unfold update_work_package_payload.
    remember (update_work_package_links type_id priority_id status_id assignee_id)
      as links eqn:El.
    repeat apply conj;
      try (destruct subject, description, percentage_done, start_date, due_date,
             estimated_time, (dict_truthy links); reflexivity).
    all: subst links; destruct type_id, priority_id, status_id, assignee_id; reflexivity.
  - intros offset page_size filters sort_by group_by show_sums select.
    destruct offset, page_size, filters, sort_by, group_by, show_sums, select;
      repeat split; reflexivity.
  - intros name description identifier public status_explanation.
    unfold create_project_payload.
    destruct (if_str description), (if_str status_explanation); repeat split; reflexivity.
  - intros subject description type_id priority_id status_id assignee_id start_date
           due_date estimated_time.
    unfold create_work_package_payload.
    repeat apply conj.
    1-4: match goal with
         | |- context [dict_truthy ?l] => destruct (dict_truthy l)
         end;
         cbn [if_str];
         repeat match goal with
                | |- context [if_str ?x] => destruct (if_str x)
                end; reflexivity.
    1: cbn [create_work_package_links if_int dict_truthy];
       destruct (if_str description), (if_str start_date), (if_str due_date),
         (if_str estimated_time); reflexivity.
    all: unfold create_work_package_links; cbn [if_int];
      repeat match goal with
             | |- context [if_int ?x] => destruct (if_int x)
             end; reflexivity.
  - intros notify. reflexivity.
Qed.

(** ** C4 *)









Example view_project_not_found :
  fst (invoke not_found_world (ViewProject 9))
  = Returned (JStr (dq "{'error': 'HTTP error', 'status': 404, 'details': 'Not Found'}")).
Proof. reflexivity. Qed.

(** The operations left out of [gateway_call]. *)

Lemma run_api_raises w query method :
  run_api w query method = (Raised (UnboundLocalError (unbound_local "api_key")), []).
Proof. reflexivity. Qed.

Lemma view_activity_raises w activity_id :
  view_activity w activity_id = (Raised (UnboundLocalError (unbound_local "api_key")), []).
Proof. reflexivity. Qed.

Lemma list_projects_returns_record :
  fst (list_projects not_found_world)
  = Returned (JDict [("error", JStr "HTTP error"); ("status", JInt 404);
                     ("details", JStr "Not Found")]).
Proof. reflexivity. Qed.

(** ** C7 *)

(** C7.  The token does not reach the server.  [update_work_package]
    builds a body that holds the token it was given under [lockVersion]
    and then hands it to [make_request] under the keyword [json], which
    [make_request] does not declare: the call returns the error sentence
    and no request is issued.  [execute_custom_action] raises on its
    second statement, before it builds a body. *)
Theorem lock_version_is_not_sent :
  dict_get (update_work_package_payload 3 (Some "Title") None None None None None None
              None None None) "lockVersion" = Some (JInt 3) /\
  run no_content_world
    (UpdateWorkPackage 7 3 (Some "Title") None None None None None None None None None None)
  = (Returned (JStr ("Error updating work package 7: "
                     ++ "make_request() got an unexpected keyword argument 'json'")), []) /\
  dict_get (execute_custom_action_payload 7 3) "lockVersion" = Some (JInt 3) /\
  execute_custom_action no_content_world 1 7 3
  = (Raised (UnboundLocalError
       "cannot access local variable 'api_key' where it is not associated with a value"),
     []).
Proof. repeat split; vm_compute; reflexivity. Qed.

(** [execute_custom_action] never gets as far as its body text: with all
    three arguments given it raises on the read of the local [api_key]. *)
Lemma execute_custom_action_raises w custom_action_id work_package_id lock_version :
  execute_custom_action w custom_action_id work_package_id lock_version
  = (Raised (UnboundLocalError (unbound_local "api_key")), []).
Proof. reflexivity. Qed.

(** ** C9 *)

Example project_filter_text :
  json_dumps (filter_value project_filter)
  = dq "[{'project': {'operator': '=', 'values': ['5']}}]".
Proof. reflexivity. Qed.

Example project_filter_round_trip :
  json_loads (dq "[{'project': {'operator': '=', 'values': ['5']}}]")
  = Some (filter_value project_filter).
Proof. reflexivity. Qed.

(** The compact form a client may send decodes to the same value. *)
Example project_filter_compact :
  json_loads (dq "[{'project':{'operator':'=','values':['5']}}]")
  = Some (filter_value project_filter).
Proof. reflexivity. Qed.





(** ** C10 *)

Example default_filter_text :
  json_dumps (JList [default_status_filter])
  = dq "[{'status_id': {'operator': 'o', 'values': null}}]".
Proof. reflexivity. Qed.




(* ================================================================== *)
(** * Part X.  The endpoint catalog: properties *)
(* ================================================================== *)

Local Open Scope list_scope.

(** ** What [LIKE '%query%'] matches *)

Lemma like_chars_cons c p s :
  like_chars (c :: p) s
  = if (code c =? 37)%N then any_suffix (like_chars p) s
    else match s with
         | [] => false
         | d :: s' => like_char c d && like_chars p s'
         end.
Proof.
  cbn [like_chars]. destruct (code c =? 37)%N; [|reflexivity].
  induction s as [|d s IH]; [reflexivity|].
  cbn [any_suffix]. now rewrite <- IH.
Qed.





Lemma chars_append a b : chars (a ++ b)%string = chars a ++ chars b.
Proof.
  induction a as [|c a IH]; [reflexivity|]. cbn. unfold chars in IH. now rewrite IH.
Qed.




(** ** [search_endpoint] and [query_api] *)

Local Open Scope string_scope.
Local Open Scope Z_scope.





(** The wildcard [_] of the pattern is live as well. *)
Example underscore_is_a_wildcard :
  like "%work_packages%" "/api/v3/work-packages" = true.
Proof. reflexivity. Qed.



(* ================================================================== *)
(** * Part XI.  What the decoder returns *)
(* ================================================================== *)

Local Open Scope list_scope.

(** ** A decoded value never has a key twice *)

Lemma dict_set_key_in d k v x :
  In x (map fst (dict_set d k v)) -> x = k \/ In x (map fst d).
Proof.
  induction d as [|[k' v'] d IH]; cbn [dict_set map fst In].
  - intros [H|[]]. now left.
  - destruct (String.eqb_spec k k') as [->|Hne]; cbn [map fst In].
    + intros [H|H]; right; [now left | now right].
    + intros [H|H]; [right; now left|].
      destruct (IH H) as [->|Hin]; [now left | right; now right].
Qed.

Lemma dict_set_nodup d k v : NoDup (map fst d) -> NoDup (map fst (dict_set d k v)).
Proof.
  induction d as [|[k' v'] d IH]; cbn [dict_set map fst]; intros H.
  - constructor; [intros [] | constructor].
  - inversion H as [|? ? Hk Hd]; subst.
    destruct (String.eqb_spec k k') as [->|Hne]; cbn [map fst].
    + constructor; assumption.
    + constructor; [|now apply IH].
      intros Hin. apply dict_set_key_in in Hin. destruct Hin as [->|Hin]; auto.
Qed.

Lemma dict_set_values (P : json -> Prop) d k v :
  Forall (fun kv => P (snd kv)) d -> P v -> Forall (fun kv => P (snd kv)) (dict_set d k v).
Proof.
  intros Hd Hv. induction d as [|[k' v'] d IH]; cbn [dict_set].
  - constructor; [exact Hv | constructor].
  - inversion Hd; subst. destruct (String.eqb k k'); constructor; auto.
Qed.

Lemma dict_of_pairs_wf ps :
  Forall (fun kv => json_wf (snd kv)) ps -> json_wf (JDict (dict_of_pairs ps)).
Proof.
  intros H. unfold dict_of_pairs.
  assert (G : forall acc : dict,
             json_wf (JDict acc) ->
             json_wf (JDict (fold_left (fun d kv => dict_set d (fst kv) (snd kv)) ps acc))).
  { induction H as [|[k v] ps Hv Hps IH]; intros acc Hacc; cbn [fold_left fst snd].
    - exact Hacc.
    - apply IH. apply json_wf_dict in Hacc. destruct Hacc as [Hn Hf].
      apply json_wf_dict. split; [now apply dict_set_nodup | now apply dict_set_values]. }
  apply G. apply json_wf_dict. split; constructor.
Qed.

Lemma scan_wf fuel :
  (forall s v r, scan_once fuel s = Some (v, r) -> json_wf v) /\
  (forall s vs r, scan_items fuel s = Some (vs, r) -> Forall json_wf vs) /\
  (forall s ps r, scan_members fuel s = Some (ps, r) ->
                  Forall (fun kv => json_wf (snd kv)) ps).
Proof.
  induction fuel as [|fuel (IHo & IHi & IHm)]; [repeat split; discriminate|].
  repeat apply conj.
  - intros [|c s] v r H; [discriminate H|]. cbn [scan_once] in H.
    destruct (code c =? 34)%N.
    { destruct (scanstring s) as [[l rest]|]; [|discriminate H].
      injection H as <- _. exact I. }
    destruct (code c =? 123)%N.
    { destruct (skip_ws s) as [|c' r']; [discriminate H|].
      destruct (code c' =? 125)%N.
      - injection H as <- _. apply json_wf_dict. split; constructor.
      - destruct (scan_members fuel (c' :: r')) as [[ps rest]|] eqn:E; [|discriminate H].
        injection H as <- _. apply dict_of_pairs_wf. now apply IHm in E. }
    destruct (code c =? 91)%N.
    { destruct (skip_ws s) as [|c' r']; [discriminate H|].
      destruct (code c' =? 93)%N.
      - injection H as <- _. exact I.
      - destruct (scan_items fuel (c' :: r')) as [[vs rest]|] eqn:E; [|discriminate H].
        injection H as <- _. apply json_wf_list. now apply IHi in E. }
    destruct (strip_prefix (chars "null") (c :: s)) as [rest|].
    { injection H as <- _. exact I. }
    destruct (strip_prefix (chars "true") (c :: s)) as [rest|].
    { injection H as <- _. exact I. }
    destruct (strip_prefix (chars "false") (c :: s)) as [rest|].
    { injection H as <- _. exact I. }
    unfold scan_number in H.
    destruct (match c :: s with
              | c0 :: r0 => if (code c0 =? 45)%N then (true, r0) else (false, c :: s)
              | [] => (false, c :: s)
              end) as [neg s1].
    destruct (scan_int_part s1) as [[d rest]|]; [|discriminate H].
    destruct (float_follows rest); [discriminate H|].
    injection H as <- _. exact I.
  - intros s vs r H. cbn [scan_items] in H.
    destruct (scan_once fuel s) as [[v r1]|] eqn:E; [|discriminate H].
    apply IHo in E.
    destruct (skip_ws r1) as [|c r']; [discriminate H|].
    destruct (code c =? 93)%N.
    { injection H as <- _. constructor; [exact E | constructor]. }
    destruct (code c =? 44)%N; [|discriminate H].
    destruct (scan_items fuel (skip_ws r')) as [[vs' rest]|] eqn:E'; [|discriminate H].
    injection H as <- _. apply IHi in E'. now constructor.
  - intros [|c s] ps r H; [discriminate H|]. cbn [scan_members] in H.
    destruct (code c =? 34)%N; [|discriminate H].
    destruct (scanstring s) as [[k r1]|]; [|discriminate H].
    destruct (skip_ws r1) as [|c1 r2]; [discriminate H|].
    destruct (code c1 =? 58)%N; [|discriminate H].
    destruct (scan_once fuel (skip_ws r2)) as [[v r3]|] eqn:Ev; [|discriminate H].
    apply IHo in Ev.
    destruct (skip_ws r3) as [|c2 r4]; [discriminate H|].
    destruct (code c2 =? 125)%N.
    { injection H as <- _. constructor; [exact Ev | constructor]. }
    destruct (code c2 =? 44)%N; [|discriminate H].
    destruct (scan_members fuel (skip_ws r4)) as [[ps' rest]|] eqn:Em; [|discriminate H].
    injection H as <- _. apply IHm in Em. now constructor.
Qed.

(** What [json.loads] returns is a value a Python program can hold: when
    the text repeats a key, the object has it once. *)
Lemma json_loads_wf s v : json_loads s = Some v -> json_wf v.
Proof.
  unfold json_loads, loads_chars. intros H.
  destruct (scan_once _ (skip_ws (chars s))) as [[v' rest]|] eqn:E; [|discriminate H].
  destruct (skip_ws rest); [|discriminate H].
  injection H as <-. destruct (scan_wf (2 * List.length (skip_ws (chars s)) + 2)) as (Ho & _).
  now apply Ho in E.
Qed.

(** The text [json.dumps] writes for a decoded value decodes to it again. *)
Lemma json_loads_dumps_loads s v :
  json_loads s = Some v -> json_loads (json_dumps v) = Some v.
Proof. intros H. apply json_loads_dumps. now apply json_loads_wf in H. Qed.

(* ================================================================== *)
(** * Part XII.  The request executor: further properties *)
(* ================================================================== *)

Local Open Scope string_scope.
Local Open Scope Z_scope.

Lemma headers_get_set h k v : headers_get (headers_set h k v) k = Some v.
Proof.
  induction h as [|[k' v'] h IH]; cbn [headers_set headers_get].
  - now rewrite String.eqb_refl.
  - destruct (String.eqb k k') eqn:E; cbn [headers_get]; rewrite E; [reflexivity | exact IH].
Qed.

Lemma headers_get_set_other h k v k' :
  k' <> k -> headers_get (headers_set h k v) k' = headers_get h k'.
Proof.
  intros Hne. induction h as [|[k0 v0] h IH]; cbn [headers_set headers_get].
  - destruct (String.eqb_spec k' k); [contradiction | reflexivity].
  - destruct (String.eqb_spec k k0) as [->|Hk]; cbn [headers_get].
    + destruct (String.eqb_spec k' k0); [contradiction | reflexivity].
    + destruct (String.eqb k' k0); [reflexivity | exact IH].
Qed.

(** X1.  [make_request] never tries again and never follows up: the
    requests it issues are the same whatever the server answers and
    whatever else the surroundings hold, and there is at most one.  The
    letter case of the method name does not matter.  For a name that is not
    a request method of the client it issues no request and returns the
    record [Request failed]. *)
Theorem make_request_no_retry w w' url method headers data params :
  snd (make_request w url method headers data params)
  = snd (make_request w' url method headers data params) /\
  (List.length (snd (make_request w url method headers data params)) <= 1)%nat /\
  (forall method',
      lower method' = lower method ->
      make_request w url method' headers data params
      = make_request w url method headers data params) /\
  (in_list (lower method) ["get"; "options"; "head"; "post"; "put"; "patch"; "delete"] = false ->
   make_request w url method headers data params
   = (JDict [("error", JStr "Request failed");
             ("details", JStr (client_error_text w (lower method)))], [])).
Proof.
  repeat apply conj.
  - now rewrite !make_request_calls.
  - apply make_request_at_most_one_call.
  - intros method' H. unfold make_request. now rewrite H.
  - intros H. unfold make_request. fold client_methods in H |- *.
    unfold client_methods in *. now rewrite H.
Qed.

(** X2.  Every request [make_request] issues goes to the given URL with a
    timeout of 30 seconds and carries the fixed [User-Agent], also when the
    caller passed one of its own; every other header of the caller is sent
    as given. *)
Theorem make_request_headers w url method headers data params rq :
  In rq (snd (make_request w url method headers data params)) ->
  rq_url rq = url /\
  ra_timeout (rq_args rq) = 30 /\
  headers_get (ra_headers (rq_args rq)) "User-Agent" = Some USER_AGENT /\
  (forall k, k <> "User-Agent" ->
             headers_get (ra_headers (rq_args rq)) k = headers_get (or_default headers []) k).
Proof.
  rewrite make_request_calls.
  destruct (in_list (lower method) client_methods); [|intros []].
  intros [<-|[]]. unfold prepared_request, prepared_args, build_request_args.
  destruct (in_list (lower method) query_methods); cbn [rq_url rq_args ra_timeout ra_headers];
    (repeat apply conj; [reflexivity | reflexivity | apply headers_get_set
                         | intros k Hk; now apply headers_get_set_other]).
Qed.

Lemma make_request_headers_witness :
  let headers := [("User-Agent", "curl/8.0"); ("Accept", "application/hal+json")] in
  let rq := prepared_request "https://openproject.example/api/v3/projects" "GET"
              (Some headers) None None in
  In rq (snd (make_request not_found_world "https://openproject.example/api/v3/projects"
                "GET" (Some headers) None None)) /\
  headers_get (ra_headers (rq_args rq)) "User-Agent" = Some USER_AGENT /\
  headers_get (ra_headers (rq_args rq)) "Accept" = Some "application/hal+json".
Proof.
  intros headers rq.
  assert (Hin : In rq (snd (make_request not_found_world
                              "https://openproject.example/api/v3/projects" "GET"
                              (Some headers) None None))).
  { left. reflexivity. }
  split; [exact Hin|].
  destruct (make_request_headers _ _ _ _ _ _ _ Hin) as (_ & _ & Hua & H).
  split; [exact Hua|].
  rewrite (H "Accept"); [reflexivity | discriminate].
Defined.

(** X3.  For GET, DELETE, HEAD and OPTIONS the argument [data] comes
    before [params]: with a [data] that is not empty the result and the
    request are the same whatever [params] is, so the caller's [params] are
    not sent; an empty [data] counts as none. *)
Theorem make_request_data_before_params w url method headers :
  in_list (lower method) ["get"; "delete"; "head"; "options"] = true ->
  (forall data params params',
      dict_truthy data = true ->
      make_request w url method headers (Some data) params
      = make_request w url method headers (Some data) params' /\
      Forall (fun rq => ra_params (rq_args rq) = Some (Some data))
             (snd (make_request w url method headers (Some data) params))) /\
  (forall params,
      make_request w url method headers (Some []) params
      = make_request w url method headers None params).
Proof.
  intros Hq. fold query_methods in Hq. split.
  - intros data params params' Hd. split.
    + unfold make_request, build_request_args. rewrite Hq.
      unfold data_or_params, opt_dict_truthy. now rewrite Hd.
    + rewrite make_request_calls.
      destruct (in_list (lower method) client_methods); constructor; [|constructor].
      unfold prepared_request, prepared_args, build_request_args. rewrite Hq.
      cbn [rq_args ra_params]. unfold data_or_params, opt_dict_truthy. now rewrite Hd.
  - intros params. unfold make_request, build_request_args. rewrite Hq. reflexivity.
Qed.

Lemma make_request_data_before_params_witness :
  in_list (lower "Get") ["get"; "delete"; "head"; "options"] = true /\
  dict_truthy [("pageSize", JInt 5)] = true /\
  make_request not_found_world "https://openproject.example/api/v3/projects" "Get"
    None (Some [("pageSize", JInt 5)]) (Some [("offset", JInt 2)])
  = make_request not_found_world "https://openproject.example/api/v3/projects" "Get"
      None (Some [("pageSize", JInt 5)]) None.
Proof.
  split; [reflexivity|]. split; [reflexivity|].
  destruct (make_request_data_before_params not_found_world
              "https://openproject.example/api/v3/projects" "Get" None eq_refl) as [H _].
  destruct (H [("pageSize", JInt 5)] (Some [("offset", JInt 2)]) None eq_refl) as [E _].
  exact E.
Defined.

(** The result of [make_request] is a value [json.dumps] and [json.loads]
    take there and back; it is one of the two error records or the decoded
    body of an answer with a 2xx code. *)
Lemma http_error_wf status_code body : json_wf (http_error status_code body).
Proof.
  apply json_wf_dict. split.
  - cbn. repeat constructor; cbn; intros H;
      repeat (destruct H as [H|H]; [discriminate H|]); exact H.
  - repeat constructor.
Qed.

Lemma request_failed_wf details : json_wf (request_failed details).
Proof.
  apply json_wf_dict. split.
  - cbn. repeat constructor; cbn; intros H;
      repeat (destruct H as [H|H]; [discriminate H|]); exact H.
  - repeat constructor.
Qed.

Lemma make_request_result w url method headers data params :
  let v := fst (make_request w url method headers data params) in
  json_wf v /\
  (is_error_record v \/
   exists rq status_code body,
     snd (make_request w url method headers data params) = [rq] /\
     upstream w rq = Response status_code body /\
     is_success status_code = true /\
     json_loads body = Some v).
Proof.
  unfold make_request.
  destruct (in_list (lower method) client_methods).
  - match goal with
    | |- context [upstream w ?r] => set (rq := r)
    end.
    destruct (upstream w rq) as [status_code body|message] eqn:Eu.
    + destruct (is_success status_code) eqn:Es.
      * destruct (json_loads body) as [v|] eqn:El; cbn [fst snd].
        -- split; [now apply json_loads_wf in El|].
           right. exists rq, status_code, body. auto.
        -- split; [apply request_failed_wf | left; right; eauto].
      * cbn [fst snd]. split; [apply http_error_wf | left; left; eauto].
    + cbn [fst snd]. split; [apply request_failed_wf | left; right; eauto].
  - cbn [fst snd]. split; [apply request_failed_wf | left; right; eauto].
Qed.

(* ================================================================== *)
(** * Part XIII.  The operations: further properties *)
(* ================================================================== *)






(** X6.  [run_api] and each of the fifteen operations from [view_activity]
    to [get_notification_detail] raise [UnboundLocalError] for every input,
    whatever the environment variables and the files hold, before any
    request is issued: their first statements read the local [api_key],
    which has no value yet. *)
Theorem keyed_operations_raise w fs c :
  invoke_keyed w fs c
  = (Raised (UnboundLocalError
       "cannot access local variable 'api_key' where it is not associated with a value"),
     []).
Proof. destruct c; reflexivity. Qed.

(** X7.  The part of the two upload operations after the configuration
    never issues a request either: the result is the sentence for a
    missing file, the error sentence with the text of the failure to read
    the file, or the error sentence with the [TypeError] for the keyword
    [files], which [make_request] does not declare. *)
Theorem upload_never_sends w fs api_url key file_path file_name description prefix :
  snd (upload w fs api_url key file_path file_name description prefix) = [] /\
  fst (upload w fs api_url key file_path file_name description prefix)
  = Returned (JStr
      (if path_exists fs file_path then
         match read_bytes fs file_path with
         | inl _ => prefix ++ "make_request() got an unexpected keyword argument 'files'"
         | inr message => prefix ++ message
         end
       else "Error: File not found at path: " ++ file_path)).
Proof.
  unfold upload.
  destruct (path_exists fs file_path); cbn [negb]; [|split; reflexivity].
  destruct (read_bytes fs file_path); split; reflexivity.
Qed.

(** ** Empty inputs of the create operations *)

Lemma if_str_none (o : option string) :
  if_str o = None <-> o = None \/ o = Some EmptyString.
Proof.
  destruct o as [[|c s]|]; cbn; split; intros H; try discriminate; auto;
    destruct H as [H|H]; discriminate.
Qed.

Lemma if_int_none (o : option Z) : if_int o = None <-> o = None \/ o = Some 0.
Proof.
  destruct o as [[|p|p]|]; cbn; split; intros H; try discriminate; auto;
    destruct H as [H|H]; discriminate.
Qed.

(** X8.  The create operations test their optional inputs for truth, so an
    empty text and the number 0 are dropped like an input that was left
    out.  [create_project] always sends [name], [identifier] ([null] when
    it was left out), [active] as [true] and [_type] as [Project]; it sends
    [description] and [statusExplanation], as markdown, for a text that is
    not empty.  [create_work_package] sends [subject] always, each text
    field when it is not empty, and under [_links] one link for each id
    that is not 0; there is no [_links] key when no id is left. *)
Theorem create_operations_drop_empty_inputs :
  (forall o, if_str o = None <-> o = None \/ o = Some EmptyString) /\
  (forall o, if_int o = None <-> o = None \/ o = Some 0) /\
  (forall name description identifier public status_explanation,
      let payload := create_project_payload name description identifier public
                       status_explanation in
      dict_get payload "name" = Some (JStr name) /\
      dict_get payload "identifier" = Some (opt_str identifier) /\
      dict_get payload "active" = Some (JBool true) /\
      dict_get payload "_type" = Some (JStr "Project") /\
      dict_get payload "description" = option_map markdown (if_str description) /\
      dict_get payload "statusExplanation"
      = option_map markdown (if_str status_explanation)) /\
  (forall subject description type_id priority_id status_id assignee_id start_date
          due_date estimated_time,
      let payload := create_work_package_payload subject description type_id priority_id
                       status_id assignee_id start_date due_date estimated_time in
      let links := create_work_package_links type_id priority_id status_id assignee_id in
      dict_get payload "subject" = Some (JStr subject) /\
      dict_get payload "description" = option_map raw (if_str description) /\
      dict_get payload "startDate" = option_map JStr (if_str start_date) /\
      dict_get payload "dueDate" = option_map JStr (if_str due_date) /\
      dict_get payload "estimatedTime" = option_map JStr (if_str estimated_time) /\
      dict_get links "type"
      = option_map (fun n => href ("/api/v3/types/" ++ str_of_int n)) (if_int type_id) /\
      dict_get links "priority"
      = option_map (fun n => href ("/api/v3/priorities/" ++ str_of_int n))
          (if_int priority_id) /\
      dict_get links "status"
      = option_map (fun n => href ("/api/v3/statuses/" ++ str_of_int n)) (if_int status_id) /\
      dict_get links "assignee"
      = option_map (fun n => href ("/api/v3/users/" ++ str_of_int n)) (if_int assignee_id) /\
      dict_get payload "_links"
      = (match if_int type_id, if_int priority_id, if_int status_id, if_int assignee_id with
         | None, None, None, None => None
         | _, _, _, _ => Some (JDict links)
         end)).
Proof.
  split; [exact if_str_none|]. split; [exact if_int_none|]. split.
  - intros name description identifier public status_explanation.
    unfold create_project_payload.
    destruct (if_str description), (if_str status_explanation); repeat split; reflexivity.
  - intros subject description type_id priority_id status_id assignee_id start_date
           due_date estimated_time.
    cbv zeta. unfold create_work_package_payload, create_work_package_links.
    destruct (if_int type_id), (if_int priority_id), (if_int status_id),
      (if_int assignee_id), (if_str description), (if_str start_date), (if_str due_date),
      (if_str estimated_time); repeat split; reflexivity.
Qed.

(** ** A dictionary as the filter of [list_work_packages] *)

Lemma json_wf_strings l : Forall json_wf (map JStr l).
Proof. induction l; constructor; [exact I | assumption]. Qed.

Lemma default_status_filter_wf : json_wf default_status_filter.
Proof.
  cbn. repeat split; repeat constructor; cbn; intuition discriminate.
Qed.

(** X9.  When [filters] is a dictionary, [list_work_packages] sends the
    default status filter followed by the keys of the dictionary, as
    strings: the values under the keys are never sent, and an empty
    dictionary is answered like a call without filters.  The text under
    [filters] decodes to that list. *)
Theorem list_work_packages_dict_filter (w : world) :
  (forall d,
      dict_get (list_work_packages_params (Some (FilterDict d))) "filters"
      = Some (JStr (json_dumps (JList (default_status_filter :: map JStr (dict_keys d))))) /\
      json_loads (json_dumps (JList (default_status_filter :: map JStr (dict_keys d))))
      = Some (JList (default_status_filter :: map JStr (dict_keys d)))) /\
  (forall d d',
      dict_keys d = dict_keys d' ->
      list_work_packages w (Some (FilterDict d))
      = list_work_packages w (Some (FilterDict d'))) /\
  list_work_packages w (Some (FilterDict [])) = list_work_packages w None.
Proof.
  repeat apply conj.
  - intros d. split; [reflexivity|].
    apply json_loads_dumps. apply json_wf_list.
    constructor; [apply default_status_filter_wf | apply json_wf_strings].
  - intros d d' H. unfold list_work_packages, list_work_packages_params, effective_filters.
    cbn [is_empty_list unpack]. now rewrite H.
  - reflexivity.
Qed.

(** ** Requests and the resources they address *)

Local Open Scope list_scope.

Lemma chars_of_int_inj a b : chars_of_int a = chars_of_int b -> a = b.
Proof.
  intros H.
  pose proof (scan_number_chars a [] eq_refl) as Ha.
  pose proof (scan_number_chars b [] eq_refl) as Hb.
  rewrite H, Hb in Ha. now injection Ha.
Qed.

Lemma str_of_int_inj a b : str_of_int a = str_of_int b -> a = b.
Proof.
  unfold str_of_int. intros H. apply chars_of_int_inj.
  apply (f_equal chars) in H. now rewrite !chars_text in H.
Qed.

Lemma append_inv_head (p a b : string) : (p ++ a = p ++ b)%string -> a = b.
Proof.
  induction p as [|c p IH]; cbn; intros H; [exact H|]. injection H as H. now apply IH.
Qed.

Lemma append_inv_tail (a b s : string) : (a ++ s = b ++ s)%string -> a = b.
Proof.
  intros H. apply (f_equal chars) in H. rewrite !chars_append in H.
  apply app_inv_tail in H. apply (f_equal text) in H. now rewrite !text_chars in H.
Qed.

Lemma chars_of_uint_digits d : Forall (fun c => numeral_char c = true) (chars_of_uint d).
Proof. induction d; cbn [chars_of_uint]; constructor; try reflexivity; assumption. Qed.

Lemma chars_of_int_numeral n : Forall (fun c => numeral_char c = true) (chars_of_int n).
Proof.
  unfold chars_of_int. destruct (Z.to_int n).
  - apply chars_of_uint_digits.
  - constructor; [reflexivity | apply chars_of_uint_digits].
Qed.

Lemma numeral_no_slash n : ~ In "/"%char (chars_of_int n).
Proof.
  intros H. pose proof (chars_of_int_numeral n) as F.
  rewrite Forall_forall in F. apply F in H. discriminate H.
Qed.

Lemma app_cons_split (c : ascii) l1 l2 r1 r2 :
  ~ In c l1 -> ~ In c l2 -> l1 ++ c :: r1 = l2 ++ c :: r2 -> l1 = l2 /\ r1 = r2.
Proof.
  revert l2. induction l1 as [|x l1 IH]; intros [|y l2] H1 H2 E; cbn in E.
  - injection E as <-. now split.
  - injection E as <- _. exfalso. apply H2. now left.
  - injection E as -> _. exfalso. apply H1. now left.
  - injection E as <- E. destruct (IH l2) as [<- <-]; auto.
    + intros H. apply H1. now right.
    + intros H. apply H2. now right.
Qed.

(** Two numbers separated by a text that starts with a slash. *)
Lemma two_ids_inj a b a' b' (sep : string) :
  (str_of_int a ++ String "/" sep ++ str_of_int b
   = str_of_int a' ++ String "/" sep ++ str_of_int b')%string ->
  a = a' /\ b = b'.
Proof.
  intros H. apply (f_equal chars) in H. rewrite !chars_append in H.
  unfold str_of_int in H. rewrite !chars_text in H.
  change (chars (String "/" sep)) with ("/"%char :: chars sep) in H.
  rewrite <- !app_comm_cons in H.
  apply app_cons_split in H; try apply numeral_no_slash.
  destruct H as [Ha Hb]. split; [now apply chars_of_int_inj|].
  apply app_inv_head in Hb. now apply chars_of_int_inj.
Qed.

Local Open Scope string_scope.

Lemma send_get_url w url url' headers params params' prefix prefix' :
  snd (send w (request_call url "GET" headers params None) prefix)
  = snd (send w (request_call url' "GET" headers params' None) prefix') ->
  url = url'.
Proof.
  rewrite !send_declared_keywords. cbn [snd]. rewrite !make_request_calls.
  change (in_list (lower "GET") client_methods) with true. cbv iota.
  intros H. injection H as H _. exact H.
Qed.

Lemma remove_work_package_watcher_request w work_package_id user_id :
  snd (remove_work_package_watcher w work_package_id user_id)
  = [prepared_request
       ("https://" ++ host w ++ "/api/v3/work_packages/" ++ str_of_int work_package_id
        ++ "/watchers/" ++ str_of_int user_id)
       "DELETE" (Some (json_headers (api_key w))) None None].
Proof.
  unfold remove_work_package_watcher, request_call, call_make_request, try_except, bind, ret.
  cbn [kw_json kw_files kw_url kw_method kw_headers kw_data kw_params].
  match goal with
  | |- context [make_request w ?u ?m ?h ?d ?p] =>
      pose proof (make_request_calls w u m h d p) as Hc;
      destruct (make_request w u m h d p) as [r t]
  end.
  cbn [snd] in *. rewrite List.app_nil_r. exact Hc.
Qed.

(** X10.  The requests tell the resources apart: for ids of at most 4300
    digits, two calls of an operation that is addressed by an id issue the
    same request only for the same id, and [remove_work_package_watcher]
    only for the same work package and the same user. *)
Theorem requests_tell_resources_apart (w : world) :
  (forall a b, writable a = true -> writable b = true ->
               snd (view_project w a) = snd (view_project w b) -> a = b) /\
  (forall a b, writable a = true -> writable b = true ->
               snd (get_project_available_assignees w a)
               = snd (get_project_available_assignees w b) -> a = b) /\
  (forall a b ts ts', writable a = true -> writable b = true ->
                      snd (view_work_package w a ts) = snd (view_work_package w b ts') ->
                      a = b) /\
  (forall a b, writable a = true -> writable b = true ->
               snd (list_work_package_activities w a)
               = snd (list_work_package_activities w b) -> a = b) /\
  (forall a b, writable a = true -> writable b = true ->
               snd (get_work_package_available_assignees w a)
               = snd (get_work_package_available_assignees w b) -> a = b) /\
  (forall a b, writable a = true -> writable b = true ->
               snd (get_work_package_available_watchers w a)
               = snd (get_work_package_available_watchers w b) -> a = b) /\
  (forall a b, writable a = true -> writable b = true ->
               snd (list_work_package_watchers w a)
               = snd (list_work_package_watchers w b) -> a = b) /\
  (forall a u a' u',
      writable a = true -> writable u = true ->
      writable a' = true -> writable u' = true ->
      snd (remove_work_package_watcher w a u)
      = snd (remove_work_package_watcher w a' u') -> a = a' /\ u = u').
Proof.
  repeat apply conj.
  - intros a b _ _ H. apply send_get_url in H.
    do 3 apply append_inv_head in H. now apply str_of_int_inj.
  - intros a b _ _ H. apply send_get_url in H.
    do 3 apply append_inv_head in H. apply append_inv_tail in H. now apply str_of_int_inj.
  - intros a b ts ts' _ _ H. apply send_get_url in H.
    do 3 apply append_inv_head in H. now apply str_of_int_inj.
  - intros a b _ _ H. apply send_get_url in H.
    do 3 apply append_inv_head in H. apply append_inv_tail in H. now apply str_of_int_inj.
  - intros a b _ _ H. apply send_get_url in H.
    do 3 apply append_inv_head in H. apply append_inv_tail in H. now apply str_of_int_inj.
  - intros a b _ _ H. apply send_get_url in H.
    do 3 apply append_inv_head in H. apply append_inv_tail in H. now apply str_of_int_inj.
  - intros a b _ _ H. apply send_get_url in H.
    do 3 apply append_inv_head in H. apply append_inv_tail in H. now apply str_of_int_inj.
  - intros a u a' u' _ _ _ _ H. rewrite !remove_work_package_watcher_request in H.
    apply (f_equal (map rq_url)) in H. cbn [map prepared_request rq_url] in H.
    assert (E : "https://" ++ host w ++ "/api/v3/work_packages/" ++ str_of_int a
                ++ "/watchers/" ++ str_of_int u
                = "https://" ++ host w ++ "/api/v3/work_packages/" ++ str_of_int a'
                  ++ "/watchers/" ++ str_of_int u') by congruence.
    do 3 apply append_inv_head in E.
    now apply (two_ids_inj a u a' u' "watchers/").
Qed.

Lemma requests_tell_resources_apart_witness :
  writable 7 = true /\ writable 3 = true /\ writable 8 = true /\
  (snd (remove_work_package_watcher not_found_world 7 3)
   = snd (remove_work_package_watcher not_found_world 7 8) -> 3 = 8) /\
  snd (remove_work_package_watcher not_found_world 7 3)
  <> snd (remove_work_package_watcher not_found_world 7 8).
Proof.
  assert (W7 : writable 7 = true) by (vm_compute; reflexivity).
  assert (W3 : writable 3 = true) by (vm_compute; reflexivity).
  assert (W8 : writable 8 = true) by (vm_compute; reflexivity).
  destruct (requests_tell_resources_apart not_found_world)
    as (_ & _ & _ & _ & _ & _ & _ & H).
  repeat split; try assumption.
  - intros E. exact (proj2 (H 7 3 7 8 W7 W3 W7 W8 E)).
  - intros E. discriminate (proj2 (H 7 3 7 8 W7 W3 W7 W8 E)).
Defined.

(** ** The sentence of [remove_work_package_watcher] *)



(* ================================================================== *)
(** * Part XIV.  The endpoint catalog: further properties *)
(* ================================================================== *)

Local Open Scope list_scope.

(** ** The case of the letters of the query *)

Lemma sqlite_lower_marks c c' :
  sqlite_lower c = sqlite_lower c' ->
  (code c =? 0)%N = (code c' =? 0)%N /\
  (code c =? 37)%N = (code c' =? 37)%N /\
  (code c =? 95)%N = (code c' =? 95)%N /\
  (code c <? 128)%N = (code c' <? 128)%N.
Proof.
  intros H.
  assert (G : forall x,
             (code x =? 0)%N = (code (sqlite_lower x) =? 0)%N /\
             (code x =? 37)%N = (code (sqlite_lower x) =? 37)%N /\
             (code x =? 95)%N = (code (sqlite_lower x) =? 95)%N /\
             (code x <? 128)%N = (code (sqlite_lower x) <? 128)%N).
  { intros x. destruct x as [[] [] [] [] [] [] [] []]; repeat split; reflexivity. }
  destruct (G c) as (A0 & A1 & A2 & A3), (G c') as (B0 & B1 & B2 & B3).
  rewrite A0, A1, A2, A3, B0, B1, B2, B3, H. repeat split; reflexivity.
Qed.

Lemma c_string_lower p p' :
  map sqlite_lower p = map sqlite_lower p' ->
  map sqlite_lower (c_string p) = map sqlite_lower (c_string p').
Proof.
  revert p'. induction p as [|c p IH]; intros [|c' p'] H; try discriminate; [reflexivity|].
  cbn [map] in H. injection H as Hc Hp. cbn [c_string].
  destruct (sqlite_lower_marks c c' Hc) as (E & _). rewrite <- E.
  destruct (code c =? 0)%N; [reflexivity|]. cbn [map]. rewrite Hc. f_equal. now apply IH.
Qed.

Lemma utf8_length_lower p p' :
  map sqlite_lower p = map sqlite_lower p' -> utf8_length p = utf8_length p'.
Proof.
  revert p'. induction p as [|c p IH]; intros [|c' p'] H; try discriminate; [reflexivity|].
  cbn [map] in H. injection H as Hc Hp. cbn [utf8_length].
  destruct (sqlite_lower_marks c c' Hc) as (_ & _ & _ & E). rewrite <- E.
  now rewrite (IH p').
Qed.

Lemma any_suffix_ext f g s : (forall t, f t = g t) -> any_suffix f s = any_suffix g s.
Proof.
  intros H. induction s as [|c s IH]; cbn [any_suffix]; rewrite H; [reflexivity|].
  now rewrite IH.
Qed.

Lemma like_chars_lower p p' :
  map sqlite_lower p = map sqlite_lower p' -> forall s, like_chars p s = like_chars p' s.
Proof.
  revert p'. induction p as [|c p IH]; intros [|c' p'] H; try discriminate; [reflexivity|].
  cbn [map] in H. injection H as Hc Hp. intros s. rewrite !like_chars_cons.
  destruct (sqlite_lower_marks c c' Hc) as (_ & E37 & E95 & _). rewrite <- E37.
  destruct (code c =? 37)%N.
  - apply any_suffix_ext. now apply IH.
  - destruct s as [|d s]; [reflexivity|].
    unfold like_char. rewrite <- E95, Hc. f_equal. now apply IH.
Qed.

Lemma like_lower q q' value :
  map sqlite_lower (chars q) = map sqlite_lower (chars q') ->
  like ("%" ++ q ++ "%")%string value = like ("%" ++ q' ++ "%")%string value.
Proof.
  intros H. unfold like. apply like_chars_lower. apply c_string_lower.
  rewrite !chars_append, !map_app. now rewrite H.
Qed.

Lemma select_endpoints_lower rows q q' :
  map sqlite_lower (chars q) = map sqlite_lower (chars q') ->
  select_endpoints rows q = select_endpoints rows q'.
Proof.
  intros H. unfold select_endpoints. destruct rows as [|r rows]; [reflexivity|].
  assert (E : utf8_length (chars ("%" ++ q ++ "%")%string)
              = utf8_length (chars ("%" ++ q' ++ "%")%string)).
  { apply utf8_length_lower. rewrite !chars_append, !map_app. now rewrite H. }
  rewrite E. destruct (_ <? _)%Z; [reflexivity|].
  erewrite filter_ext; [reflexivity|]. intros a. cbv beta. now apply like_lower.
Qed.

(** X12.  The catalog lookup does not look at the case of the ASCII
    letters of the query: two queries that differ in nothing else give the
    same outcome of [search_endpoint] and of [query_api], on every table. *)
Theorem catalog_lookup_ignores_query_case w query query' :
  map sqlite_lower (chars query) = map sqlite_lower (chars query') ->
  search_endpoint w query = search_endpoint w query' /\
  query_api w query = query_api w query'.
Proof.
  intros H.
  assert (E : search_endpoint w query = search_endpoint w query').
  { unfold search_endpoint. now rewrite (select_endpoints_lower (api_endpoints w) _ _ H). }
  split; [exact E|]. unfold query_api. now rewrite E.
Qed.

Lemma catalog_lookup_ignores_query_case_witness :
  map sqlite_lower (chars "WORK_Packages") = map sqlite_lower (chars "work_packages") /\
  query_api catalog_world "WORK_Packages" = query_api catalog_world "work_packages".
Proof.
  split; [reflexivity|].
  destruct (catalog_lookup_ignores_query_case catalog_world "WORK_Packages" "work_packages"
              eq_refl) as [_ H].
  exact H.
Defined.

(** ** The empty query and the longest query *)





Lemma utf8_length_app a b : utf8_length (a ++ b) = (utf8_length a + utf8_length b)%Z.
Proof.
  induction a as [|c a IH]; [reflexivity|]. cbn [List.app utf8_length]. rewrite IH. lia.
Qed.

Lemma utf8_length_times n :
  utf8_length (chars (times "a" n)) = Z.of_nat n.
Proof.
  induction n as [|n IH]; [reflexivity|].
  cbn [times]. rewrite chars_append, utf8_length_app, IH.
  change (utf8_length (chars "a")) with 1%Z. lia.
Qed.

(** X14.  SQLite refuses a [LIKE] pattern of more than 50000 bytes, and
    the gateway has no handler for that: on a table that is not empty, a
    query of more than 49998 bytes makes [search_endpoint] and [query_api]
    raise [OperationalError].  On an empty table every query, however
    long, gives the empty list and the error object. *)
Theorem long_query_raises w query :
  (api_endpoints w <> [] ->
   (49998 < utf8_length (chars query))%Z ->
   search_endpoint w query
   = (Raised (OperationalError "LIKE or GLOB pattern too complex"), []) /\
   query_api w query
   = (Raised (OperationalError "LIKE or GLOB pattern too complex"), [])) /\
  (api_endpoints w = [] ->
   search_endpoint w query = (Returned [], []) /\
   query_api w query
   = (Returned (JStr (dq "{'error': 'No matching endpoints found'}")), [])).
Proof.
  split.
  - intros Hne Hlen.
    assert (E : search_endpoint w query
                = (Raised (OperationalError "LIKE or GLOB pattern too complex"), [])).
    { unfold search_endpoint, select_endpoints.
      destruct (api_endpoints w) as [|r rows]; [contradiction|].
      assert (L : (SQLITE_MAX_LIKE_PATTERN_LENGTH
                   <? utf8_length (chars ("%" ++ query ++ "%")%string))%Z = true).
      { apply Z.ltb_lt. rewrite !chars_append, !utf8_length_app.
        change (utf8_length (chars "%")) with 1%Z. unfold SQLITE_MAX_LIKE_PATTERN_LENGTH. lia. }
      rewrite L. reflexivity. }
    split; [exact E|]. unfold query_api. now rewrite E.
  - intros Hnil.
    assert (E : search_endpoint w query = (Returned [], [])).
    { unfold search_endpoint, select_endpoints. now rewrite Hnil. }
    split; [exact E|]. unfold query_api. now rewrite E.
Qed.

Lemma long_query_raises_witness :
  api_endpoints catalog_world <> [] /\
  (49998 < utf8_length (chars (times "a" (Z.to_nat 49999))))%Z /\
  query_api catalog_world (times "a" (Z.to_nat 49999))
  = (Raised (OperationalError "LIKE or GLOB pattern too complex"), []).
Proof.
  assert (Hne : api_endpoints catalog_world <> []) by discriminate.
  assert (Hlen : (49998 < utf8_length (chars (times "a" (Z.to_nat 49999))))%Z).
  { rewrite utf8_length_times, Z2Nat.id; lia. }
  split; [exact Hne|]. split; [exact Hlen|].
  destruct (long_query_raises catalog_world (times "a" (Z.to_nat 49999))) as [H _].
  destruct (H Hne Hlen) as [_ E]. exact E.
Defined.

(** ** What [query_api] returns *)

Lemma endpoint_record_returned w r d t :
  endpoint_record w r = (Returned d, t) -> decodable r /\ d = decoded r /\ t = [].
Proof.
  unfold endpoint_record, decodable, decoded, loads_or_raise.
  destruct (String.eqb_spec (row_request_body r) "None") as [Eb|Eb].
  - destruct (json_loads (row_responses r)) as [rs|] eqn:Er; [|discriminate].
    cbn. intros H. injection H as <- <-.
    repeat split; [now left | discriminate].
  - destruct (json_loads (row_request_body r)) as [rb|] eqn:Eq; [|discriminate].
    destruct (json_loads (row_responses r)) as [rs|] eqn:Er; [|discriminate].
    cbn. intros H. injection H as <- <-.
    repeat split; [right; discriminate | discriminate].
Qed.

Lemma for_each_returned w rows ds t :
  for_each (endpoint_record w) rows = (Returned ds, t) ->
  Forall decodable rows /\ ds = map decoded rows /\ t = [].
Proof.
  revert ds t. induction rows as [|r rows IH]; intros ds t H.
  - injection H as <- <-. repeat split. constructor.
  - cbn [for_each] in H. unfold bind at 1 in H.
    destruct (endpoint_record w r) as [[d|e] t1] eqn:Er; [|discriminate H].
    destruct (endpoint_record_returned _ _ Er) as (Hr & -> & ->).
    unfold bind at 1 in H.
    destruct (for_each (endpoint_record w) rows) as [[ds'|e] t2] eqn:Ef; [|discriminate H].
    destruct (IH ds' t2 eq_refl) as (Hrows & -> & ->).
    cbn in H. injection H as <- <-. repeat split. now constructor.
Qed.

Lemma search_endpoint_returned w query records t :
  search_endpoint w query = (Returned records, t) ->
  exists rows,
    query_db.search_endpoint w query = (Returned rows, []) /\
    Forall decodable rows /\ records = map decoded rows /\ t = [].
Proof.
  unfold search_endpoint, query_db.search_endpoint. intros H.
  assert (Hs : exists rows, select_endpoints (api_endpoints w) query = (Returned rows, [])
                            \/ exists e, select_endpoints (api_endpoints w) query
                                         = (Raised e, [])).
  { unfold select_endpoints. destruct (api_endpoints w); [exists []; now left|].
    destruct (_ <? _)%Z.
    - exists []. right. eexists. reflexivity.
    - eexists. left. reflexivity. }
  destruct Hs as (rows & [Hs|(e & Hs)]); rewrite Hs in H; [|discriminate H].
  unfold bind at 1 in H.
  destruct (for_each (endpoint_record w) rows) as [[ds|e] t'] eqn:Ef; [|discriminate H].
  destruct (for_each_returned _ _ Ef) as (Hrows & -> & ->).
  cbn in H. injection H as <- <-. exists rows. auto.
Qed.

Lemma decoded_values_wf r :
  json_wf (if String.eqb (row_request_body r) "None" then JNull
           else or_default (json_loads (row_request_body r)) JNull) /\
  json_wf (or_default (json_loads (row_responses r)) JNull).
Proof.
  split.
  - destruct (String.eqb (row_request_body r) "None"); [exact I|].
    destruct (json_loads (row_request_body r)) eqn:E; [|exact I].
    now apply json_loads_wf in E.
  - destruct (json_loads (row_responses r)) eqn:E; [|exact I].
    now apply json_loads_wf in E.
Qed.

Lemma available_fields r :
  available r
  = JDict [("path", JStr (row_path r));
           ("description", JStr (row_description r));
           ("method", JStr (row_method r));
           ("request_body",
            if String.eqb (row_request_body r) "None" then JNull
            else or_default (json_loads (row_request_body r)) JNull);
           ("response", or_default (json_loads (row_responses r)) JNull)].
Proof. reflexivity. Qed.

Lemma available_wf r : json_wf (available r).
Proof.
  rewrite available_fields. destruct (decoded_values_wf r) as [Hb Hs].
  apply json_wf_dict. split.
  - cbn. repeat constructor; cbn; intuition discriminate.
  - repeat constructor; assumption.
Qed.

(** X15.  Whenever [query_api] returns, it returns JSON text, and the text
    decodes to what was written.  The rows behind it are the rows the
    query of the script [query_db.py] selects: without a row the object
    holds the key [error] alone; otherwise it holds under
    [available_paths] one object for each row, in the order of the rows,
    with the path, the description and the method of the row, its decoded
    request body ([null] for the text [None]) and, under the key
    [response], its decoded responses. *)
Theorem query_api_text w query v :
  fst (query_api w query) = Returned v ->
  exists rows body,
    query_db.search_endpoint w query = (Returned rows, []) /\
    v = JStr (json_dumps body) /\
    json_loads (json_dumps body) = Some body /\
    body = match rows with
           | [] => JDict [("error", JStr "No matching endpoints found")]
           | _ :: _ => JDict [("available_paths", JList (map available rows))]
           end /\
    Forall (fun r =>
              available r
              = JDict [("path", JStr (row_path r));
                       ("description", JStr (row_description r));
                       ("method", JStr (row_method r));
                       ("request_body",
                        if String.eqb (row_request_body r) "None" then JNull
                        else or_default (json_loads (row_request_body r)) JNull);
                       ("response", or_default (json_loads (row_responses r)) JNull)] /\
              (row_request_body r = "None" \/ json_loads (row_request_body r) <> None) /\
              json_loads (row_responses r) <> None) rows.
Proof.
  unfold query_api. intros H. unfold bind at 1 in H.
  destruct (search_endpoint w query) as [[records|e] t] eqn:Es; [|discriminate H].
  destruct (search_endpoint_returned _ _ Es) as (rows & Hq & Hrows & -> & ->).
  exists rows.
  exists (match rows with
          | [] => JDict [("error", JStr "No matching endpoints found")]
          | _ :: _ => JDict [("available_paths", JList (map available rows))]
          end).
  split; [exact Hq|].
  assert (Hf : Forall (fun r =>
              available r
              = JDict [("path", JStr (row_path r));
                       ("description", JStr (row_description r));
                       ("method", JStr (row_method r));
                       ("request_body",
                        if String.eqb (row_request_body r) "None" then JNull
                        else or_default (json_loads (row_request_body r)) JNull);
                       ("response", or_default (json_loads (row_responses r)) JNull)] /\
              (row_request_body r = "None" \/ json_loads (row_request_body r) <> None) /\
              json_loads (row_responses r) <> None) rows).
  { eapply Forall_impl; [|exact Hrows]. intros r [Hb Hs]. cbv beta.
    split; [apply available_fields | now split]. }
  destruct rows as [|r rows].
  - change (Returned (JStr (json_dumps no_matching_endpoints)) = Returned v) in H.
    injection H as <-.
    split; [reflexivity|]. split; [reflexivity|]. split; [reflexivity | exact Hf].
  - change (Returned (JStr (json_dumps
              (JDict [("available_paths",
                       JList (map available_path (map decoded (r :: rows))))])))
            = Returned v) in H.
    injection H as <-. rewrite map_map. fold available.
    split; [reflexivity|]. split; [|split; [reflexivity | exact Hf]].
    apply json_loads_dumps. apply json_wf_dict. split.
    + cbn. constructor; [intros [] | constructor].
    + constructor; [|constructor]. cbn [snd]. apply json_wf_list.
      rewrite Forall_forall. intros x Hx. apply in_map_iff in Hx.
      destruct Hx as (r0 & <- & _). apply available_wf.
Qed.

Lemma query_api_text_witness :
  let v := JStr (json_dumps (JDict [("available_paths",
                                     JList (map available (tl (api_endpoints catalog_world))))])) in
  fst (query_api catalog_world "work_packages") = Returned v /\
  exists rows body,
    query_db.search_endpoint catalog_world "work_packages" = (Returned rows, []) /\
    v = JStr (json_dumps body) /\
    json_loads (json_dumps body) = Some body.
Proof.
  intros v.
  assert (H : fst (query_api catalog_world "work_packages") = Returned v) by reflexivity.
  split; [exact H|].
  destruct (query_api_text catalog_world "work_packages" H)
    as (rows & body & Hq & Hv & Hl & _).
  exists rows, body. auto.
Defined.

(** ** A longer query *)







(* ================================================================== *)
(** * Part XV.  The orchestrator: properties *)
(* ================================================================== *)

(** ** [is_done] *)

Lemma prefixb_spec p s : prefixb p s = true <-> exists post, s = p ++ post.
Proof.
  revert s. induction p as [|a p IH]; intros s; cbn [prefixb].
  - split; [intros _; now exists s | reflexivity].
  - destruct s as [|b s].
    + split; [discriminate | intros [post H]; discriminate H].
    + rewrite Bool.andb_true_iff, IH. split.
      * intros [Hab [post ->]]. apply Ascii.eqb_eq in Hab. subst. now exists post.
      * intros [post H]. cbn in H. injection H as -> ->.
        split; [apply Ascii.eqb_refl | now exists post].
Qed.

Lemma occursb_spec p s : occursb p s = true <-> exists pre post, s = pre ++ p ++ post.
Proof.
  induction s as [|c s IH]; cbn [occursb]; rewrite Bool.orb_true_iff, prefixb_spec.
  - split.
    + intros [[post H]|H]; [|discriminate H]. now exists [], post.
    + intros (pre & post & H). left. destruct pre; [now exists post|discriminate H].
  - rewrite IH. split.
    + intros [[post H]|(pre & post & H)].
      * now exists [], post.
      * exists (c :: pre), post. cbn. now rewrite H.
    + intros (pre & post & H). destruct pre as [|x pre].
      * left. now exists post.
      * right. cbn in H. injection H as _ ->. now exists pre, post.
Qed.

Lemma text_app a b : text (a ++ b) = (text a ++ text b)%string.
Proof. induction a as [|c a IH]; [reflexivity|]. cbn. unfold text in IH. now rewrite IH. Qed.

Lemma lower_append a b : lower (a ++ b)%string = (lower a ++ lower b)%string.
Proof. unfold lower. now rewrite chars_append, map_app, text_app. Qed.

Lemma contains_spec query value :
  contains query value = true <-> exists pre post, value = (pre ++ query ++ post)%string.
Proof.
  unfold contains. rewrite occursb_spec. split.
  - intros (pre & post & H). exists (text pre), (text post).
    apply (f_equal text) in H. now rewrite text_chars, !text_app, text_chars in H.
  - intros (pre & post & ->). exists (chars pre), (chars post).
    now rewrite !chars_append.
Qed.

Local Open Scope string_scope.

Lemma is_done_str msg s :
  dict_get msg "content" = Some (JStr s) ->
  pm_launch.is_done msg = inl (contains "task complete" (lower s)).
Proof.
  intros H. unfold pm_launch.is_done. rewrite H. cbn [pm_launch.truthy].
  destruct s; reflexivity.
Qed.

(** X16.  [is_done] ends the conversation on the words [task complete] in
    any letter case, anywhere in the content of the message, and on
    nothing else.  A message without content, or with [None] or another
    false value as its content, is not the end; a content that is true
    and is not a string makes [is_done] raise [AttributeError]. *)
Theorem is_done_task_complete (msg : dict) :
  (forall s,
      dict_get msg "content" = Some (JStr s) ->
      (pm_launch.is_done msg = inl true <->
       exists pre post, lower s = pre ++ "task complete" ++ post) /\
      (pm_launch.is_done msg = inl true \/ pm_launch.is_done msg = inl false)) /\
  (forall pre phrase post,
      lower phrase = "task complete" ->
      dict_get msg "content" = Some (JStr (pre ++ phrase ++ post)) ->
      pm_launch.is_done msg = inl true) /\
  (dict_get msg "content" = None -> pm_launch.is_done msg = inl false) /\
  (forall v,
      dict_get msg "content" = Some v ->
      pm_launch.truthy v = false ->
      pm_launch.is_done msg = inl false) /\
  (forall v,
      dict_get msg "content" = Some v ->
      pm_launch.truthy v = true ->
      (forall s, v <> JStr s) ->
      pm_launch.is_done msg
      = inr ("'" ++ pm_launch.type_name v ++ "' object has no attribute 'lower'")).
Proof.
  repeat apply conj.
  - intros s H. rewrite (is_done_str msg H). split.
    + rewrite <- contains_spec.
      destruct (contains "task complete" (lower s)); split; congruence.
    + destruct (contains "task complete" (lower s)); auto.
  - intros pre phrase post Hp H. rewrite (is_done_str msg H). f_equal.
    apply contains_spec. exists (lower pre), (lower post).
    now rewrite !lower_append, Hp.
  - intros H. unfold pm_launch.is_done. now rewrite H.
  - intros v H Hv. unfold pm_launch.is_done. now rewrite H, Hv.
  - intros v H Hv Hs. unfold pm_launch.is_done. rewrite H, Hv.
    destruct v; try reflexivity. now contradiction (Hs s).
Qed.

(** ** The payloads *)

(** X17.  What the tool functions of the orchestrator post.  The required
    arguments are always in the payload; an optional text is there when it
    is not empty and an optional id when it is not 0, while
    [percentage_done] of [update_work_package] is there whenever it was
    given, 0 included.  [list_projects] posts the caller's filters, or the
    empty object for no filters and for empty filters. *)
Theorem orchestrator_payloads :
  (forall work_package_id lock_version notify status_id description percentage_done,
      let payload := pm_launch.update_work_package_payload work_package_id lock_version
                       notify status_id description percentage_done in
      dict_get payload "work_package_id" = Some (JInt work_package_id) /\
      dict_get payload "lock_version" = Some (JInt lock_version) /\
      dict_get payload "notify" = Some (JBool notify) /\
      dict_get payload "status_id" = option_map JInt (if_int status_id) /\
      dict_get payload "description" = option_map JStr (if_str description) /\
      dict_get payload "percentage_done" = option_map JInt percentage_done) /\
  (forall project_id subject notify description status_id type_id priority_id,
      let payload := pm_launch.create_work_package_payload project_id subject notify
                       description status_id type_id priority_id in
      dict_get payload "project_id" = Some (JInt project_id) /\
      dict_get payload "subject" = Some (JStr subject) /\
      dict_get payload "notify" = Some (JBool notify) /\
      dict_get payload "description" = option_map JStr (if_str description) /\
      dict_get payload "status_id" = option_map JInt (if_int status_id) /\
      dict_get payload "type_id" = option_map JInt (if_int type_id) /\
      dict_get payload "priority_id" = option_map JInt (if_int priority_id)) /\
  (forall name public description identifier status_explanation,
      let payload := pm_launch.create_project_payload name public description identifier
                       status_explanation in
      dict_get payload "name" = Some (JStr name) /\
      dict_get payload "public" = Some (JBool public) /\
      dict_get payload "description" = option_map JStr (if_str description) /\
      dict_get payload "identifier" = option_map JStr (if_str identifier) /\
      dict_get payload "status_explanation" = option_map JStr (if_str status_explanation)) /\
  (forall project_id offset page_size filters sort_by,
      let payload := pm_launch.get_project_work_packages_payload project_id offset
                       page_size filters sort_by in
      dict_get payload "project_id" = Some (JInt project_id) /\
      dict_get (pm_launch.get_project_work_packages_payload project_id None page_size
                  filters sort_by) "offset" = Some (JInt 1) /\
      dict_get (pm_launch.get_project_work_packages_payload project_id offset None
                  filters sort_by) "page_size" = Some (JInt 20) /\
      dict_get payload "filters"
      = match filters with
        | Some f => if pm_launch.filter_truthy f then Some (filter_value f) else None
        | None => None
        end /\
      dict_get payload "sort_by"
      = match sort_by with
        | Some (d :: l) => Some (JList (map JDict (d :: l)))
        | _ => None
        end) /\
  (forall work_package_id current_time,
      pm_launch.view_work_package_payload work_package_id current_time
      = [("work_package_id", match work_package_id with
                             | Some n => JInt n
                             | None => JNull
                             end);
         ("timestamps", JList [JStr current_time])]) /\
  (forall filters,
      pm_launch.list_projects_payload filters
      = JDict (if opt_dict_truthy filters then or_default filters [] else [])) /\
  (forall o, if_str o = None <-> o = None \/ o = Some EmptyString) /\
  (forall o, if_int o = None <-> o = None \/ o = Some 0).
Proof.
  repeat apply conj.
  - intros work_package_id lock_version notify status_id description percentage_done.
    cbv zeta. unfold pm_launch.update_work_package_payload.
    destruct (if_int status_id), (if_str description), percentage_done;
      repeat split; reflexivity.
  - intros project_id subject notify description status_id type_id priority_id.
    cbv zeta. unfold pm_launch.create_work_package_payload.
    destruct (if_str description), (if_int status_id), (if_int type_id),
      (if_int priority_id); repeat split; reflexivity.
  - intros name public description identifier status_explanation.
    cbv zeta. unfold pm_launch.create_project_payload.
    destruct (if_str description), (if_str identifier), (if_str status_explanation);
      repeat split; reflexivity.
  - intros project_id offset page_size filters sort_by.
    cbv zeta. unfold pm_launch.get_project_work_packages_payload.
    destruct filters as [f|]; [destruct (pm_launch.filter_truthy f)|];
      destruct sort_by as [[|d l]|]; repeat split; reflexivity.
  - intros [n|] current_time; reflexivity.
  - intros [[|kv d]|]; reflexivity.
  - exact if_str_none.
  - exact if_int_none.
Qed.

(** ** The answers of the server *)

Lemma post_checked_posts tw url payload failure :
  snd (pm_launch.post_checked tw url payload failure)
  = [{| pm_launch.post_url := url; pm_launch.post_headers := pm_launch.pm_headers;
        pm_launch.post_json := payload |}].
Proof.
  unfold pm_launch.post_checked.
  destruct (pm_launch.mcp_server tw _) as [status_code body|message]; [|reflexivity].
  destruct (pm_launch.is_error_status status_code); [reflexivity|].
  destruct (json_loads body); [reflexivity|].
  destruct (pm_launch.body_error_is_request_exception tw); reflexivity.
Qed.

Lemma post_unchecked_posts tw url payload :
  snd (pm_launch.post_unchecked tw url payload)
  = [{| pm_launch.post_url := url; pm_launch.post_headers := pm_launch.pm_headers;
        pm_launch.post_json := payload |}].
Proof.
  unfold pm_launch.post_unchecked.
  destruct (pm_launch.mcp_server tw _) as [status_code body|message]; [|reflexivity].
  destruct (json_loads body); reflexivity.
Qed.







Example comment_work_package_refused :
  fst (pm_launch.run_tool refusing_server (pm_launch.CommentWorkPackage 7 "Done" None))
  = Returned (JDict [("error",
       JStr ("Failed to add comment to WP 7: 422 Client Error: Unprocessable Entity "
             ++ "for url: http://172.18.33.132:8034/comment_work_package"))]).
Proof. reflexivity. Qed.

(** ** The names of the arguments *)

(** X20.  Every key the orchestrator posts is the name of a parameter of
    the operation of the gateway with the name of the tool, and every
    parameter without a default of that operation is among the keys; the
    one exception is [list_projects] with filters, which posts the
    caller's own dictionary to an operation without parameters. *)
Theorem orchestrator_posts_declared_parameters tw c :
  posts_its_arguments c = true ->
  exists payload,
    posted tw c = [JDict payload] /\
    all_in (dict_keys payload) (declared (pm_launch.tool_name c)) = true /\
    all_in (required (pm_launch.tool_name c)) (dict_keys payload) = true.
Proof.
  intros H. unfold posted.
  destruct c; cbn [pm_launch.run_tool pm_launch.tool_name];
    unfold pm_launch.list_projects, pm_launch.get_project_work_packages,
      pm_launch.create_project, pm_launch.create_work_package,
      pm_launch.update_work_package, pm_launch.view_work_package,
      pm_launch.comment_work_package, pm_launch.list_statuses;
    cbv zeta; rewrite ?post_checked_posts, ?post_unchecked_posts;
    cbn [map pm_launch.post_json].
  - destruct filters as [[|kv d]|]; try discriminate H;
      exists []; repeat split; reflexivity.
  - eexists. split; [reflexivity|].
    unfold pm_launch.get_project_work_packages_payload.
    destruct filters as [f|]; [destruct (pm_launch.filter_truthy f)|];
      (destruct sort_by as [l|]; [destruct (pm_launch.list_truthy l)|]);
      split; reflexivity.
  - eexists. split; [reflexivity|].
    unfold pm_launch.create_project_payload.
    destruct (if_str description), (if_str identifier), (if_str status_explanation);
      split; reflexivity.
  - eexists. split; [reflexivity|].
    unfold pm_launch.create_work_package_payload.
    destruct (if_str description), (if_int status_id), (if_int type_id),
      (if_int priority_id); split; reflexivity.
  - eexists. split; [reflexivity|].
    unfold pm_launch.update_work_package_payload.
    destruct (if_int status_id), (if_str description), percentage_done;
      split; reflexivity.
  - eexists. repeat split; reflexivity.
  - eexists. repeat split; reflexivity.
  - exists []. repeat split; reflexivity.
Qed.

Lemma orchestrator_posts_declared_parameters_witness :
  let c := pm_launch.UpdateWorkPackage 7 3 None (Some 12) None (Some 0) in
  posts_its_arguments c = true /\
  posted refusing_server c
  = [JDict [("work_package_id", JInt 7); ("lock_version", JInt 3);
            ("notify", JBool true); ("status_id", JInt 12);
            ("percentage_done", JInt 0)]] /\
  exists payload,
    posted refusing_server c = [JDict payload] /\
    all_in (dict_keys payload) (declared "update_work_package") = true /\
    all_in (required "update_work_package") (dict_keys payload) = true.
Proof.
  intros c. split; [reflexivity|]. split; [reflexivity|].
  exact (orchestrator_posts_declared_parameters refusing_server c eq_refl).
Defined.
